(** * A verification development for the craw OAuth desktop client

    The development embeds the TypeScript sources of the repository:

    - [src/api/GitHubAPI.ts]            (module [GitHubAPI]),
    - [src/oauth/OAuthManager.ts]       (module [OAuthManager]),
    - [src/oauth/UserSessionManager.ts] (modules [Keytar] and [FileStore],
      the two variants of the session manager that the file contains).

    Asynchronous functions are written in a state-and-exception monad: an
    [await] is a sequencing point, a rejected promise is a thrown [Error].
    The outside world (credential store, clock, timers, network, registered
    callbacks) is an explicit [World] value threaded through every call. *)

From Stdlib Require Import ZArith String List Bool Lia.
From stdpp Require Import base option gmap strings list.

Open Scope string_scope.
Open Scope Z_scope.

(** ** JavaScript values *)

Module JS.

(** Truthiness of a [string | null] value: [null], [undefined] and the
    empty string are falsy. *)
Definition truthy (v : option string) : bool :=
  match v with
  | None => false
  | Some s => negb (String.eqb s "")
  end.

(** Truthiness of a [number | undefined] value restricted to integers:
    [undefined] and [0] are falsy. *)
Definition truthy_num (v : option Z) : bool :=
  match v with
  | None => false
  | Some n => negb (n =? 0)
  end.

(** [!v] for an object reference: only [null] is falsy. *)
Definition is_null {A} (v : option A) : bool :=
  match v with
  | None => true
  | Some _ => false
  end.

(** [a || b] on [string | null]. *)
Definition or_else (a b : option string) : option string :=
  if truthy a then a else b.

End JS.

(** ** Errors

    Every [new Error(...)] of the sources is one constructor; a wrapping
    template string keeps the wrapped error as [cause]. *)

Inductive StoreOp :=
| OpSet (key : string)
| OpGet (key : string)
| OpDelete (key : string).

Inductive Error :=
| FetchRejected (msg : string)              (* the fetch promise rejects *)
| HttpStatus (status : Z) (text : string)   (* `HTTP ${status}: ${text}` *)
| BodyNotJSON                               (* response.json() rejects *)
| GitHubTokenError (error : string) (description : option string)
| NoAccessToken                             (* '未收到访问令牌' *)
| ExchangeFailed (cause : Error)            (* `换取访问令牌失败: ...` *)
| UserInfoFailed (cause : Error)            (* `获取用户信息失败: ...` *)
| UserEmailsFailed (cause : Error)          (* `获取邮箱信息失败: ...` *)
| StoreFault (op : StoreOp)                 (* the store call rejects *)
| JSONSyntax                                (* JSON.parse or a member access throws *)
| TypeError                                 (* a member of undefined is read *)
| SaveSessionFailed (cause : Error)         (* `保存用户会话失败: ...` *)
| RefreshFailed (cause : Error)             (* `刷新用户信息失败: ...` *)
| ProviderAuthorizationError (error : string) (description : option string)
                                            (* `GitHub 授权错误: ...` *)
| StateMismatchError                        (* 'State 参数不匹配，可能存在安全风险' *)
| MissingAuthorizationCode                  (* '未收到授权码' *)
| CallbackServerFailed                      (* `回调服务器启动失败: ...` *)
| AuthorizationTimeout                      (* '授权超时' *)
| AuthorizationSuperseded                   (* '新的授权请求已开始' *)
| AuthorizationCancelled                    (* '授权已取消' *)
| NoCodeObtained                            (* '未能获取到授权码' *)
| NoTokenObtained                           (* '未能获取访问令牌' *)
| BrowserFailed.                            (* shell.openExternal rejects *)

(** ** The monad of asynchronous code *)

Inductive Res (A : Type) :=
| Ok (a : A)
| Throw (e : Error).
Arguments Ok {A} a.
Arguments Throw {A} e.

Definition M (S A : Type) : Type := S -> Res A * S.

Definition ret {S A} (a : A) : M S A := fun s => (Ok a, s).

Definition throw {S A} (e : Error) : M S A := fun s => (Throw e, s).

Definition bind {S A B} (m : M S A) (k : A -> M S B) : M S B :=
  fun s =>
    match m s with
    | (Ok a, s') => k a s'
    | (Throw e, s') => (Throw e, s')
    end.

(** [try { m } catch (error) { h error }] *)
Definition try_catch {S A} (m : M S A) (h : Error -> M S A) : M S A :=
  fun s =>
    match m s with
    | (Ok a, s') => (Ok a, s')
    | (Throw e, s') => h e s'
    end.

(** [try { m } finally { f }], for a [finally] block that does not throw. *)
Definition try_finally {S A} (m : M S A) (f : S -> S) : M S A :=
  fun s => let (r, s') := m s in (r, f s').

Definition get {S} : M S S := fun s => (Ok s, s).
Definition gets {S A} (f : S -> A) : M S A := fun s => (Ok (f s), s).
Definition modify {S} (f : S -> S) : M S unit := fun s => (Ok tt, f s).

(** Run a computation on a component of the state. *)
Definition zoom {S T A} (proj : S -> T) (upd : T -> S -> S) (m : M T A) : M S A :=
  fun s => let (r, t') := m (proj s) in (r, upd t' s).

Declare Scope async_scope.
Delimit Scope async_scope with async.
Notation "'await' x <- m 'in' k" := (bind m (fun x => k))
  (at level 10, x name, m at level 100, k at level 200) : async_scope.
Notation "m >> k" := (bind m (fun _ => k))
  (at level 61, left associativity) : async_scope.
Open Scope async_scope.

Definition when {S} (b : bool) (m : M S unit) : M S unit :=
  if b then m else ret tt.

(** ** Data model *)

(** [interface GitHubUser], with the optional [primaryEmail] member that
    [getCompleteUserProfile] adds. *)
Record GitHubUser := {
  id : Z;
  login : string;
  name : option string;
  email : option string;
  avatar_url : string;
  bio : option string;
  public_repos : Z;
  followers : Z;
  following : Z;
  created_at : string;
  primaryEmail : option string
}.

Record GitHubEmail := {
  em_email : string;
  em_primary : bool;
  em_verified : bool;
  em_visibility : option string
}.

Record TokenResponse := {
  access_token : string;
  token_type : string;
  scope : string;
  tr_error : option string;
  tr_error_description : option string
}.

(** The [token] member of [UserSession]. *)
Record Token := {
  tk_access_token : string;
  tk_token_type : string;
  tk_scope : string
}.

(** [interface UserSession]; the file-store variant declares no [expiresAt]
    and never persists it. *)
Record UserSession := {
  user : GitHubUser;
  token : Token;
  createdAt : Z;
  lastValidatedAt : Z;
  expiresAt : option Z
}.

(** The object literal [sessionData] that both variants serialise under
    [USER_KEY]: the session without the raw access token.  Read back from
    the store, [lastValidatedAt] may be missing. *)
Record SessionData := {
  sd_user : GitHubUser;
  sd_token_type : string;
  sd_scope : string;
  sd_createdAt : Z;
  sd_lastValidatedAt : option Z;
  sd_expiresAt : option Z
}.

(** [interface SessionEvents]: which callbacks are registered. *)
Record SessionEvents := {
  onSessionExpired : bool;
  onSessionRefreshed : bool;
  onSessionError : bool;
  onAutoLogout : bool
}.

(** The argument of [setEventCallbacks]: for each key, absent ([None]) or
    present with a function ([Some true]) or with [undefined]
    ([Some false]). *)
Record SessionEventsPatch := {
  patchSessionExpired : option bool;
  patchSessionRefreshed : option bool;
  patchSessionError : option bool;
  patchAutoLogout : option bool
}.

(** A callback invocation, as observed by the host process. *)
Inductive Event :=
| SessionExpired
| SessionRefreshed (s : UserSession)
| SessionError (e : Error)
| AutoLogout.

(** ** The world outside the managers *)

(** What [fetch] yields: a rejected promise, or a response whose [json()]
    either parses to the expected shape or rejects. *)
Inductive Fetch (A : Type) :=
| Rejected (msg : string)
| Response (status : Z) (statusText : string) (text : string) (json : option A).
Arguments Rejected {A} msg.
Arguments Response {A} status statusText text json.

(** [response.ok] *)
Definition ok_status (status : Z) : bool := (200 <=? status) && (status <=? 299).

(** The provider, as seen at one moment: the answer of each endpoint. *)
Record Network := {
  token_endpoint : string -> Fetch TokenResponse;   (* by authorization code *)
  user_endpoint : string -> Fetch GitHubUser;       (* by bearer token *)
  emails_endpoint : string -> Fetch (list GitHubEmail)
}.

Inductive Request :=
| PostAccessToken (code : string)
| GetUser (bearer : string)
| GetUserEmails (bearer : string).

(** The two maintenance callbacks handed to [setInterval]. *)
Inductive Tick := ValidationTick | RefreshTick.

Record World := {
  store : gmap string string;       (* keychain entries / session files *)
  faults : StoreOp -> bool;         (* store calls that fail *)
  now : Z;                          (* Date.now() *)
  fired : list Event;               (* callbacks invoked, oldest first *)
  intervals : gmap nat (Tick * Z);  (* live setInterval handles *)
  nextHandle : nat;
  github : Network;
  requests : list Request           (* network calls started, oldest first *)
}.

Definition set_store (f : gmap string string -> gmap string string) (w : World) : World :=
  {| store := f (store w); faults := faults w; now := now w; fired := fired w;
     intervals := intervals w; nextHandle := nextHandle w; github := github w;
     requests := requests w |}.

Definition set_fired (f : list Event -> list Event) (w : World) : World :=
  {| store := store w; faults := faults w; now := now w; fired := f (fired w);
     intervals := intervals w; nextHandle := nextHandle w; github := github w;
     requests := requests w |}.

Definition set_intervals (f : gmap nat (Tick * Z) -> gmap nat (Tick * Z))
    (n : nat) (w : World) : World :=
  {| store := store w; faults := faults w; now := now w; fired := fired w;
     intervals := f (intervals w); nextHandle := n; github := github w;
     requests := requests w |}.

Definition set_requests (f : list Request -> list Request) (w : World) : World :=
  {| store := store w; faults := faults w; now := now w; fired := fired w;
     intervals := intervals w; nextHandle := nextHandle w; github := github w;
     requests := f (requests w) |}.

(** The environment moves on between two calls of the program. *)
Definition set_github (n : Network) (w : World) : World :=
  {| store := store w; faults := faults w; now := now w; fired := fired w;
     intervals := intervals w; nextHandle := nextHandle w; github := n;
     requests := requests w |}.

Definition set_now (t : Z) (w : World) : World :=
  {| store := store w; faults := faults w; now := t; fired := fired w;
     intervals := intervals w; nextHandle := nextHandle w; github := github w;
     requests := requests w |}.

Definition set_faults (f : StoreOp -> bool) (w : World) : World :=
  {| store := store w; faults := f; now := now w; fired := fired w;
     intervals := intervals w; nextHandle := nextHandle w; github := github w;
     requests := requests w |}.

(** ** src/api/GitHubAPI.ts *)

Module GitHubAPI.

(** [await fetch(...)], recording the request. *)
Definition fetch {A} (r : Request) (endpoint : Network -> Fetch A)
    : M World (Z * string * string * option A) :=
  fun w =>
    let w' := set_requests (fun l => (l ++ [r])%list) w in
    match endpoint (github w) with
    | Rejected msg => (Throw (FetchRejected msg), w')
    | Response status statusText text json =>
        (Ok (status, statusText, text, json), w')
    end.

(** [await response.json()] *)
Definition json {A} (body : option A) : M World A :=
  match body with
  | Some a => ret a
  | None => throw BodyNotJSON
  end.

Definition exchangeCodeForToken (code : string) : M World TokenResponse :=
  try_catch
    (await response <- fetch (PostAccessToken code) (fun n => token_endpoint n code) in
     let '(status, statusText, _, body) := response in
     if negb (ok_status status) then throw (HttpStatus status statusText)
     else
       await data <- json body in
       if JS.truthy (tr_error data) then
         throw (GitHubTokenError (default "" (tr_error data))
                                 (tr_error_description data))
       else if negb (JS.truthy (Some (access_token data))) then
         throw NoAccessToken
       else ret data)
    (fun error => throw (ExchangeFailed error)).

Definition getUserInfo (accessToken : string) : M World GitHubUser :=
  try_catch
    (await response <- fetch (GetUser accessToken) (fun n => user_endpoint n accessToken) in
     let '(status, _, errorText, body) := response in
     if negb (ok_status status) then throw (HttpStatus status errorText)
     else
       await userData <- json body in
       ret userData)
    (fun error => throw (UserInfoFailed error)).

Definition getUserEmails (accessToken : string) : M World (list GitHubEmail) :=
  try_catch
    (await response <- fetch (GetUserEmails accessToken)
                             (fun n => emails_endpoint n accessToken) in
     let '(status, _, errorText, body) := response in
     if negb (ok_status status) then throw (HttpStatus status errorText)
     else
       await emails <- json body in
       ret emails)
    (fun error => throw (UserEmailsFailed error)).

(** [emails.find(email => email.primary && email.verified)] *)
Definition find_primary (emails : list GitHubEmail) : option GitHubEmail :=
  List.find (fun email => em_primary email && em_verified email) emails.

Definition getPrimaryEmail (accessToken : string) : M World (option string) :=
  try_catch
    (await emails <- getUserEmails accessToken in
     let primaryEmail := find_primary emails in
     ret (match primaryEmail with
          | Some e => Some (em_email e)
          | None => None
          end))
    (fun _ => ret None).

(** [{ ...userInfo, primaryEmail: v }] *)
Definition with_primaryEmail (u : GitHubUser) (v : option string) : GitHubUser :=
  {| id := id u; login := login u; name := name u; email := email u;
     avatar_url := avatar_url u; bio := bio u; public_repos := public_repos u;
     followers := followers u; following := following u;
     created_at := created_at u; primaryEmail := v |}.

Definition getCompleteUserProfile (accessToken : string) : M World GitHubUser :=
  await userInfo <- getUserInfo accessToken in
  if negb (JS.truthy (email userInfo)) then
    await primaryEmail <- getPrimaryEmail accessToken in
    (* primaryEmail || undefined *)
    ret (with_primaryEmail userInfo (JS.or_else primaryEmail None))
  else ret userInfo.

End GitHubAPI.

(** ** The session store and the JSON codec *)

Definition TOKEN_KEY : string := "github_access_token".
Definition USER_KEY : string := "github_user_data".

Definition AUTO_REFRESH_INTERVAL : Z := 30 * 60 * 1000.
Definition TOKEN_VALIDATION_INTERVAL : Z := 60 * 60 * 1000.
Definition MAX_RETRY_ATTEMPTS : Z := 3.

(** [JSON.stringify] and [JSON.parse] at the type of [sessionData].
    [JSON_parse] is [None] when [JSON.parse] throws, or when reading the
    members of its result does. *)
Class JSON := {
  JSON_stringify : SessionData -> string;
  JSON_parse : string -> option SessionData
}.

(** The platform's codec restores the document [d] from its text. *)
Definition json_roundtrip `{JSON} (d : SessionData) : Prop :=
  JSON_stringify d <> "" /\ JSON_parse (JSON_stringify d) = Some d.

(** The object literal built in [saveSession] and [updateSessionData]. *)
Definition sessionData (session : UserSession) : SessionData :=
  {| sd_user := user session;
     sd_token_type := tk_token_type (token session);
     sd_scope := tk_scope (token session);
     sd_createdAt := createdAt session;
     sd_lastValidatedAt := Some (lastValidatedAt session);
     sd_expiresAt := expiresAt session |}.

(** [setInterval] / [clearInterval] *)
Definition setInterval (cb : Tick) (ms : Z) : M World nat :=
  fun w =>
    let h := nextHandle w in
    (Ok h, set_intervals (fun t => <[h := (cb, ms)]> t) (S h) w).

Definition clearInterval (h : nat) : M World unit :=
  modify (fun w => set_intervals (fun t => delete h t) (nextHandle w) w).

(** [Date.now()] *)
Definition Date_now : M World Z := gets now.

(** Invoke a registered callback. *)
Definition fire (e : Event) : M World unit :=
  modify (set_fired (fun l => (l ++ [e])%list)).

(** ** src/oauth/UserSessionManager.ts, first variant (keytar) *)

Module Keytar.

(** [keytar.setPassword], [getPassword], [deletePassword] for the one
    service name [SERVICE_NAME]; each may reject.  The JavaScript
    wrapper of keytar also throws ('Password is required.') when the
    password is the empty string; that case is not told apart here, an
    empty password is stored: the application never holds an empty
    access token, since the token exchange rejects one. *)
Definition setPassword (account password : string) : M World unit :=
  fun w =>
    if faults w (OpSet account) then (Throw (StoreFault (OpSet account)), w)
    else (Ok tt, set_store (fun m => <[account := password]> m) w).

Definition getPassword (account : string) : M World (option string) :=
  fun w =>
    if faults w (OpGet account) then (Throw (StoreFault (OpGet account)), w)
    else (Ok (store w !! account), w).

Definition deletePassword (account : string) : M World bool :=
  fun w =>
    if faults w (OpDelete account) then (Throw (StoreFault (OpDelete account)), w)
    else (Ok (negb (JS.is_null (store w !! account))),
          set_store (fun m => delete account m) w).

(** The private members of [class UserSessionManager]. *)
Record Manager := {
  currentSession : option UserSession;
  refreshTimer : option nat;
  validationTimer : option nat;
  eventCallbacks : SessionEvents;
  isRefreshing : bool;
  retryCount : Z
}.

Definition St : Type := Manager * World.

(** The object returned by [getSessionStatus()]. *)
Record SessionStatus := {
  st_isLoggedIn : bool;
  st_lastValidated : option Z;
  st_timeSinceLastValidation : option Z;
  st_isRefreshing : bool;
  st_retryCount : Z
}.

(** [new UserSessionManager(githubAPI)] *)
Definition new : Manager :=
  {| currentSession := None; refreshTimer := None; validationTimer := None;
     eventCallbacks := {| onSessionExpired := false; onSessionRefreshed := false;
                          onSessionError := false; onAutoLogout := false |};
     isRefreshing := false; retryCount := 0 |}.

Definition set_currentSession (v : option UserSession) (m : Manager) : Manager :=
  {| currentSession := v; refreshTimer := refreshTimer m;
     validationTimer := validationTimer m; eventCallbacks := eventCallbacks m;
     isRefreshing := isRefreshing m; retryCount := retryCount m |}.

Definition set_refreshTimer (v : option nat) (m : Manager) : Manager :=
  {| currentSession := currentSession m; refreshTimer := v;
     validationTimer := validationTimer m; eventCallbacks := eventCallbacks m;
     isRefreshing := isRefreshing m; retryCount := retryCount m |}.

Definition set_validationTimer (v : option nat) (m : Manager) : Manager :=
  {| currentSession := currentSession m; refreshTimer := refreshTimer m;
     validationTimer := v; eventCallbacks := eventCallbacks m;
     isRefreshing := isRefreshing m; retryCount := retryCount m |}.

Definition set_eventCallbacks (v : SessionEvents) (m : Manager) : Manager :=
  {| currentSession := currentSession m; refreshTimer := refreshTimer m;
     validationTimer := validationTimer m; eventCallbacks := v;
     isRefreshing := isRefreshing m; retryCount := retryCount m |}.

Definition set_isRefreshing (v : bool) (m : Manager) : Manager :=
  {| currentSession := currentSession m; refreshTimer := refreshTimer m;
     validationTimer := validationTimer m; eventCallbacks := eventCallbacks m;
     isRefreshing := v; retryCount := retryCount m |}.

Definition set_retryCount (v : Z) (m : Manager) : Manager :=
  {| currentSession := currentSession m; refreshTimer := refreshTimer m;
     validationTimer := validationTimer m; eventCallbacks := eventCallbacks m;
     isRefreshing := isRefreshing m; retryCount := v |}.

(** Reading and assigning [this.x]; calls into the world. *)
Definition this {A} (f : Manager -> A) : M St A := gets (fun s => f (fst s)).
Definition assign (f : Manager -> Manager) : M St unit :=
  modify (fun s => (f (fst s), snd s)).
Definition io {A} (m : M World A) : M St A :=
  zoom snd (fun w s => (fst s, w)) m.

(** [if (this.eventCallbacks.cb) this.eventCallbacks.cb(...)] *)
Definition notify (cb : SessionEvents -> bool) (e : Event) : M St unit :=
  await registered <- this (fun m => cb (eventCallbacks m)) in
  when registered (io (fire e)).

Section WithJSON.
Context `{JSON}.

(** [{ ...this.eventCallbacks, ...callbacks }]: a key present in
    [callbacks] replaces the registered callback (by a function, or by
    [undefined]), the others stay. *)
Definition merge (old : SessionEvents) (callbacks : SessionEventsPatch)
    : SessionEvents :=
  {| onSessionExpired := default (onSessionExpired old) (patchSessionExpired callbacks);
     onSessionRefreshed :=
       default (onSessionRefreshed old) (patchSessionRefreshed callbacks);
     onSessionError := default (onSessionError old) (patchSessionError callbacks);
     onAutoLogout := default (onAutoLogout old) (patchAutoLogout callbacks) |}.

Definition setEventCallbacks (callbacks : SessionEventsPatch) : M St unit :=
  assign (fun m => set_eventCallbacks (merge (eventCallbacks m) callbacks) m).

Definition stopAutoMaintenance : M St unit :=
  await vt <- this validationTimer in
  match vt with
  | Some h => io (clearInterval h) >> assign (set_validationTimer None)
  | None => ret tt
  end >>
  await rt <- this refreshTimer in
  match rt with
  | Some h => io (clearInterval h) >> assign (set_refreshTimer None)
  | None => ret tt
  end.

Definition startAutoMaintenance : M St unit :=
  stopAutoMaintenance >>
  await vt <- io (setInterval ValidationTick TOKEN_VALIDATION_INTERVAL) in
  assign (set_validationTimer (Some vt)) >>
  await rt <- io (setInterval RefreshTick AUTO_REFRESH_INTERVAL) in
  assign (set_refreshTimer (Some rt)).

Definition saveSession (session : UserSession) : M St unit :=
  try_catch
    (io (setPassword TOKEN_KEY (tk_access_token (token session))) >>
     io (setPassword USER_KEY (JSON_stringify (sessionData session))) >>
     assign (set_currentSession (Some session)) >>
     startAutoMaintenance)
    (fun error => throw (SaveSessionFailed error)).

Definition clearSession : M St unit :=
  try_catch
    (stopAutoMaintenance >>
     io (deletePassword TOKEN_KEY) >>
     io (deletePassword USER_KEY) >>
     assign (set_currentSession None) >>
     assign (set_retryCount 0))
    (fun _ =>
     assign (set_currentSession None) >>
     assign (set_retryCount 0)).

(** The session rebuilt in [loadSession] from the secret and the parsed
    metadata; [sessionData.lastValidatedAt || sessionData.createdAt]. *)
Definition rebuilt (accessToken : string) (d : SessionData) : UserSession :=
  {| user := sd_user d;
     token := {| tk_access_token := accessToken;
                 tk_token_type := sd_token_type d;
                 tk_scope := sd_scope d |};
     createdAt := sd_createdAt d;
     lastValidatedAt :=
       if JS.truthy_num (sd_lastValidatedAt d)
       then default 0 (sd_lastValidatedAt d) else sd_createdAt d;
     expiresAt := sd_expiresAt d |}.

Definition loadSession : M St (option UserSession) :=
  try_catch
    (await accessToken <- io (getPassword TOKEN_KEY) in
     if negb (JS.truthy accessToken) then ret None
     else
       await sessionDataStr <- io (getPassword USER_KEY) in
       if negb (JS.truthy sessionDataStr) then
         io (deletePassword TOKEN_KEY) >> ret None
       else
         match JSON_parse (default "" sessionDataStr) with
         | None => throw JSONSyntax
         | Some d =>
             let session := rebuilt (default "" accessToken) d in
             assign (set_currentSession (Some session)) >>
             assign (set_retryCount 0) >>
             startAutoMaintenance >>
             ret (Some session)
         end)
    (fun _ => clearSession >> ret None).

Definition updateSessionData (session : UserSession) : M St unit :=
  try_catch
    (io (setPassword USER_KEY (JSON_stringify (sessionData session))))
    (fun _ => ret tt).

(** [targetSession.lastValidatedAt = Date.now()] *)
Definition touch (t : Z) (s : UserSession) : UserSession :=
  {| user := user s; token := token s; createdAt := createdAt s;
     lastValidatedAt := t; expiresAt := expiresAt s |}.

(** [validateSession(session?)].  An argument [Some s] is a session
    object other than [this.currentSession]; passing the manager's own
    object behaves as passing nothing, which is [None].  The write to
    [lastValidatedAt] goes through the alias [targetSession] into
    [this.currentSession]. *)
Definition validateSession (session : option UserSession) : M St bool :=
  try_catch
    (await current <- this currentSession in
     let targetSession := match session with Some s => Some s | None => current end in
     match targetSession with
     | None => ret false
     | Some target =>
         io (GitHubAPI.getUserInfo (tk_access_token (token target))) >>
         await t <- io Date_now in
         match session with
         | Some _ => ret tt            (* targetSession !== this.currentSession *)
         | None =>
             assign (set_currentSession (Some (touch t target))) >>
             updateSessionData (touch t target)
         end >>
         assign (set_retryCount 0) >>
         ret true
     end)
    (fun _ =>
     assign (fun m => set_retryCount (retryCount m + 1) m) >>
     await n <- this retryCount in
     (if MAX_RETRY_ATTEMPTS <=? n then
        notify onSessionExpired SessionExpired >>
        clearSession
      else ret tt) >>
     ret false).

(** [handleSessionError] run from its first to its last statement.
    Its two callers do not [await] it: this is the call together with
    the rest that the event loop runs later, when nothing else comes
    in between ([handleSessionError_begins] and
    [handleSessionError_rest] below are the two parts). *)
Definition handleSessionError (error : Error) : M St unit :=
  assign (fun m => set_retryCount (retryCount m + 1) m) >>
  await n <- this retryCount in
  if MAX_RETRY_ATTEMPTS <=? n then
    clearSession >>
    notify onAutoLogout AutoLogout
  else
    notify onSessionError (SessionError error).

Definition performPeriodicValidation : M St unit :=
  await current <- this currentSession in
  match current with
  | None => ret tt
  | Some cur =>
      try_catch
        (await now <- io Date_now in
         let timeSinceLastValidation := now - lastValidatedAt cur in
         if TOKEN_VALIDATION_INTERVAL <? timeSinceLastValidation then
           await isValid <- validateSession None in
           await n <- this retryCount in
           when (negb isValid && (MAX_RETRY_ATTEMPTS <=? n))
                (notify onAutoLogout AutoLogout)
         else ret tt)
        (fun error => handleSessionError error)
  end.

(** [{ ...this.currentSession, user: userProfile, lastValidatedAt: Date.now() }] *)
Definition refreshed (cur : UserSession) (userProfile : GitHubUser) (t : Z) : UserSession :=
  {| user := userProfile; token := token cur; createdAt := createdAt cur;
     lastValidatedAt := t; expiresAt := expiresAt cur |}.

(** [refreshUserInfo] from the point where the promise of
    [getCompleteUserProfile] settles with [profile]. *)
Definition refreshUserInfo_resume (profile : Res GitHubUser) : M St (option UserSession) :=
  try_catch
    (await userProfile <- (fun s => (profile, s)) in
     await current <- this currentSession in
     match current with
     | None =>
         (* the spread of null has no token: saveSession throws on
            session.token.access_token, inside its own try block *)
         throw (SaveSessionFailed TypeError)
     | Some cur =>
         await t <- io Date_now in
         let updatedSession := refreshed cur userProfile t in
         saveSession updatedSession >>
         ret (Some updatedSession)
     end)
    (fun error => throw (RefreshFailed error)).

Definition refreshUserInfo : M St (option UserSession) :=
  await current <- this currentSession in
  match current with
  | None => ret None
  | Some cur =>
      fun s =>
        let (profile, w) :=
          GitHubAPI.getCompleteUserProfile (tk_access_token (token cur)) (snd s) in
        refreshUserInfo_resume profile (fst s, w)
  end.

(** [performAutoRefresh] from the point where the promise of
    [refreshUserInfo] settles with [outcome], with the
    [handleSessionError] it starts run to its end: the state once the
    event loop is idle ([performAutoRefresh_settles] below stops where
    the promise of the tick settles). *)
Definition performAutoRefresh_resume (outcome : M St (option UserSession)) : M St unit :=
  try_finally
    (try_catch
       (await refreshedSession <- outcome in
        match refreshedSession with
        | Some session => notify onSessionRefreshed (SessionRefreshed session)
        | None => ret tt
        end)
       (fun error => handleSessionError error))
    (fun s => (set_isRefreshing false (fst s), snd s)).

Definition performAutoRefresh : M St unit :=
  await current <- this currentSession in
  await busy <- this isRefreshing in
  if JS.is_null current || busy then ret tt
  else
    assign (set_isRefreshing true) >>
    performAutoRefresh_resume refreshUserInfo.

Definition manualRefresh : M St (option UserSession) :=
  await busy <- this isRefreshing in
  if busy then this currentSession
  else refreshUserInfo.

(** The call [this.handleSessionError(error)] is not awaited by its
    two callers.  It runs at once up to its first [await]: the counter
    is incremented and, at the limit, [clearSession()] is entered and
    runs through [stopAutoMaintenance()] up to its first
    [await keytar.deletePassword(...)]; below the limit the whole call
    is over.  The result tells whether a rest of the call is left to
    the event loop. *)
Definition handleSessionError_begins (error : Error) : M St bool :=
  assign (fun m => set_retryCount (retryCount m + 1) m) >>
  await n <- this retryCount in
  if MAX_RETRY_ATTEMPTS <=? n then
    stopAutoMaintenance >> ret true
  else
    notify onSessionError (SessionError error) >> ret false.

(** The rest of that call, when the event loop comes to it:
    [clearSession] from its first [await] on, then [onAutoLogout]. *)
Definition handleSessionError_rest : M St unit :=
  try_catch
    (io (deletePassword TOKEN_KEY) >>
     io (deletePassword USER_KEY) >>
     assign (set_currentSession None) >>
     assign (set_retryCount 0))
    (fun _ =>
     assign (set_currentSession None) >>
     assign (set_retryCount 0)) >>
  notify onAutoLogout AutoLogout.

(** [performAutoRefresh()] up to the point where its promise settles:
    the [catch] block starts [handleSessionError] and the [finally]
    block follows at once.  The result tells whether a rest of
    [handleSessionError] is pending then. *)
Definition performAutoRefresh_settles : M St bool :=
  await current <- this currentSession in
  await busy <- this isRefreshing in
  if JS.is_null current || busy then ret false
  else
    assign (set_isRefreshing true) >>
    try_finally
      (try_catch
         (await refreshedSession <- refreshUserInfo in
          match refreshedSession with
          | Some session => notify onSessionRefreshed (SessionRefreshed session)
          | None => ret tt
          end >>
          ret false)
         (fun error => handleSessionError_begins error))
      (fun s => (set_isRefreshing false (fst s), snd s)).

(** [performPeriodicValidation()] up to the point where its promise
    settles. *)
Definition performPeriodicValidation_settles : M St bool :=
  await current <- this currentSession in
  match current with
  | None => ret false
  | Some cur =>
      try_catch
        (await now <- io Date_now in
         let timeSinceLastValidation := now - lastValidatedAt cur in
         (if TOKEN_VALIDATION_INTERVAL <? timeSinceLastValidation then
            await isValid <- validateSession None in
            await n <- this retryCount in
            when (negb isValid && (MAX_RETRY_ATTEMPTS <=? n))
                 (notify onAutoLogout AutoLogout)
          else ret tt) >>
         ret false)
        (fun error => handleSessionError_begins error)
  end.

(** A call followed at once by the rest it has left pending: where
    the event loop is idle again, when nothing else comes in between. *)
Definition then_rest (call : M St bool) : M St unit :=
  await pending <- call in
  when pending handleSessionError_rest.


Definition isLoggedIn : M St bool :=
  this (fun m => negb (JS.is_null (currentSession m))).


Definition getCurrentToken : M St (option string) :=
  this (fun m =>
    JS.or_else ((fun s => tk_access_token (token s)) <$> currentSession m) None).

(** [getSessionStatus()]; [lastValidatedAt || null] makes 0 a [null]. *)
Definition getSessionStatus : M St SessionStatus :=
  await m <- this (fun m => m) in
  await t <- io Date_now in
  ret {| st_isLoggedIn := negb (JS.is_null (currentSession m));
         st_lastValidated :=
           match currentSession m with
           | Some s => if lastValidatedAt s =? 0 then None
                       else Some (lastValidatedAt s)
           | None => None
           end;
         st_timeSinceLastValidation :=
           match currentSession m with
           | Some s => Some (t - lastValidatedAt s)
           | None => None
           end;
         st_isRefreshing := isRefreshing m;
         st_retryCount := retryCount m |}.

(** [static createSession(user, token)] *)
Definition createSession (u : GitHubUser) (tok : Token) : M World UserSession :=
  await now <- Date_now in
  ret {| user := u; token := tok; createdAt := now; lastValidatedAt := now;
         expiresAt := None |}.

Definition destroy : M St unit :=
  stopAutoMaintenance >>
  assign (set_currentSession None) >>
  assign (set_eventCallbacks
            {| onSessionExpired := false; onSessionRefreshed := false;
               onSessionError := false; onAutoLogout := false |}).

End WithJSON.

End Keytar.

(** ** src/oauth/UserSessionManager.ts, second variant (session files) *)

Module FileStore.

(** [setStorageItem]: [fs.writeFileSync] may throw. *)
Definition setStorageItem (key value : string) : M World unit :=
  fun w =>
    if faults w (OpSet key) then (Throw (StoreFault (OpSet key)), w)
    else (Ok tt, set_store (fun m => <[key := value]> m) w).

(** [getStorageItem]: a missing file and a failed read both give [null]. *)
Definition getStorageItem (key : string) : M World (option string) :=
  fun w =>
    if faults w (OpGet key) then (Ok None, w)
    else (Ok (store w !! key), w).

(** [deleteStorageItem]: errors are ignored inside the function. *)
Definition deleteStorageItem (key : string) : M World unit :=
  fun w =>
    if faults w (OpDelete key) then (Ok tt, w)
    else (Ok tt, set_store (fun m => delete key m) w).

(** The private members of this variant's [class UserSessionManager];
    its [SessionEvents] has [onSessionExpired] and [onSessionRefreshed]
    only. *)
Record Manager := {
  currentSession : option UserSession;
  refreshTimer : option nat;
  validationTimer : option nat;
  eventCallbacks : SessionEvents
}.

Definition St : Type := Manager * World.

Definition new : Manager :=
  {| currentSession := None; refreshTimer := None; validationTimer := None;
     eventCallbacks := {| onSessionExpired := false; onSessionRefreshed := false;
                          onSessionError := false; onAutoLogout := false |} |}.

Definition set_currentSession (v : option UserSession) (m : Manager) : Manager :=
  {| currentSession := v; refreshTimer := refreshTimer m;
     validationTimer := validationTimer m; eventCallbacks := eventCallbacks m |}.

Definition set_refreshTimer (v : option nat) (m : Manager) : Manager :=
  {| currentSession := currentSession m; refreshTimer := v;
     validationTimer := validationTimer m; eventCallbacks := eventCallbacks m |}.

Definition set_validationTimer (v : option nat) (m : Manager) : Manager :=
  {| currentSession := currentSession m; refreshTimer := refreshTimer m;
     validationTimer := v; eventCallbacks := eventCallbacks m |}.

Definition this {A} (f : Manager -> A) : M St A := gets (fun s => f (fst s)).
Definition assign (f : Manager -> Manager) : M St unit :=
  modify (fun s => (f (fst s), snd s)).
Definition io {A} (m : M World A) : M St A :=
  zoom snd (fun w s => (fst s, w)) m.

Definition notify (cb : SessionEvents -> bool) (e : Event) : M St unit :=
  await registered <- this (fun m => cb (eventCallbacks m)) in
  when registered (io (fire e)).

Section WithJSON.
Context `{JSON}.

(** This variant's [sessionData] literal has no [expiresAt]. *)
Definition sessionData (session : UserSession) : SessionData :=
  {| sd_user := user session;
     sd_token_type := tk_token_type (token session);
     sd_scope := tk_scope (token session);
     sd_createdAt := createdAt session;
     sd_lastValidatedAt := Some (lastValidatedAt session);
     sd_expiresAt := None |}.

Definition stopAutoMaintenance : M St unit :=
  await vt <- this validationTimer in
  match vt with
  | Some h => io (clearInterval h) >> assign (set_validationTimer None)
  | None => ret tt
  end >>
  await rt <- this refreshTimer in
  match rt with
  | Some h => io (clearInterval h) >> assign (set_refreshTimer None)
  | None => ret tt
  end.

Definition startAutoMaintenance : M St unit :=
  stopAutoMaintenance >>
  await vt <- io (setInterval ValidationTick TOKEN_VALIDATION_INTERVAL) in
  assign (set_validationTimer (Some vt)) >>
  await rt <- io (setInterval RefreshTick AUTO_REFRESH_INTERVAL) in
  assign (set_refreshTimer (Some rt)).

Definition saveSession (session : UserSession) : M St unit :=
  try_catch
    (io (setStorageItem TOKEN_KEY (tk_access_token (token session))) >>
     io (setStorageItem USER_KEY (JSON_stringify (sessionData session))) >>
     assign (set_currentSession (Some session)) >>
     startAutoMaintenance)
    (fun error => throw (SaveSessionFailed error)).

Definition clearSession : M St unit :=
  try_catch
    (stopAutoMaintenance >>
     io (deleteStorageItem TOKEN_KEY) >>
     io (deleteStorageItem USER_KEY) >>
     assign (set_currentSession None))
    (fun _ => ret tt).

Definition rebuilt (accessToken : string) (d : SessionData) : UserSession :=
  {| user := sd_user d;
     token := {| tk_access_token := accessToken;
                 tk_token_type := sd_token_type d;
                 tk_scope := sd_scope d |};
     createdAt := sd_createdAt d;
     lastValidatedAt :=
       if JS.truthy_num (sd_lastValidatedAt d)
       then default 0 (sd_lastValidatedAt d) else sd_createdAt d;
     expiresAt := None |}.

Definition loadSession : M St (option UserSession) :=
  try_catch
    (await accessToken <- io (getStorageItem TOKEN_KEY) in
     if negb (JS.truthy accessToken) then ret None
     else
       await sessionDataStr <- io (getStorageItem USER_KEY) in
       if negb (JS.truthy sessionDataStr) then
         io (deleteStorageItem TOKEN_KEY) >> ret None
       else
         match JSON_parse (default "" sessionDataStr) with
         | None => throw JSONSyntax
         | Some d =>
             let session := rebuilt (default "" accessToken) d in
             assign (set_currentSession (Some session)) >>
             startAutoMaintenance >>
             ret (Some session)
         end)
    (fun _ => clearSession >> ret None).

Definition updateSessionData : M St unit :=
  await current <- this currentSession in
  match current with
  | None => ret tt
  | Some cur =>
      try_catch
        (io (setStorageItem USER_KEY (JSON_stringify (sessionData cur))))
        (fun _ => ret tt)
  end.

Definition touch (t : Z) (s : UserSession) : UserSession :=
  {| user := user s; token := token s; createdAt := createdAt s;
     lastValidatedAt := t; expiresAt := expiresAt s |}.

Definition validateSession : M St bool :=
  await current <- this currentSession in
  match current with
  | None => ret false
  | Some cur =>
      try_catch
        (io (GitHubAPI.getUserInfo (tk_access_token (token cur))) >>
         await t <- io Date_now in
         assign (set_currentSession (Some (touch t cur))) >>
         updateSessionData >>
         ret true)
        (fun _ => ret false)
  end.

Definition refreshed (cur : UserSession) (userProfile : GitHubUser) (t : Z) : UserSession :=
  {| user := userProfile; token := token cur; createdAt := createdAt cur;
     lastValidatedAt := t; expiresAt := expiresAt cur |}.

Definition refreshUserInfo : M St (option UserSession) :=
  await current <- this currentSession in
  match current with
  | None => ret None
  | Some cur =>
      try_catch
        (await userProfile <-
           io (GitHubAPI.getCompleteUserProfile (tk_access_token (token cur))) in
         await t <- io Date_now in
         let updatedSession := refreshed cur userProfile t in
         saveSession updatedSession >>
         notify onSessionRefreshed (SessionRefreshed updatedSession) >>
         ret (Some updatedSession))
        (fun _ =>
         clearSession >>
         notify onSessionExpired SessionExpired >>
         ret None)
  end.

(** The callback given to the first [setInterval] in
    [startAutoMaintenance]. *)
Definition validationTick : M St unit :=
  await current <- this currentSession in
  match current with
  | None => ret tt
  | Some cur =>
      await now <- io Date_now in
      let timeSinceLastValidation := now - lastValidatedAt cur in
      if TOKEN_VALIDATION_INTERVAL <? timeSinceLastValidation then
        await isValid <- validateSession in
        if negb isValid then
          clearSession >>
          notify onSessionExpired SessionExpired
        else ret tt
      else ret tt
  end.

(** The callback given to the second [setInterval]. *)
Definition refreshTick : M St unit :=
  await current <- this currentSession in
  match current with
  | None => ret tt
  | Some _ => refreshUserInfo >> ret tt
  end.

Definition createSession (u : GitHubUser) (tok : Token) : M World UserSession :=
  await t1 <- Date_now in
  await t2 <- Date_now in
  ret {| user := u; token := tok; createdAt := t1; lastValidatedAt := t2;
         expiresAt := None |}.

Definition destroy : M St unit := stopAutoMaintenance.

End WithJSON.

End FileStore.

(** ** src/oauth/OAuthManager.ts *)

Module OAuthManager.

(** A parsed URL: [url.pathname] and [url.searchParams]. *)
Record Url := {
  pathname : string;
  searchParams : list (string * string)
}.

(** [url.searchParams.get(name)]: the first value, or [null]. *)
Fixpoint searchParams_get (params : list (string * string)) (name : string)
    : option string :=
  match params with
  | [] => None
  | (k, v) :: rest => if String.eqb k name then Some v else searchParams_get rest name
  end.

(** [interface OAuthConfig]; the redirect URI is kept with the parts that
    [new URL(redirectUri)] exposes. *)
Record OAuthConfig := {
  clientId : string;
  clientSecret : string;
  authUrl : string;
  redirectUri : string;
  redirectPathname : string;
  scopes : list string
}.

Record AuthResult := {
  success : bool;
  code : option string;
  error : option string;
  state : option string
}.

(** The pages written to the browser. *)
Inductive Page :=
| SuccessPage
| ErrorPage (error : string) (description : option string)
| NotFound
| BadRequest.

(** One [http.Server] made by [startCallbackServer], with what its
    request handler closes over. *)
Record Server := {
  expectedState : string;
  owner : nat                  (* the login attempt awaiting its promise *)
}.

(** What an observer of the process sees, in order. *)
Inductive Obs :=
| Closed (server : nat)                       (* server.close() *)
| Settled (attempt : nat) (r : Res AuthResult). (* the promise of login() *)

Record Host := {
  servers : gmap nat Server;
  port : option nat;            (* the server bound to the callback port *)
  bindFailed : gset nat;        (* servers whose 'error' event is pending *)
  timers : gset nat;            (* servers whose 5-minute timer is pending *)
  serverPromise : gmap nat (Res AuthResult);  (* settled, by server *)
  loginPromise : gmap nat (Res AuthResult);   (* settled, by attempt *)
  awaiting : gset nat;          (* attempts suspended at [await serverPromise] *)
  opened : list Url;            (* shell.openExternal *)
  pages : list (nat * Page);
  trace : list Obs;
  nextServer : nat;
  nextAttempt : nat
}.

(** The private members of [class OAuthManager]. *)
Record Manager := {
  config : OAuthConfig;
  server : option nat;
  authPromise : option nat
}.

Definition St : Type := Manager * Host.

Definition new (c : OAuthConfig) : Manager :=
  {| config := c; server := None; authPromise := None |}.

Definition boot : Host :=
  {| servers := ∅; port := None; bindFailed := ∅; timers := ∅;
     serverPromise := ∅; loginPromise := ∅; awaiting := ∅; opened := []; pages := [];
     trace := []; nextServer := 0%nat; nextAttempt := 0%nat |}.

Definition set_server (v : option nat) (m : Manager) : Manager :=
  {| config := config m; server := v; authPromise := authPromise m |}.

Definition set_authPromise (v : option nat) (m : Manager) : Manager :=
  {| config := config m; server := server m; authPromise := v |}.

Definition this {A} (f : Manager -> A) : M St A := gets (fun s => f (fst s)).
Definition assign (f : Manager -> Manager) : M St unit :=
  modify (fun s => (f (fst s), snd s)).
Definition io {A} (m : M Host A) : M St A :=
  zoom snd (fun w s => (fst s, w)) m.

(** [server.close()]: the port is released. *)
Definition close (sid : nat) : M Host unit :=
  modify (fun h =>
    {| servers := servers h;
       port := if bool_decide (port h = Some sid) then None else port h;
       bindFailed := bindFailed h; timers := timers h;
       serverPromise := serverPromise h; loginPromise := loginPromise h;
       awaiting := awaiting h;
       opened := opened h; pages := pages h;
       trace := (trace h ++ [Closed sid])%list;
       nextServer := nextServer h; nextAttempt := nextAttempt h |}).

(** [resolve]/[reject] of the promise returned by [login()]: only the
    first call settles it. *)
Definition settle_login (a : nat) (r : Res AuthResult) : M Host unit :=
  modify (fun h =>
    match loginPromise h !! a with
    | Some _ => h
    | None =>
        {| servers := servers h; port := port h;
           bindFailed := bindFailed h; timers := timers h;
           serverPromise := serverPromise h;
           loginPromise := <[a := r]> (loginPromise h);
           awaiting := awaiting h;
           opened := opened h; pages := pages h;
           trace := (trace h ++ [Settled a r])%list;
           nextServer := nextServer h; nextAttempt := nextAttempt h |}
    end).

Definition write_page (sid : nat) (p : Page) : M Host unit :=
  modify (fun h =>
    {| servers := servers h; port := port h;
       bindFailed := bindFailed h; timers := timers h;
       serverPromise := serverPromise h; loginPromise := loginPromise h;
       awaiting := awaiting h;
       opened := opened h; pages := (pages h ++ [(sid, p)])%list;
       trace := trace h;
       nextServer := nextServer h; nextAttempt := nextAttempt h |}).

Definition openExternal (u : Url) : M Host unit :=
  modify (fun h =>
    {| servers := servers h; port := port h;
       bindFailed := bindFailed h; timers := timers h;
       serverPromise := serverPromise h; loginPromise := loginPromise h;
       awaiting := awaiting h;
       opened := (opened h ++ [u])%list; pages := pages h;
       trace := trace h;
       nextServer := nextServer h; nextAttempt := nextAttempt h |}).

(** [http.createServer(...)], [listen], [setTimeout]: the new server
    takes the port when it is free; otherwise its 'error' event will
    come. *)
Definition createServer (expected : string) (a : nat) : M Host nat :=
  fun h =>
    let sid := nextServer h in
    let free := bool_decide (port h = None) in
    (Ok sid,
     {| servers := <[sid := {| expectedState := expected; owner := a |}]> (servers h);
        port := if free then Some sid else port h;
        bindFailed := if free then bindFailed h else {[sid]} ∪ bindFailed h;
        timers := {[sid]} ∪ timers h;
        serverPromise := serverPromise h; loginPromise := loginPromise h;
        awaiting := awaiting h;
        opened := opened h; pages := pages h; trace := trace h;
        nextServer := S sid; nextAttempt := nextAttempt h |}).

Definition newAttempt : M Host nat :=
  fun h =>
    (Ok (nextAttempt h),
     {| servers := servers h; port := port h;
        bindFailed := bindFailed h; timers := timers h;
        serverPromise := serverPromise h; loginPromise := loginPromise h;
        awaiting := awaiting h;
        opened := opened h; pages := pages h; trace := trace h;
        nextServer := nextServer h; nextAttempt := S (nextAttempt h) |}).

(** [buildAuthUrl(state)], before [params.toString()]. *)
Definition buildAuthUrl (c : OAuthConfig) (state : string) : Url :=
  {| pathname := authUrl c;
     searchParams :=
       [ ("client_id", clientId c);
         ("redirect_uri", redirectUri c);
         ("scope", String.concat " " (scopes c));
         ("state", state);
         ("response_type", "code") ] |}.

Definition stopCallbackServer : M St unit :=
  await srv <- this server in
  match srv with
  | Some sid => io (close sid) >> assign (set_server None)
  | None => ret tt
  end.

(** [handleCallback(url, expectedState, res, resolve, reject)] on the
    response object of server [sid].  The result says which of [resolve]
    and [reject] the function calls, last, and with what.  Nothing in
    its [try] block throws here, so its [catch] block has no part. *)
Definition handleCallback (sid : nat) (url : Url) (expected : string)
    : M St (Res AuthResult) :=
  let code := searchParams_get (searchParams url) "code" in
  let state := searchParams_get (searchParams url) "state" in
  let error := searchParams_get (searchParams url) "error" in
  let errorDescription := searchParams_get (searchParams url) "error_description" in
  if JS.truthy error then
    io (write_page sid (ErrorPage (default "" error) (JS.or_else errorDescription None))) >>
    stopCallbackServer >>
    ret (Throw (ProviderAuthorizationError
                  (default "" error) (JS.or_else errorDescription None)))
  else if negb (bool_decide (state = Some expected)) then
    io (write_page sid (ErrorPage "invalid_state" (Some "State 参数不匹配"))) >>
    stopCallbackServer >>
    ret (Throw StateMismatchError)
  else if negb (JS.truthy code) then
    io (write_page sid (ErrorPage "no_code" (Some "未收到授权码"))) >>
    stopCallbackServer >>
    ret (Throw MissingAuthorizationCode)
  else
    io (write_page sid SuccessPage) >>
    stopCallbackServer >>
    ret (Ok {| success := true; code := code; error := None; state := state |}).

(** [login()] after [await serverPromise]: the [try] tail and the [catch]
    block. *)
Definition login_resume (a : nat) (r : Res AuthResult) : M St unit :=
  match r with
  | Ok result =>
      assign (set_authPromise None) >>
      io (settle_login a (Ok result))
  | Throw e =>
      assign (set_authPromise None) >>
      stopCallbackServer >>
      io (settle_login a (Throw e))
  end.

(** [resolve]/[reject] of the promise made by [startCallbackServer]: the
    first call settles it and wakes the [login()] that awaits it. *)
Definition settle_server (sid : nat) (r : Res AuthResult) : M St unit :=
  await h <- gets snd in
  match serverPromise h !! sid, servers h !! sid with
  | None, Some srv =>
      io (modify (fun h =>
        {| servers := servers h; port := port h;
           bindFailed := bindFailed h; timers := timers h;
           serverPromise := <[sid := r]> (serverPromise h);
           loginPromise := loginPromise h;
           awaiting := awaiting h ∖ {[owner srv]};
           opened := opened h; pages := pages h; trace := trace h;
           nextServer := nextServer h; nextAttempt := nextAttempt h |})) >>
      when (bool_decide (owner srv ∈ awaiting h)) (login_resume (owner srv) r)
  | _, _ => ret tt
  end.

Definition suspend (a : nat) : M Host unit :=
  modify (fun h =>
    {| servers := servers h; port := port h;
       bindFailed := bindFailed h; timers := timers h;
       serverPromise := serverPromise h; loginPromise := loginPromise h;
       awaiting := {[a]} ∪ awaiting h;
       opened := opened h; pages := pages h; trace := trace h;
       nextServer := nextServer h; nextAttempt := nextAttempt h |}).

(** [login()] up to [await serverPromise]; [state] is the value drawn by
    [generateState()], [browser] tells whether [shell.openExternal]
    resolves. *)
Definition login (state : string) (browser : bool) : M St nat :=
  await a <- io newAttempt in
  await pending <- this authPromise in
  match pending with
  | Some old => io (settle_login old (Throw AuthorizationSuperseded))
  | None => ret tt
  end >>
  assign (set_authPromise (Some a)) >>
  await c <- this config in
  let url := buildAuthUrl c state in
  (* startCallbackServer(state) *)
  await sid <- io (createServer state a) in
  assign (set_server (Some sid)) >>
  io (openExternal url) >>
  (if browser then io (suspend a)
   else login_resume a (Throw BrowserFailed)) >>
  ret a.

Definition cancelAuth : M St unit :=
  await pending <- this authPromise in
  match pending with
  | Some a =>
      io (settle_login a (Throw AuthorizationCancelled)) >>
      assign (set_authPromise None)
  | None => ret tt
  end >>
  stopCallbackServer.

(** What the event loop can run next. *)
Inductive Task :=
| CallLogin (state : string) (browser : bool)
| CallCancelAuth
| Request (sid : nat) (url : option Url)   (* an HTTP request reaches a server *)
| TimerFires (sid : nat)                   (* its setTimeout fires *)
| ListenError (sid : nat).                 (* its 'error' event fires *)

Definition drop_timer (sid : nat) : M Host unit :=
  modify (fun h =>
    {| servers := servers h; port := port h;
       bindFailed := bindFailed h; timers := timers h ∖ {[sid]};
       serverPromise := serverPromise h; loginPromise := loginPromise h;
       awaiting := awaiting h;
       opened := opened h; pages := pages h; trace := trace h;
       nextServer := nextServer h; nextAttempt := nextAttempt h |}).

Definition drop_bindFailed (sid : nat) : M Host unit :=
  modify (fun h =>
    {| servers := servers h; port := port h;
       bindFailed := bindFailed h ∖ {[sid]}; timers := timers h;
       serverPromise := serverPromise h; loginPromise := loginPromise h;
       awaiting := awaiting h;
       opened := opened h; pages := pages h; trace := trace h;
       nextServer := nextServer h; nextAttempt := nextAttempt h |}).

(** The request handler given to [http.createServer], from the point
    where [new URL(req.url, ...)] has returned: [req] is the parsed URL,
    or [None] when [req.url] is falsy.  [OAuthRequests.requestListener]
    below starts from [req.url] and has the call of [new URL]. *)
Definition on_request (sid : nat) (req : option Url) : M St unit :=
  await h <- gets snd in
  await c <- this config in
  match servers h !! sid with
  | Some srv =>
      if bool_decide (port h = Some sid) then
        match req with
        | None => io (write_page sid BadRequest)
        | Some url =>
            if String.eqb (pathname url) (redirectPathname c) then
              await r <- handleCallback sid url (expectedState srv) in
              settle_server sid r
            else io (write_page sid NotFound)
        end
      else ret tt    (* nothing reaches a server that does not listen *)
  | None => ret tt
  end.

(** The callback given to [setTimeout]. *)
Definition on_timeout (sid : nat) : M St unit :=
  await h <- gets snd in
  if bool_decide (sid ∈ timers h) then
    io (drop_timer sid) >>
    stopCallbackServer >>
    settle_server sid (Throw AuthorizationTimeout)
  else ret tt.

(** The listener given to [server.on('error', ...)]. *)
Definition on_error (sid : nat) : M St unit :=
  await h <- gets snd in
  if bool_decide (sid ∈ bindFailed h) then
    io (drop_bindFailed sid) >>
    settle_server sid (Throw CallbackServerFailed)
  else ret tt.

Definition run_task (t : Task) : M St unit :=
  match t with
  | CallLogin state browser => login state browser >> ret tt
  | CallCancelAuth => cancelAuth
  | Request sid url => on_request sid url
  | TimerFires sid => on_timeout sid
  | ListenError sid => on_error sid
  end.

Fixpoint run (ts : list Task) : M St unit :=
  match ts with
  | [] => ret tt
  | t :: rest => run_task t >> run rest
  end.

End OAuthManager.

(** ** The keytar manager on the event loop

    Every [await] of a network call gives the loop the chance to run
    another task.  Here the two entry points that refresh the session are
    cut at that [await]: the part before it runs when the task starts, the
    part after it when the answer of the provider arrives. *)

Module EventLoop.
Import Keytar.

Inductive Caller := Manual | Auto.

Record Loop := {
  st : St;
  inflight : list (Caller * string)  (* refresh calls started, not answered *)
}.

Section WithJSON.
Context `{JSON}.

(** [manualRefresh()] until it returns or suspends in
    [getCompleteUserProfile]. *)
Definition manualRefresh_begin (l : Loop) : option (option UserSession) * Loop :=
  let m := fst (st l) in
  if isRefreshing m then (Some (currentSession m), l)
  else
    match currentSession m with
    | None => (Some None, l)
    | Some cur =>
        (None, {| st := st l;
                  inflight := (inflight l
                               ++ [(Manual, tk_access_token (token cur))])%list |})
    end.

(** [performAutoRefresh()] until it returns or suspends. *)
Definition performAutoRefresh_begin (l : Loop) : Loop :=
  let m := fst (st l) in
  match currentSession m with
  | None => l
  | Some cur =>
      if isRefreshing m then l
      else
        {| st := (set_isRefreshing true m, snd (st l));
           inflight := (inflight l
                        ++ [(Auto, tk_access_token (token cur))])%list |}
  end.

(** The provider answers the [i]-th call in flight. *)
Definition complete (i : nat) (l : Loop) : Loop :=
  match inflight l !! i with
  | None => l
  | Some (who, tok) =>
      let (m, w) := st l in
      let (profile, w') := GitHubAPI.getCompleteUserProfile tok w in
      let rest := (take i (inflight l) ++ drop (S i) (inflight l))%list in
      match who with
      | Manual =>
          {| st := snd (refreshUserInfo_resume profile (m, w')); inflight := rest |}
      | Auto =>
          {| st := snd (performAutoRefresh_resume
                          (refreshUserInfo_resume profile) (m, w'));
             inflight := rest |}
      end
  end.

Inductive Task :=
| CallManualRefresh
| RefreshTimerFires
| Answer (i : nat).

Definition run_task (t : Task) (l : Loop) : Loop :=
  match t with
  | CallManualRefresh => snd (manualRefresh_begin l)
  | RefreshTimerFires => performAutoRefresh_begin l
  | Answer i => complete i l
  end.

Definition run (ts : list Task) (l : Loop) : Loop :=
  fold_left (fun l t => run_task t l) ts l.

End WithJSON.

End EventLoop.

(** ** src/main/main.ts: the [oauth:login] handler *)

Module Main.

Inductive Reply :=
| LoginSucceeded (u : GitHubUser) (t : Token)
| LoginFailed (e : Error).

Definition token_of (r : TokenResponse) : Token :=
  {| tk_access_token := access_token r;
     tk_token_type := token_type r;
     tk_scope := scope r |}.

Section WithJSON.
Context `{JSON}.

(** The handler from the point where [oauthManager.login()] settles
    with [outcome]. *)
Definition oauth_login (outcome : Res OAuthManager.AuthResult)
    : M Keytar.St Reply :=
  try_catch
    (await result <- (fun s => (outcome, s)) in
     if OAuthManager.success result && JS.truthy (OAuthManager.code result) then
       let code := default "" (OAuthManager.code result) in
       await tokenResponse <- Keytar.io (GitHubAPI.exchangeCodeForToken code) in
       if negb (JS.truthy (Some (access_token tokenResponse))) then
         throw NoTokenObtained
       else
         await userProfile <-
           Keytar.io (GitHubAPI.getCompleteUserProfile (access_token tokenResponse)) in
         await session <-
           Keytar.io (Keytar.createSession userProfile (token_of tokenResponse)) in
         Keytar.saveSession session >>
         ret (LoginSucceeded userProfile (token_of tokenResponse))
     else throw NoCodeObtained)
    (fun error => ret (LoginFailed error)).

End WithJSON.

End Main.

(** ** Proof automation: symbolic execution of the monadic code *)

Ltac exec_world :=
  cbv beta iota zeta delta
    [bind ret throw try_catch try_finally get gets modify zoom when
     fire Date_now setInterval clearInterval
     set_store set_fired set_intervals set_requests set_github set_now set_faults
     store faults now fired intervals nextHandle github requests
     fst snd].

Ltac exec_keytar :=
  cbv beta iota zeta delta
    [bind ret throw try_catch try_finally get gets modify zoom when
     fire Date_now setInterval clearInterval
     set_store set_fired set_intervals set_requests set_github set_now set_faults
     store faults now fired intervals nextHandle github requests
     fst snd negb orb andb JS.is_null
     Keytar.this Keytar.assign Keytar.io Keytar.notify
     Keytar.setPassword Keytar.getPassword Keytar.deletePassword
     Keytar.stopAutoMaintenance Keytar.startAutoMaintenance
     Keytar.saveSession Keytar.clearSession Keytar.updateSessionData
     Keytar.set_currentSession Keytar.set_refreshTimer Keytar.set_validationTimer
     Keytar.set_eventCallbacks Keytar.set_isRefreshing Keytar.set_retryCount
     Keytar.currentSession Keytar.refreshTimer Keytar.validationTimer
     Keytar.eventCallbacks Keytar.isRefreshing Keytar.retryCount].

Ltac exec_files :=
  cbv beta iota zeta delta
    [bind ret throw try_catch try_finally get gets modify zoom when
     fire Date_now setInterval clearInterval
     set_store set_fired set_intervals set_requests set_github set_now set_faults
     store faults now fired intervals nextHandle github requests
     fst snd negb orb andb JS.is_null
     FileStore.this FileStore.assign FileStore.io FileStore.notify
     FileStore.setStorageItem FileStore.getStorageItem FileStore.deleteStorageItem
     FileStore.stopAutoMaintenance FileStore.startAutoMaintenance
     FileStore.saveSession FileStore.clearSession FileStore.updateSessionData
     FileStore.set_currentSession FileStore.set_refreshTimer
     FileStore.set_validationTimer
     FileStore.currentSession FileStore.refreshTimer FileStore.validationTimer
     FileStore.eventCallbacks].

(** Split a state into its fields. *)
Ltac open_keytar m w :=
  let cs := fresh "cs" in let rt := fresh "rt" in let vt := fresh "vt" in
  let ev := fresh "ev" in let ir := fresh "ir" in let rc := fresh "rc" in
  let st := fresh "st" in let fl := fresh "fl" in let nw := fresh "nw" in
  let fi := fresh "fi" in let iv := fresh "iv" in let nh := fresh "nh" in
  let gh := fresh "gh" in let rq := fresh "rq" in
  destruct m as [cs rt vt ev ir rc];
  destruct w as [st fl nw fi iv nh gh rq];
  cbv [Keytar.currentSession Keytar.refreshTimer Keytar.validationTimer
       Keytar.eventCallbacks Keytar.isRefreshing Keytar.retryCount
       store faults now fired intervals nextHandle github requests] in *.

Ltac open_files m w :=
  let cs := fresh "cs" in let rt := fresh "rt" in let vt := fresh "vt" in
  let ev := fresh "ev" in
  let st := fresh "st" in let fl := fresh "fl" in let nw := fresh "nw" in
  let fi := fresh "fi" in let iv := fresh "iv" in let nh := fresh "nh" in
  let gh := fresh "gh" in let rq := fresh "rq" in
  destruct m as [cs rt vt ev];
  destruct w as [st fl nw fi iv nh gh rq];
  cbv [FileStore.currentSession FileStore.refreshTimer FileStore.validationTimer
       FileStore.eventCallbacks
       store faults now fired intervals nextHandle github requests] in *.

(** Between two tasks the provider and the clock move on. *)
Definition elapse {Mgr : Type} (n : Network) (t : Z) (s : Mgr * World) : Mgr * World :=
  (fst s, set_now t (set_github n (snd s))).

(** ** Vocabulary of the statements *)


(** What loading makes of a saved session: a falsy [lastValidatedAt] is
    replaced by [createdAt]. *)
Definition reloaded (s : UserSession) : UserSession :=
  {| user := user s;
     token := token s;
     createdAt := createdAt s;
     lastValidatedAt := if lastValidatedAt s =? 0 then createdAt s else lastValidatedAt s;
     expiresAt := expiresAt s |}.

(** The four store calls of the round trip go through. *)
Definition store_healthy (w : World) : Prop :=
  faults w (OpSet TOKEN_KEY) = false /\ faults w (OpSet USER_KEY) = false /\
  faults w (OpGet TOKEN_KEY) = false /\ faults w (OpGet USER_KEY) = false.





(** ** Sample data *)

Module Samples.

Definition octocat : GitHubUser :=
  {| id := 583231; login := "octocat"; name := Some "The Octocat";
     email := None; avatar_url := "https://avatars.githubusercontent.com/u/583231";
     bio := None; public_repos := 8; followers := 9000; following := 9;
     created_at := "2011-01-25T18:44:36Z"; primaryEmail := None |}.

Definition tok_1 : Token :=
  {| tk_access_token := "tok_1"; tk_token_type := "bearer";
     tk_scope := "user:email read:user" |}.

Definition session : UserSession :=
  {| user := octocat; token := tok_1; createdAt := 1700000000000;
     lastValidatedAt := 1700000000000; expiresAt := None |}.

(** A provider that answers every call with 401. *)
Definition down : Network :=
  {| token_endpoint := fun _ => Response 401 "Unauthorized" "Bad credentials" None;
     user_endpoint := fun _ => Response 401 "Unauthorized" "Bad credentials" None;
     emails_endpoint := fun _ => Response 401 "Unauthorized" "Bad credentials" None |}.

(** A provider that knows [octocat], and whose e-mail list is down. *)
Definition up : Network :=
  {| token_endpoint := fun _ =>
       Response 200 "OK" ""
         (Some {| access_token := "tok_1"; token_type := "bearer";
                  scope := "user:email read:user";
                  tr_error := None; tr_error_description := None |});
     user_endpoint := fun _ => Response 200 "OK" "" (Some octocat);
     emails_endpoint := fun _ => Rejected "ECONNRESET" |}.

Definition no_faults : StoreOp -> bool := fun _ => false.

(** A store in which deleting the token entry fails. *)
Definition token_delete_fails : StoreOp -> bool :=
  fun op => match op with
            | OpDelete k => String.eqb k TOKEN_KEY
            | _ => false
            end.

(** A store in which writing the metadata entry fails. *)
Definition metadata_write_fails : StoreOp -> bool :=
  fun op => match op with
            | OpSet k => String.eqb k USER_KEY
            | _ => false
            end.

Definition world (f : StoreOp -> bool) (n : Network) : World :=
  {| store := ∅; faults := f; now := 1700000000000; fired := [];
     intervals := ∅; nextHandle := 0%nat; github := n; requests := [] |}.

(** A store that holds a saved session. *)
Definition world_with_session (f : StoreOp -> bool) (n : Network) : World :=
  {| store := <[USER_KEY := "{...}"]> (<[TOKEN_KEY := "tok_1"]> ∅);
     faults := f; now := 1700000000000; fired := [];
     intervals := ∅; nextHandle := 0%nat; github := n; requests := [] |}.

Definition all_callbacks : SessionEvents :=
  {| onSessionExpired := true; onSessionRefreshed := true;
     onSessionError := true; onAutoLogout := true |}.

(** A codec that is right about one document. *)
Definition one_document (d : SessionData) : JSON :=
  {| JSON_stringify := fun _ => "{...}";
     JSON_parse := fun text => if String.eqb text "{...}" then Some d else None |}.

Definition logged_in : Keytar.Manager :=
  {| Keytar.currentSession := Some session;
     Keytar.refreshTimer := None; Keytar.validationTimer := None;
     Keytar.eventCallbacks := all_callbacks;
     Keytar.isRefreshing := false; Keytar.retryCount := 0 |}.

Definition logged_in_files : FileStore.Manager :=
  {| FileStore.currentSession := Some session;
     FileStore.refreshTimer := None; FileStore.validationTimer := None;
     FileStore.eventCallbacks := all_callbacks |}.

End Samples.

(** The profile fetch of a refresh fails in this world. *)
Definition profile_fetch_fails (w : World) (s : UserSession) : Prop :=
  exists e w1,
    GitHubAPI.getCompleteUserProfile (tk_access_token (token s)) w = (Throw e, w1).

(** The two variants react alike to a failing refresh: from a session with
    no failure counted so far, the refresh timer of the one evicts the
    session exactly when the refresh timer of the other does. *)
Definition refresh_failure_policies_agree : Prop :=
  forall (J : JSON) (k : Keytar.Manager) (f : FileStore.Manager)
         (w : World) (sess : UserSession),
    Keytar.currentSession k = Some sess ->
    Keytar.retryCount k = 0 ->
    Keytar.isRefreshing k = false ->
    FileStore.currentSession f = Some sess ->
    profile_fetch_fails w sess ->
    (Keytar.currentSession (fst (snd (Keytar.performAutoRefresh (k, w)))) = None
     <-> FileStore.currentSession (fst (snd (FileStore.refreshTick (f, w)))) = None).

Ltac exec_oauth :=
  cbv beta iota zeta delta
    [bind ret throw try_catch try_finally get gets modify zoom when
     fst snd negb orb andb JS.is_null
     OAuthManager.this OAuthManager.assign OAuthManager.io
     OAuthManager.close OAuthManager.settle_login OAuthManager.write_page
     OAuthManager.openExternal OAuthManager.createServer OAuthManager.newAttempt
     OAuthManager.suspend OAuthManager.drop_timer OAuthManager.drop_bindFailed
     OAuthManager.stopCallbackServer OAuthManager.handleCallback
     OAuthManager.login_resume OAuthManager.settle_server OAuthManager.login
     OAuthManager.cancelAuth OAuthManager.on_request OAuthManager.on_timeout
     OAuthManager.on_error OAuthManager.run_task OAuthManager.run
     OAuthManager.set_server OAuthManager.set_authPromise
     OAuthManager.config OAuthManager.server OAuthManager.authPromise
     OAuthManager.servers OAuthManager.port OAuthManager.bindFailed
     OAuthManager.timers OAuthManager.serverPromise OAuthManager.loginPromise
     OAuthManager.awaiting OAuthManager.opened OAuthManager.pages
     OAuthManager.trace OAuthManager.nextServer OAuthManager.nextAttempt
     OAuthManager.expectedState OAuthManager.owner].

Ltac open_oauth m h :=
  let cf := fresh "cf" in let sv := fresh "sv" in let ap := fresh "ap" in
  let ss := fresh "ss" in let pt := fresh "pt" in let bf := fresh "bf" in
  let tm := fresh "tm" in let sp := fresh "sp" in let lp := fresh "lp" in
  let aw := fresh "aw" in let op := fresh "op" in let pg := fresh "pg" in
  let tr := fresh "tr" in let ns := fresh "ns" in let na := fresh "na" in
  destruct m as [cf sv ap];
  destruct h as [ss pt bf tm sp lp aw op pg tr ns na];
  cbv [OAuthManager.config OAuthManager.server OAuthManager.authPromise
       OAuthManager.servers OAuthManager.port OAuthManager.bindFailed
       OAuthManager.timers OAuthManager.serverPromise OAuthManager.loginPromise
       OAuthManager.awaiting OAuthManager.opened OAuthManager.pages
       OAuthManager.trace OAuthManager.nextServer OAuthManager.nextAttempt] in *.

(** The call that [handleCallback] makes on [resolve] or [reject], as a
    function of the callback URL and of the expected state. *)
Definition callback_verdict (url : OAuthManager.Url) (expected : string)
    : Res OAuthManager.AuthResult :=
  let q := OAuthManager.searchParams_get (OAuthManager.searchParams url) in
  if JS.truthy (q "error") then
    Throw (ProviderAuthorizationError (default "" (q "error"))
                                      (JS.or_else (q "error_description") None))
  else if negb (bool_decide (q "state" = Some expected)) then
    Throw StateMismatchError
  else if negb (JS.truthy (q "code")) then
    Throw MissingAuthorizationCode
  else
    Ok {| OAuthManager.success := true;
          OAuthManager.code := q "code";
          OAuthManager.error := None;
          OAuthManager.state := q "state" |}.

Module OAuthSamples.
Import OAuthManager.

Definition github_config : OAuthConfig :=
  {| clientId := "Iv1.0123456789abcdef";
     clientSecret := "shhh";
     authUrl := "https://github.com/login/oauth/authorize";
     redirectUri := "http://localhost:3000/callback";
     redirectPathname := "/callback";
     scopes := ["user:email"; "read:user"] |}.

(** The redirect of an attacker: a code, and a state of their own. *)
Definition forged : Url :=
  {| pathname := "/callback";
     searchParams := [("code", "abc123"); ("state", "guess")] |}.

(** The state of the manager once [login()] waits for the callback. *)
Definition waiting : St :=
  snd (login "5f2b9c" true (new github_config, boot)).

End OAuthSamples.

Module ScenarioData.
Import OAuthManager.

(** The redirect of the provider after consent. *)
Definition granted : Url :=
  {| pathname := "/callback";
     searchParams := [("code", "abc123"); ("state", "5f2b9c")] |}.

(** The redirect of the provider after the user refused. *)
Definition denied : Url :=
  {| pathname := "/callback";
     searchParams := [("error", "access_denied");
                      ("error_description", "The user has denied access");
                      ("state", "5f2b9c")] |}.

(** The promise of the first [login()] on a new manager after [ts]. *)
Definition outcome (ts : list Task) : option (Res AuthResult) :=
  loginPromise
    (snd (snd (run (CallLogin "5f2b9c" true :: ts) (new OAuthSamples.github_config, boot))))
  !! 0%nat.

Definition codec : JSON := Samples.one_document (sessionData Samples.session).

(** The session manager of a process that has just started. *)
Definition fresh : Keytar.St :=
  (Keytar.set_eventCallbacks Samples.all_callbacks Keytar.new,
   Samples.world Samples.no_faults Samples.up).

(** A login, and half an hour later a tick of the refresh timer that
    finds the provider down. *)
Definition after_failed_refresh : Keytar.St :=
  snd (@Keytar.performAutoRefresh_settles codec
         (elapse Samples.down 1700001800000
            (snd (@Keytar.saveSession codec Samples.session fresh)))).

End ScenarioData.


(** * Further code of the repository *)

(** ** src/config/env.ts and src/config/github.ts *)

Module Config.

(** [process.env] *)
Definition Env : Type := gmap string string.

(** The errors thrown by the two files. *)
Inductive ConfigError :=
| EnvNotSet (key : string)                  (* `环境变量 ${key} 未设置` *)
| EnvMissing (missing : list string)        (* `缺少必需的环境变量: ...` *)
| ClientIdNotConfigured
| ClientSecretNotConfigured
| ClientIdPlaceholder
| ClientSecretPlaceholder.

Inductive Checked (A : Type) :=
| Good (a : A)
| Bad (e : ConfigError).
Arguments Good {A} a.
Arguments Bad {A} e.

(** [getEnv(key, defaultValue?)]: an unset and an empty variable are
    alike.  The [key] is the name of no member of [Object.prototype]:
    the callers modelled here pass the fixed names of the GitHub
    variables. *)
Definition getEnv (env : Env) (key : string) (defaultValue : option string)
    : Checked string :=
  let value := env !! key in
  if negb (JS.truthy value) then
    match defaultValue with
    | Some d => Good d
    | None => Bad (EnvNotSet key)
    end
  else Good (default "" value).

(** [getEnvOptional(key, defaultValue = '')], for such a [key]. *)
Definition getEnvOptional (env : Env) (key : string) (defaultValue : string)
    : string :=
  default "" (JS.or_else (env !! key) (Some defaultValue)).

(** [process.env[name]] also answers for what the prototype chain of
    [process.env] holds: for a [name] that is no variable, a member of
    [Object.prototype] such as [toString] or [constructor] is found,
    and it is truthy.  [inherited name] tells whether there is such a
    member. *)
Section Prototype.
Variable inherited : string -> bool.

(** [!process.env[varName]] *)
Definition unset (env : Env) (varName : string) : bool :=
  match env !! varName with
  | Some value => negb (JS.truthy (Some value))
  | None => negb (inherited varName)
  end.

(** [validateRequiredEnvVars(requiredVars)]: the loop collects the
    missing names in order. *)
Definition missingVars (env : Env) (requiredVars : list string) : list string :=
  List.filter (unset env) requiredVars.

Definition validateRequiredEnvVars (env : Env) (requiredVars : list string)
    : Checked unit :=
  match missingVars env requiredVars with
  | [] => Good tt
  | missing => Bad (EnvMissing missing)
  end.

End Prototype.

(** The names of the members of [Object.prototype]. *)
Definition Object_prototype (name : string) : bool :=
  existsb (String.eqb name)
    [ "constructor"; "hasOwnProperty"; "isPrototypeOf"; "propertyIsEnumerable";
      "toLocaleString"; "toString"; "valueOf"; "__proto__";
      "__defineGetter__"; "__defineSetter__";
      "__lookupGetter__"; "__lookupSetter__" ].

(** The object literal returned by [getGitHubOAuthConfig()]. *)
Record GitHubOAuthConfig := {
  gh_clientId : string;
  gh_clientSecret : string;
  gh_authUrl : string;
  gh_redirectUri : string;
  gh_scopes : list string
}.

Definition getGitHubOAuthConfig (env : Env) : Checked GitHubOAuthConfig :=
  match getEnv env "GITHUB_CLIENT_ID" None with
  | Bad e => Bad e
  | Good cid =>
      match getEnv env "GITHUB_CLIENT_SECRET" None with
      | Bad e => Bad e
      | Good secret =>
          Good {| gh_clientId := cid;
                gh_clientSecret := secret;
                gh_authUrl := "https://github.com/login/oauth/authorize";
                gh_redirectUri :=
                  getEnvOptional env "OAUTH_REDIRECT_URI"
                                 "http://localhost:3000/auth/callback";
                gh_scopes := ["user:email"; "read:user"] |}
      end
  end.

Definition validateGitHubConfig (config : GitHubOAuthConfig) : Checked unit :=
  if negb (JS.truthy (Some (gh_clientId config))) then
    Bad ClientIdNotConfigured
  else if negb (JS.truthy (Some (gh_clientSecret config))) then
    Bad ClientSecretNotConfigured
  else if String.eqb (gh_clientId config) "your_github_client_id_here" then
    Bad ClientIdPlaceholder
  else if String.eqb (gh_clientSecret config) "your_github_client_secret_here" then
    Bad ClientSecretPlaceholder
  else Good tt.

End Config.

(** ** src/main/main.ts: start-up and the other handlers *)

Module App.

(** The members [oauthManager], [githubAPI], [sessionManager] of
    [class ElectronApp]; [initializeOAuth] sets the three together, so
    [githubAPI] is not kept apart. *)
Record Members := {
  oauthManager : option OAuthManager.Manager;
  sessionManager : option Keytar.Manager
}.

Record Outside := {
  host : OAuthManager.Host;
  world : World
}.

Definition St : Type := Members * Outside.

(** The user object of the replies. *)
Record UserView := {
  v_id : Z;
  v_login : string;
  v_name : option string;
  v_email : option string;        (* user.email || user.primaryEmail *)
  v_avatar_url : string;
  v_public_repos : Z
}.

Definition view (u : GitHubUser) : UserView :=
  {| v_id := id u; v_login := login u; v_name := name u;
     v_email := JS.or_else (email u) (primaryEmail u);
     v_avatar_url := avatar_url u; v_public_repos := public_repos u |}.

(** The user object of the refresh replies has two members more. *)
Record RefreshedView := {
  r_view : UserView;
  r_followers : Z;
  r_following : Z
}.

Definition refreshed_view (u : GitHubUser) : RefreshedView :=
  {| r_view := view u; r_followers := followers u; r_following := following u |}.

(** What a handler answers when it fails: the message of the error. *)
Inductive Failure :=
| NotInitialized           (* 'Session manager not initialized' *)
| NoActiveSession          (* 'No active session to refresh' *)
| Raised (e : Error).

Inductive LogoutReply := LogoutOk | LogoutFailed (e : Failure).


Inductive RefreshReply := RefreshOk (u : RefreshedView) | RefreshNotOk (e : Failure).

(** Run a call of the session manager, or of the authorization manager,
    on the members of the application. *)
Definition on_session {A} (k : Keytar.Manager) (m : M Keytar.St A) : M St A :=
  fun s =>
    let (r, s') := m (k, world (snd s)) in
    (r, ({| oauthManager := oauthManager (fst s); sessionManager := Some (fst s') |},
         {| host := host (snd s); world := snd s' |})).

Definition on_oauth {A} (o : OAuthManager.Manager) (m : M OAuthManager.St A) : M St A :=
  fun s =>
    let (r, s') := m (o, host (snd s)) in
    (r, ({| oauthManager := Some (fst s'); sessionManager := sessionManager (fst s) |},
         {| host := snd s'; world := world (snd s) |})).

Section WithJSON.
Context `{JSON}.

(** [URL_pathname] stands for [new URL(redirectUri).pathname]. *)
Variable URL_pathname : string -> string.

Definition oauth_config (c : Config.GitHubOAuthConfig) : OAuthManager.OAuthConfig :=
  {| OAuthManager.clientId := Config.gh_clientId c;
     OAuthManager.clientSecret := Config.gh_clientSecret c;
     OAuthManager.authUrl := Config.gh_authUrl c;
     OAuthManager.redirectUri := Config.gh_redirectUri c;
     OAuthManager.redirectPathname := URL_pathname (Config.gh_redirectUri c);
     OAuthManager.scopes := Config.gh_scopes c |}.

(** The callbacks that [loadSavedSession] registers. *)
Definition registered : SessionEventsPatch :=
  {| patchSessionExpired := Some true; patchSessionRefreshed := Some true;
     patchSessionError := Some true; patchAutoLogout := Some true |}.

(** [loadSavedSession()] *)
Definition loadSavedSession : M St unit :=
  await members <- gets fst in
  match sessionManager members with
  | None => ret tt
  | Some k =>
      try_catch
        (on_session k (Keytar.setEventCallbacks registered >>
                       Keytar.loadSession) >> ret tt)
        (fun _ => ret tt)
  end.

(** [initializeOAuth()]: on a configuration error the three members
    are [null] and the application goes on.  The call of
    [loadSavedSession()] is not awaited; its body, which catches
    every error itself, is run here to its end with no other task in
    between. *)
Definition initializeOAuth (env : Config.Env) : M St unit :=
  match Config.getGitHubOAuthConfig env with
  | Config.Bad _ =>
      modify (fun s => ({| oauthManager := None; sessionManager := None |}, snd s))
  | Config.Good config =>
      match Config.validateGitHubConfig config with
      | Config.Bad _ =>
          modify (fun s => ({| oauthManager := None; sessionManager := None |}, snd s))
      | Config.Good _ =>
          modify (fun s =>
            ({| oauthManager := Some (OAuthManager.new (oauth_config config));
                sessionManager := Some Keytar.new |}, snd s)) >>
          loadSavedSession
      end
  end.

(** The handler of ['oauth:logout']. *)
Definition oauth_logout : M St LogoutReply :=
  try_catch
    (await members <- gets fst in
     match oauthManager members with
     | Some o => on_oauth o OAuthManager.cancelAuth
     | None => ret tt
     end >>
     await members <- gets fst in
     match sessionManager members with
     | Some k => on_session k Keytar.clearSession
     | None => ret tt
     end >>
     ret LogoutOk)
    (fun error => ret (LogoutFailed (Raised error))).


(** The handler of ['oauth:get-token']. *)
Definition oauth_get_token : M St (option string) :=
  try_catch
    (await members <- gets fst in
     match sessionManager members with
     | None => ret None
     | Some k =>
         await token <- on_session k Keytar.getCurrentToken in
         if JS.truthy token then
           await isValid <- on_session k (Keytar.validateSession None) in
           if isValid then ret token else ret None
         else ret None
     end)
    (fun _ => ret None).

Definition refresh_reply (r : option UserSession) : M St RefreshReply :=
  match r with
  | Some session => ret (RefreshOk (refreshed_view (user session)))
  | None => ret (RefreshNotOk NoActiveSession)
  end.

(** The handler of ['oauth:refresh-user']: it calls [refreshUserInfo]
    itself. *)
Definition oauth_refresh_user : M St RefreshReply :=
  try_catch
    (await members <- gets fst in
     match sessionManager members with
     | None => ret (RefreshNotOk NotInitialized)
     | Some k =>
         await updatedSession <- on_session k Keytar.refreshUserInfo in
         refresh_reply updatedSession
     end)
    (fun error => ret (RefreshNotOk (Raised error))).

(** The handler of ['oauth:manual-refresh']. *)
Definition oauth_manual_refresh : M St RefreshReply :=
  try_catch
    (await members <- gets fst in
     match sessionManager members with
     | None => ret (RefreshNotOk NotInitialized)
     | Some k =>
         await refreshedSession <- on_session k Keytar.manualRefresh in
         refresh_reply refreshedSession
     end)
    (fun error => ret (RefreshNotOk (Raised error))).

(** [cleanup()] *)
Definition cleanup : M St unit :=
  await members <- gets fst in
  match sessionManager members with
  | Some k =>
      on_session k Keytar.destroy >>
      modify (fun s => ({| oauthManager := None; sessionManager := None |}, snd s))
  | None =>
      modify (fun s => ({| oauthManager := None; sessionManager := None |}, snd s))
  end.

End WithJSON.

End App.

(** ** src/oauth/OAuthManager.ts: the request listener on the raw target *)

Module OAuthRequests.
Import OAuthManager.

Section WithURL.

(** [new URL(target, `http://localhost:${port}`)]: [None] when the
    constructor throws, as it does for a target such as [//], which
    has no host. *)
Variable URL_parse : string -> option Url.

(** The listener given to [http.createServer], on [req.url] as it
    arrives.  The call of [new URL] stands in no [try] block: when it
    throws, the listener throws before anything is written.
    [OAuthManager.on_request] is the listener from the parsed URL
    on. *)
Definition requestListener (sid : nat) (target : option string) : M St unit :=
  await h <- gets snd in
  match servers h !! sid with
  | Some _ =>
      if bool_decide (port h = Some sid) then
        if negb (JS.truthy target) then on_request sid None
        else
          match URL_parse (default "" target) with
          | Some url => on_request sid (Some url)
          | None => throw TypeError
          end
      else ret tt    (* nothing reaches a server that does not listen *)
  | None => ret tt
  end.

End WithURL.

End OAuthRequests.

(** ** Histories of the keytar session manager *)

Module KeytarCalls.
Import Keytar.

(** What can happen to a session manager: a call of one of its public
    methods, awaited to its end; a tick of one of its two timers, up to
    the point where the promise of the tick settles; a rest of
    [handleSessionError] that a tick has left pending, run at some
    later point; or the world moving on. *)
Inductive Call :=
| SetEventCallbacks (callbacks : SessionEventsPatch)
| SaveSession (session : UserSession)
| LoadSession
| ValidateSession (session : option UserSession)
| ClearSession
| RefreshUserInfo
| ManualRefresh
| ValidationTimerTicks
| RefreshTimerTicks
| DetachedRestRuns
| Destroy
| WorldMoves (n : Network) (t : Z) (faulty : StoreOp -> bool).

(** The manager and its world, with the number of rests of
    [handleSessionError] that are pending. *)
Definition Running : Type := St * nat.

Section WithJSON.
Context `{JSON}.

Definition awaited {A} (call : M St A) (s : Running) : Running :=
  (snd (call (fst s)), snd s).

(** A tick: when it leaves a rest pending, one more is. *)
Definition tick (call : M St bool) (s : Running) : Running :=
  let (r, s') := call (fst s) in
  (s', match r with
       | Ok true => S (snd s)
       | _ => snd s
       end).

Definition perform (c : Call) (s : Running) : Running :=
  match c with
  | SetEventCallbacks callbacks => awaited (setEventCallbacks callbacks) s
  | SaveSession session => awaited (saveSession session) s
  | LoadSession => awaited loadSession s
  | ValidateSession session => awaited (validateSession session) s
  | ClearSession => awaited clearSession s
  | RefreshUserInfo => awaited refreshUserInfo s
  | ManualRefresh => awaited manualRefresh s
  | ValidationTimerTicks => tick performPeriodicValidation_settles s
  | RefreshTimerTicks => tick performAutoRefresh_settles s
  | DetachedRestRuns =>
      match snd s with
      | O => s
      | S pending => (snd (handleSessionError_rest (fst s)), pending)
      end
  | Destroy => awaited destroy s
  | WorldMoves n t faulty =>
      ((fst (fst s), set_faults faulty (set_now t (set_github n (snd (fst s))))),
       snd s)
  end.

Definition history (cs : list Call) (s : Running) : Running :=
  fold_left (fun s c => perform c s) cs s.

End WithJSON.

(** The live intervals are the two the manager holds, or none. *)
Definition timers_owned (s : St) : Prop :=
  match validationTimer (fst s), refreshTimer (fst s) with
  | Some v, Some r =>
      v <> r
      /\ intervals (snd s)
         = <[r := (RefreshTick, AUTO_REFRESH_INTERVAL)]>
             (<[v := (ValidationTick, TOKEN_VALIDATION_INTERVAL)]> ∅)
  | None, None => intervals (snd s) = ∅
  | _, _ => False
  end.

(** The world apart from its intervals. *)
Definition same_but_intervals (w w' : World) : Prop :=
  store w' = store w /\ faults w' = faults w /\ now w' = now w
  /\ fired w' = fired w /\ github w' = github w /\ requests w' = requests w.

End KeytarCalls.

(** ** More sample data *)

Module MoreSamples.

(** A day in the life of a session manager. *)
Definition usage : list KeytarCalls.Call :=
  [ KeytarCalls.SetEventCallbacks App.registered;
    KeytarCalls.SaveSession Samples.session;
    KeytarCalls.WorldMoves Samples.down 1700003600001 Samples.no_faults;
    KeytarCalls.ValidationTimerTicks;
    KeytarCalls.RefreshTimerTicks;
    KeytarCalls.ManualRefresh;
    KeytarCalls.WorldMoves Samples.down 1700005400000 Samples.no_faults;
    KeytarCalls.RefreshTimerTicks;
    KeytarCalls.RefreshTimerTicks;
    KeytarCalls.SaveSession Samples.session;
    KeytarCalls.DetachedRestRuns;
    KeytarCalls.WorldMoves Samples.up 1700007200002 Samples.token_delete_fails;
    KeytarCalls.RefreshUserInfo;
    KeytarCalls.ClearSession;
    KeytarCalls.LoadSession ].

(** A store that holds the token entry only. *)
Definition orphan : World :=
  set_store (fun _ => <[TOKEN_KEY := "tok_1"]> ∅)
            (Samples.world Samples.no_faults Samples.up).

(** A codec that cannot read what is stored. *)
Definition unreadable : JSON :=
  {| JSON_stringify := fun _ => "{...}"; JSON_parse := fun _ => None |}.

(** Two hours after the session of [Samples] was validated. *)
Definition later (f : StoreOp -> bool) (n : Network) : World :=
  set_now 1700007200000 (Samples.world_with_session f n).

(** A manager that has counted two failures. *)
Definition two_failures : Keytar.Manager :=
  Keytar.set_retryCount 2 Samples.logged_in.

(** A manager in the middle of a refresh. *)
Definition refreshing : Keytar.Manager :=
  Keytar.set_isRefreshing true Samples.logged_in.

(** A store whose reads fail. *)
Definition token_read_fails : StoreOp -> bool :=
  fun op => match op with
            | OpGet k => String.eqb k TOKEN_KEY
            | _ => false
            end.

Definition mailbox : list GitHubEmail :=
  [ {| em_email := "octocat@old.example"; em_primary := true;
       em_verified := false; em_visibility := None |};
    {| em_email := "octocat@github.com"; em_primary := true;
       em_verified := true; em_visibility := Some "public" |};
    {| em_email := "cat@example.org"; em_primary := false;
       em_verified := true; em_visibility := None |} ].

(** The provider of [Samples.up] with a working e-mail list. *)
Definition with_mailbox : Network :=
  {| token_endpoint := token_endpoint Samples.up;
     user_endpoint := user_endpoint Samples.up;
     emails_endpoint := fun _ => Response 200 "OK" "" (Some mailbox) |}.

(** A request of the browser for its icon. *)
Definition favicon : OAuthManager.Url :=
  {| OAuthManager.pathname := "/favicon.ico"; OAuthManager.searchParams := [] |}.

(** What [new URL] makes of three request targets. *)
Definition URL_parse (target : string) : option OAuthManager.Url :=
  if String.eqb target "/favicon.ico" then Some favicon
  else if String.eqb target "/callback?code=abc123&state=5f2b9c"
       then Some ScenarioData.granted
  else None.

(** A second [login()] after the first has been granted: the timer of
    the first server is still armed. *)
Definition second_attempt : OAuthManager.St :=
  snd (OAuthManager.run
         [ OAuthManager.CallLogin "5f2b9c" true;
           OAuthManager.Request 0 (Some ScenarioData.granted);
           OAuthManager.CallLogin "77aa01" true ]
         (OAuthManager.new OAuthSamples.github_config, OAuthManager.boot)).

Definition env : Config.Env :=
  <["GITHUB_CLIENT_ID" := "Iv1.0123456789abcdef"]>
    (<["GITHUB_CLIENT_SECRET" := "shhh"]> ∅).

(** The environment of the sample file, with the secret left empty. *)
Definition sample_env : Config.Env :=
  <["GITHUB_CLIENT_ID" := "your_github_client_id_here"]>
    (<["GITHUB_CLIENT_SECRET" := ""]> ∅).

Definition URL_pathname : string -> string := fun _ => "/auth/callback".

(** The application before [initializeOAuth], over a given world. *)
Definition cold (w : World) : App.St :=
  ({| App.oauthManager := None; App.sessionManager := None |},
   {| App.host := OAuthManager.boot; App.world := w |}).

(** The application with a session manager [k], over a given world. *)
Definition running (k : Keytar.Manager) (w : World) : App.St :=
  ({| App.oauthManager := Some (OAuthManager.new OAuthSamples.github_config);
      App.sessionManager := Some k |},
   {| App.host := OAuthManager.boot; App.world := w |}).

End MoreSamples.

(** * Properties *)

(** ** JavaScript truthiness *)

Lemma truthy_Some_inv v : JS.truthy v = true -> exists s, v = Some s /\ s <> "".
Proof.
  destruct v as [s|]; simpl; [|discriminate].
  intros H. exists s. split; [reflexivity|].
  intros ->. discriminate.
Qed.

Lemma truthy_nonempty s : s <> "" -> JS.truthy (Some s) = true.
Proof.
  intros H. simpl. destruct (String.eqb_spec s ""); [contradiction|reflexivity].
Qed.

(** ** The profile client *)

Module GitHubAPIFacts.
Import GitHubAPI.

Lemma getUserInfo_requests tok w r w' :
  getUserInfo tok w = (r, w') ->
  w' = set_requests (fun l => (l ++ [GetUser tok])%list) w.
Proof.
  unfold getUserInfo, try_catch, bind, fetch, json, throw, ret.
  destruct (user_endpoint (github w) tok) as [msg|st stt txt [u|]];
    [ | destruct (ok_status st) | destruct (ok_status st) ];
    simpl; intros E; inversion E; reflexivity.
Qed.

Lemma getUserEmails_requests tok w r w' :
  getUserEmails tok w = (r, w') ->
  w' = set_requests (fun l => (l ++ [GetUserEmails tok])%list) w.
Proof.
  unfold getUserEmails, try_catch, bind, fetch, json, throw, ret.
  destruct (emails_endpoint (github w) tok) as [msg|st stt txt [u|]];
    [ | destruct (ok_status st) | destruct (ok_status st) ];
    simpl; intros E; inversion E; reflexivity.
Qed.

(** [getPrimaryEmail] never rejects. *)
Lemma getPrimaryEmail_total tok w :
  exists pe, getPrimaryEmail tok w
             = (Ok pe, set_requests (fun l => (l ++ [GetUserEmails tok])%list) w).
Proof.
  unfold getPrimaryEmail, try_catch, bind.
  destruct (getUserEmails tok w) as [[emails|e] w'] eqn:E;
    apply getUserEmails_requests in E; subst w'; simpl; eauto.
Qed.

Lemma getPrimaryEmail_degrades tok w e w' :
  getUserEmails tok w = (Throw e, w') ->
  getPrimaryEmail tok w = (Ok None, w').
Proof.
  intros E. unfold getPrimaryEmail, try_catch, bind. rewrite E. reflexivity.
Qed.

(** C9. [getCompleteUserProfile] rejects only when [getUserInfo] does, and
    then with the same error.  When [getUserInfo] succeeds with a falsy
    [email], the e-mail list is requested, the call still succeeds, and a
    failure of [getUserEmails] leaves [primaryEmail] undefined. *)
Theorem getCompleteUserProfile_email_never_fatal (tok : string) (w : World) :
  (forall e w', getCompleteUserProfile tok w = (Throw e, w') ->
                getUserInfo tok w = (Throw e, w'))
  /\ (forall u w1, getUserInfo tok w = (Ok u, w1) ->
        exists u' w2, getCompleteUserProfile tok w = (Ok u', w2))
  /\ (forall u w1, getUserInfo tok w = (Ok u, w1) ->
        JS.truthy (email u) = false ->
        exists pe w2,
          getCompleteUserProfile tok w = (Ok (with_primaryEmail u pe), w2)
          /\ In (GetUserEmails tok) (requests w2)
          /\ (forall e w3, getUserEmails tok w1 = (Throw e, w3) -> pe = None)).
Proof.
  unfold getCompleteUserProfile, bind.
  destruct (getUserInfo tok w) as [[u|e0] w1] eqn:E.
  - destruct (getPrimaryEmail_total tok w1) as [pe Hpe].
    repeat split.
    + intros e w'. destruct (JS.truthy (email u)); simpl.
      * discriminate.
      * rewrite Hpe. discriminate.
    + intros u0 w0 _. destruct (JS.truthy (email u)); simpl.
      * eauto.
      * rewrite Hpe. eauto.
    + intros u0 w0 E0 Hfalsy. inversion E0; subst u0 w0; clear E0.
      rewrite Hfalsy. simpl. rewrite Hpe.
      exists (JS.or_else pe None). eexists. split; [reflexivity|]. split.
      * simpl. apply in_or_app. right. left. reflexivity.
      * intros e w3 Hfail.
        rewrite (getPrimaryEmail_degrades _ _ _ _ Hfail) in Hpe.
        inversion Hpe. reflexivity.
  - repeat split.
    + intros e w' E'. exact E'.
    + intros u w0 E0. discriminate.
    + intros u w0 E0. discriminate.
Qed.

End GitHubAPIFacts.

(** ** The keytar session manager: store failures *)

Module KeytarStoreFacts.
Import Keytar.

Section WithJSON.
Context `{JSON}.

(** [stopAutoMaintenance] cannot throw and touches the timers only. *)
Lemma stopAutoMaintenance_spec m w :
  exists iv' nh',
    stopAutoMaintenance (m, w)
    = (Ok tt, (set_refreshTimer None (set_validationTimer None m),
               set_intervals (fun _ => iv') nh' w)).
Proof.
  open_keytar m w. destruct rt, vt; exec_keytar; eauto.
Qed.

(** C10. When one of the two store writes of [saveSession] rejects,
    [saveSession] rejects with the persist error, and the manager is
    what it was: [currentSession] keeps its value and no timer is
    cleared or created. *)
Theorem saveSession_atomic_on_store_failure
    (session : UserSession) (m : Manager) (w : World) :
  faults w (OpSet TOKEN_KEY) = true \/ faults w (OpSet USER_KEY) = true ->
  exists op w',
    saveSession session (m, w)
    = (Throw (SaveSessionFailed (StoreFault op)), (m, w'))
    /\ intervals w' = intervals w
    /\ nextHandle w' = nextHandle w
    /\ fired w' = fired w.
Proof.
  intros F. open_keytar m w. exec_keytar.
  destruct (fl (OpSet TOKEN_KEY)) eqn:Ft.
  - exists (OpSet TOKEN_KEY). eexists. repeat split; reflexivity.
  - destruct F as [F|F]; [discriminate|]. rewrite F.
    exists (OpSet USER_KEY). eexists. repeat split; reflexivity.
Qed.

(** Whatever makes [saveSession] reject, the manager is unchanged. *)
Lemma saveSession_throw_keeps_manager session m w e s' :
  saveSession session (m, w) = (Throw e, s') ->
  fst s' = m /\ intervals (snd s') = intervals w.
Proof.
  open_keytar m w. exec_keytar.
  destruct (fl (OpSet TOKEN_KEY)); [intros E; inversion E; split; reflexivity|].
  destruct (fl (OpSet USER_KEY)); [intros E; inversion E; split; reflexivity|].
  destruct vt, rt; discriminate.
Qed.

(** When both writes go through, both slots hold the new values, the
    session is current and the two timers are fresh. *)
Lemma saveSession_ok session m w :
  faults w (OpSet TOKEN_KEY) = false ->
  faults w (OpSet USER_KEY) = false ->
  exists m' w',
    saveSession session (m, w) = (Ok tt, (m', w'))
    /\ currentSession m' = Some session
    /\ retryCount m' = retryCount m
    /\ isRefreshing m' = isRefreshing m
    /\ eventCallbacks m' = eventCallbacks m
    /\ validationTimer m' = Some (nextHandle w)
    /\ refreshTimer m' = Some (S (nextHandle w))
    /\ store w' = <[USER_KEY := JSON_stringify (sessionData session)]>
                    (<[TOKEN_KEY := tk_access_token (token session)]> (store w))
    /\ faults w' = faults w /\ fired w' = fired w /\ now w' = now w
    /\ github w' = github w /\ requests w' = requests w.
Proof.
  intros Ft Fu. open_keytar m w. exec_keytar. rewrite Ft, Fu.
  destruct vt, rt; do 2 eexists; repeat split; reflexivity.
Qed.

(** [clearSession] never rejects, and always resets the manager. *)
Lemma clearSession_resets m w :
  exists m' w',
    clearSession (m, w) = (Ok tt, (m', w'))
    /\ currentSession m' = None /\ retryCount m' = 0
    /\ validationTimer m' = None /\ refreshTimer m' = None
    /\ isRefreshing m' = isRefreshing m
    /\ eventCallbacks m' = eventCallbacks m
    /\ faults w' = faults w /\ fired w' = fired w /\ now w' = now w
    /\ github w' = github w /\ requests w' = requests w
    /\ (faults w (OpDelete TOKEN_KEY) = false ->
        faults w (OpDelete USER_KEY) = false ->
        store w' = delete USER_KEY (delete TOKEN_KEY (store w))).
Proof.
  open_keytar m w. exec_keytar.
  destruct vt, rt; exec_keytar;
    destruct (fl (OpDelete TOKEN_KEY)); try destruct (fl (OpDelete USER_KEY));
    do 2 eexists; repeat split; try reflexivity; intros; discriminate.
Qed.

(** C5, on the keytar variant.  When deleting the token entry rejects,
    [clearSession] resets the manager but leaves the whole store as it
    was: the metadata entry is not deleted, whether or not its own
    deletion would have succeeded. *)
Theorem clearSession_skips_metadata_after_token_fault (m : Manager) (w : World) :
  faults w (OpDelete TOKEN_KEY) = true ->
  exists m' w',
    clearSession (m, w) = (Ok tt, (m', w'))
    /\ currentSession m' = None /\ retryCount m' = 0
    /\ validationTimer m' = None /\ refreshTimer m' = None
    /\ store w' = store w.
Proof.
  intros F. open_keytar m w. exec_keytar.
  destruct vt, rt; exec_keytar; rewrite F;
    do 2 eexists; repeat split; reflexivity.
Qed.

End WithJSON.
End KeytarStoreFacts.

(** ** The keytar session manager: validation and retries *)

Module KeytarValidationFacts.
Import Keytar.

Ltac exec_validate :=
  cbv beta iota zeta delta [validateSession touch elapse]; exec_keytar.

Ltac probe :=
  match goal with |- context [GitHubAPI.getUserInfo ?t ?w] =>
    let E := fresh "E" in let w1 := fresh "w1" in
    destruct (GitHubAPI.getUserInfo t w) as [[?u|?e] w1] eqn:E;
    apply GitHubAPIFacts.getUserInfo_requests in E; subst w1
  end.

Section WithJSON.
Context `{JSON}.

(** [validateSession] never rejects. *)
Lemma validateSession_total session s :
  exists b, fst (validateSession session s) = Ok b.
Proof.
  destruct s as [m w]. open_keytar m w.
  destruct session as [o|]; [|destruct cs as [c|]]; exec_validate;
    try (eexists; reflexivity); probe; exec_validate;
    try destruct (fl (OpSet USER_KEY)); try (eexists; reflexivity);
    destruct (MAX_RETRY_ATTEMPTS <=? rc + 1);
    try (eexists; reflexivity);
    destruct (onSessionExpired ev), vt, rt; exec_keytar;
    destruct (fl (OpDelete TOKEN_KEY)); try destruct (fl (OpDelete USER_KEY));
    eexists; reflexivity.
Qed.





End WithJSON.

(** The state of [ScenarioData.after_failed_refresh] is reached by a
    login and one tick of the refresh timer: the session is current,
    the failed refresh has been counted, and no rest of
    [handleSessionError] is pending.  There the first failing
    validation counts 2 and the second evicts the session. *)
Lemma refresh_failure_is_counted :
  let s := ScenarioData.after_failed_refresh in
  let v := @validateSession ScenarioData.codec None in
  let s1 := snd (v (elapse Samples.down 1700003600001 s)) in
  let s2 := snd (v (elapse Samples.down 1700007200002 s1)) in
  fst (@performAutoRefresh_settles ScenarioData.codec
         (elapse Samples.down 1700001800000
            (snd (@saveSession ScenarioData.codec Samples.session
                    ScenarioData.fresh))))
  = Ok false
  /\ currentSession (fst s) = Some Samples.session
  /\ retryCount (fst s) = 1
  /\ retryCount (fst s1) = 2
  /\ currentSession (fst s2) = None.
Proof. vm_compute. repeat split; reflexivity. Qed.

End KeytarValidationFacts.

(** ** The keytar session manager: persistence *)

Module KeytarPersistenceFacts.
Import Keytar KeytarStoreFacts.

Ltac exec_load :=
  cbv beta iota zeta delta [loadSession rebuilt]; exec_keytar.

Section WithJSON.
Context `{JSON}.

Lemma loadSession_ok m w tok str d :
  faults w (OpGet TOKEN_KEY) = false ->
  faults w (OpGet USER_KEY) = false ->
  store w !! TOKEN_KEY = Some tok -> tok <> "" ->
  store w !! USER_KEY = Some str -> str <> "" ->
  JSON_parse str = Some d ->
  exists m' w',
    loadSession (m, w) = (Ok (Some (rebuilt tok d)), (m', w'))
    /\ currentSession m' = Some (rebuilt tok d)
    /\ retryCount m' = 0
    /\ validationTimer m' = Some (nextHandle w)
    /\ refreshTimer m' = Some (S (nextHandle w))
    /\ store w' = store w
    /\ fired w' = fired w.
Proof.
  intros Fg1 Fg2 Ht Hne Hu Hne' Hp. open_keytar m w. exec_load.
  rewrite Fg1, Ht, (truthy_nonempty _ Hne). cbv beta iota delta [negb].
  rewrite Fg2, Hu, (truthy_nonempty _ Hne').
  cbv beta iota delta [negb default from_option Datatypes.id].
  rewrite Hp. exec_load.
  destruct vt, rt; do 2 eexists; repeat split; reflexivity.
Qed.

Lemma rebuilt_sessionData s :
  rebuilt (tk_access_token (token s)) (sessionData s) = reloaded s.
Proof.
  destruct s as [u [a tt sc] c l e]. unfold rebuilt, reloaded, sessionData. simpl.
  destruct (l =? 0); reflexivity.
Qed.



End WithJSON.


End KeytarPersistenceFacts.

(** ** The file-store session manager *)

Module FileStoreFacts.
Import FileStore.

Section WithJSON.
Context `{JSON}.

(** [clearSession] of this variant attempts the two deletions one by
    one: each entry goes unless its own deletion fails. *)
Lemma clearSession_independent_deletes m w :
  exists m' w',
    clearSession (m, w) = (Ok tt, (m', w'))
    /\ currentSession m' = None
    /\ validationTimer m' = None /\ refreshTimer m' = None
    /\ eventCallbacks m' = eventCallbacks m
    /\ fired w' = fired w /\ faults w' = faults w
    /\ store w' =
         (if faults w (OpDelete USER_KEY) then Datatypes.id else delete USER_KEY)
           ((if faults w (OpDelete TOKEN_KEY) then Datatypes.id else delete TOKEN_KEY)
              (store w)).
Proof.
  open_files m w. exec_files.
  destruct vt, rt; exec_files;
    destruct (fl (OpDelete TOKEN_KEY)), (fl (OpDelete USER_KEY));
    do 2 eexists; repeat split; reflexivity.
Qed.

(** A failing profile fetch makes [refreshUserInfo] evict the session
    at once. *)
Lemma refreshUserInfo_failure_evicts m w sess e w1 :
  currentSession m = Some sess ->
  GitHubAPI.getCompleteUserProfile (tk_access_token (token sess)) w = (Throw e, w1) ->
  exists m' w',
    refreshUserInfo (m, w) = (Ok None, (m', w'))
    /\ currentSession m' = None
    /\ fired w' = (fired w1 ++ if onSessionExpired (eventCallbacks m)
                               then [SessionExpired] else [])%list
    /\ store w' =
         (if faults w1 (OpDelete USER_KEY) then Datatypes.id else delete USER_KEY)
           ((if faults w1 (OpDelete TOKEN_KEY) then Datatypes.id else delete TOKEN_KEY)
              (store w1)).
Proof.
  intros Hs E. open_files m w. subst cs. destruct w1 as [st1 fl1 nw1 fi1 iv1 nh1 gh1 rq1].
  cbv beta iota zeta delta [refreshUserInfo refreshed]. exec_files.
  rewrite E. exec_files.
  destruct vt, rt; exec_files;
    destruct (fl1 (OpDelete TOKEN_KEY)), (fl1 (OpDelete USER_KEY));
    destruct (onSessionExpired ev);
    do 2 eexists; repeat split; try reflexivity;
    cbv [fired]; rewrite app_nil_r; reflexivity.
Qed.

End WithJSON.
End FileStoreFacts.

(** ** Refresh failures in the two variants *)

Module RefreshFacts.

Ltac exec_refresh :=
  cbv beta iota zeta delta
    [Keytar.refreshUserInfo Keytar.refreshUserInfo_resume Keytar.refreshed
     Keytar.performAutoRefresh Keytar.performAutoRefresh_resume
     Keytar.handleSessionError Keytar.manualRefresh];
  exec_keytar.

Section WithJSON.
Context `{JSON}.

(** The keytar [refreshUserInfo] passes a failure on to its caller and
    leaves the manager alone. *)
Lemma keytar_refreshUserInfo_failure m w sess e w1 :
  Keytar.currentSession m = Some sess ->
  GitHubAPI.getCompleteUserProfile (tk_access_token (token sess)) w = (Throw e, w1) ->
  Keytar.refreshUserInfo (m, w) = (Throw (RefreshFailed e), (m, w1)).
Proof.
  intros Hs E. open_keytar m w. subst cs. exec_refresh. rewrite E. reflexivity.
Qed.

(** Its refresh timer counts the failure, and evicts at the third. *)
Lemma keytar_performAutoRefresh_failure m w sess e w1 :
  Keytar.currentSession m = Some sess ->
  Keytar.isRefreshing m = false ->
  GitHubAPI.getCompleteUserProfile (tk_access_token (token sess)) w = (Throw e, w1) ->
  let s' := snd (Keytar.performAutoRefresh (m, w)) in
  Keytar.isRefreshing (fst s') = false /\
  if MAX_RETRY_ATTEMPTS <=? Keytar.retryCount m + 1 then
    Keytar.currentSession (fst s') = None /\
    Keytar.retryCount (fst s') = 0 /\
    fired (snd s') = (fired w1 ++ if onAutoLogout (Keytar.eventCallbacks m)
                                  then [AutoLogout] else [])%list
  else
    Keytar.currentSession (fst s') = Some sess /\
    Keytar.retryCount (fst s') = Keytar.retryCount m + 1 /\
    fired (snd s') = (fired w1 ++ if onSessionError (Keytar.eventCallbacks m)
                                  then [SessionError (RefreshFailed e)] else [])%list.
Proof.
  intros Hs Hr E. open_keytar m w. subst cs ir.
  destruct w1 as [st1 fl1 nw1 fi1 iv1 nh1 gh1 rq1].
  exec_refresh. rewrite E. exec_refresh.
  destruct (MAX_RETRY_ATTEMPTS <=? rc + 1).
  - destruct vt, rt; exec_keytar;
      destruct (fl1 (OpDelete TOKEN_KEY)); try destruct (fl1 (OpDelete USER_KEY));
      destruct (onAutoLogout ev); repeat split; try reflexivity;
      cbv [fired]; rewrite app_nil_r; reflexivity.
  - destruct (onSessionError ev); repeat split; try reflexivity;
      cbv [fired]; rewrite app_nil_r; reflexivity.
Qed.


(** C6, amended.  On a failing profile fetch the two variants follow
    different policies.  The file-store [refreshUserInfo] evicts the
    session at once, fires [onSessionExpired] and returns [null].  The
    keytar [refreshUserInfo] rejects and leaves the manager as it was;
    its refresh timer counts the failure in [retryCount], keeps the
    session while the count stays below [MAX_RETRY_ATTEMPTS], and
    evicts when it is reached. *)
Theorem refresh_failure_policies_differ
    (k : Keytar.Manager) (f : FileStore.Manager) (w : World)
    (sess : UserSession) (e : Error) (w1 : World) :
  Keytar.currentSession k = Some sess ->
  FileStore.currentSession f = Some sess ->
  GitHubAPI.getCompleteUserProfile (tk_access_token (token sess)) w = (Throw e, w1) ->
  (exists f' w',
     FileStore.refreshUserInfo (f, w) = (Ok None, (f', w'))
     /\ FileStore.currentSession f' = None
     /\ fired w' = (fired w1 ++ if onSessionExpired (FileStore.eventCallbacks f)
                                then [SessionExpired] else [])%list)
  /\ Keytar.refreshUserInfo (k, w) = (Throw (RefreshFailed e), (k, w1))
  /\ (Keytar.isRefreshing k = false ->
      let s' := snd (Keytar.performAutoRefresh (k, w)) in
      if MAX_RETRY_ATTEMPTS <=? Keytar.retryCount k + 1 then
        Keytar.currentSession (fst s') = None
        /\ Keytar.retryCount (fst s') = 0
      else
        Keytar.currentSession (fst s') = Some sess
        /\ Keytar.retryCount (fst s') = Keytar.retryCount k + 1).
Proof.
  intros Hk Hf E. split; [|split].
  - destruct (FileStoreFacts.refreshUserInfo_failure_evicts f w sess e w1 Hf E)
      as (f' & w' & Hr & Hc & Hfired & _).
    exists f', w'. auto.
  - apply (keytar_refreshUserInfo_failure k w sess e w1 Hk E).
  - intros Hr.
    pose proof (keytar_performAutoRefresh_failure k w sess e w1 Hk Hr E) as [_ Hp].
    simpl in Hp |- *.
    destruct (MAX_RETRY_ATTEMPTS <=? Keytar.retryCount k + 1);
      destruct Hp as (? & ? & _); auto.
Qed.

End WithJSON.

(** C6 as stated is false: on the same failing fetch, with no failure
    counted before, the file-store refresh timer evicts the session and
    the keytar refresh timer keeps it. *)
Lemma refresh_failure_policies_disagree : ~ refresh_failure_policies_agree.
Proof.
  intros C.
  pose proof (C (Samples.one_document (sessionData Samples.session))
                Samples.logged_in Samples.logged_in_files
                (Samples.world_with_session Samples.no_faults Samples.down)
                Samples.session eq_refl eq_refl eq_refl eq_refl) as [_ Hback].
  - eexists. eexists. vm_compute. reflexivity.
  - assert (Hf : FileStore.currentSession
                   (fst (snd (@FileStore.refreshTick
                                (Samples.one_document (sessionData Samples.session))
                                (Samples.logged_in_files,
                                 Samples.world_with_session Samples.no_faults
                                   Samples.down)))) = None)
      by (vm_compute; reflexivity).
    specialize (Hback Hf). vm_compute in Hback. discriminate.
Qed.

Lemma refresh_failure_policies_differ_witness :
  Keytar.currentSession
    (fst (snd (@Keytar.performAutoRefresh
                 (Samples.one_document (sessionData Samples.session))
                 (Samples.logged_in,
                  Samples.world_with_session Samples.no_faults Samples.down))))
  = Some Samples.session
  /\ exists f' w',
       @FileStore.refreshUserInfo
         (Samples.one_document (sessionData Samples.session))
         (Samples.logged_in_files,
          Samples.world_with_session Samples.no_faults Samples.down)
       = (Ok None, (f', w'))
       /\ FileStore.currentSession f' = None.
Proof.
  destruct (@refresh_failure_policies_differ
              (Samples.one_document (sessionData Samples.session))
              Samples.logged_in Samples.logged_in_files
              (Samples.world_with_session Samples.no_faults Samples.down)
              Samples.session
              (UserInfoFailed (HttpStatus 401 "Bad credentials"))
              (set_requests (fun l => (l ++ [GetUser "tok_1"])%list)
                 (Samples.world_with_session Samples.no_faults Samples.down))
              eq_refl eq_refl eq_refl)
    as ((f' & w' & Hfile & Hnone & _) & _ & Hkeytar).
  split.
  - destruct (Hkeytar eq_refl) as [Hcur _]. exact Hcur.
  - exists f', w'. split; assumption.
Defined.

End RefreshFacts.

(** ** Secrecy of the access token *)

Module SecrecyFacts.

Section WithJSON.
Context `{JSON}.


End WithJSON.
End SecrecyFacts.

(** ** The authorization flow *)

Module OAuthFacts.
Import OAuthManager.

(** [handleCallback] calls [resolve] or [reject] as [callback_verdict]
    says. *)
Lemma handleCallback_verdict sid url expected s :
  fst (handleCallback sid url expected s) = Ok (callback_verdict url expected).
Proof.
  destruct s as [m h]. unfold handleCallback, callback_verdict.
  destruct (JS.truthy (searchParams_get (searchParams url) "error"));
    [|destruct (bool_decide (searchParams_get (searchParams url) "state" = Some expected));
      [destruct (JS.truthy (searchParams_get (searchParams url) "code"))|]];
    cbn [negb]; open_oauth m h; destruct sv; exec_oauth; reflexivity.
Qed.

(** A callback request that reaches the listening server of an attempt
    settles the promise of that server with the verdict for the state
    the server was started with, and with it the [login()] that awaits
    it. *)
Lemma on_request_settles m h sid srv url :
  servers h !! sid = Some srv ->
  port h = Some sid ->
  pathname url = redirectPathname (config m) ->
  serverPromise h !! sid = None ->
  let s' := snd (on_request sid (Some url) (m, h)) in
  serverPromise (snd s') !! sid = Some (callback_verdict url (expectedState srv))
  /\ (owner srv ∈ awaiting h ->
      loginPromise h !! owner srv = None ->
      loginPromise (snd s') !! owner srv
      = Some (callback_verdict url (expectedState srv))).
Proof.
  intros Hsrv Hport Hpath Hpending. open_oauth m h. subst pt.
  unfold callback_verdict.
  cbv beta iota zeta delta [on_request]. exec_oauth.
  rewrite Hsrv, Hpath, String.eqb_refl, bool_decide_eq_true_2 by reflexivity.
  destruct srv as [expected own]. exec_oauth.
  destruct (JS.truthy (searchParams_get (searchParams url) "error"));
    [|destruct (bool_decide (searchParams_get (searchParams url) "state" = Some expected));
      [destruct (JS.truthy (searchParams_get (searchParams url) "code"))|]];
    exec_oauth; destruct sv; exec_oauth; rewrite Hpending, Hsrv; exec_oauth;
    (split; [ destruct (bool_decide (own ∈ aw)); exec_oauth;
              repeat match goal with
                     | |- context [match ?x !! ?i with _ => _ end] => destruct (x !! i)
                     end; apply lookup_insert_eq
            | intros Haw Hlp; rewrite (bool_decide_eq_true_2 _ Haw); exec_oauth;
              rewrite Hlp; apply lookup_insert_eq ]).
Qed.

(** [login] hands the same state to the authorization URL and to the
    callback server it starts. *)
Lemma login_binds_state st browser s :
  let s' := snd (login st browser s) in
  fst (login st browser s) = Ok (nextAttempt (snd s))
  /\ servers (snd s') !! nextServer (snd s)
     = Some {| expectedState := st; owner := nextAttempt (snd s) |}
  /\ last (opened (snd s')) = Some (buildAuthUrl (config (fst s)) st)
  /\ searchParams_get (searchParams (buildAuthUrl (config (fst s)) st)) "state" = Some st.
Proof.
  destruct s as [m h]. open_oauth m h.
  destruct ap as [old|], browser; exec_oauth;
    try destruct (lp !! old); exec_oauth;
    repeat match goal with
           | |- context [match ?x !! ?i with _ => _ end] => destruct (x !! i)
           end;
    (split; [reflexivity|]; split; [apply lookup_insert_eq|];
     split; [apply last_snoc|reflexivity]).
Qed.

(** A rejected [login()] makes the [oauth:login] handler answer with the
    failure and touch neither the session manager nor the world. *)
Lemma oauth_login_rejected `{JSON} e s :
  Main.oauth_login (Throw e) s = (Ok (Main.LoginFailed e), s).
Proof. reflexivity. Qed.

Lemma callback_verdict_accepts url expected result :
  callback_verdict url expected = Ok result ->
  searchParams_get (searchParams url) "state" = Some expected
  /\ code result = searchParams_get (searchParams url) "code"
  /\ JS.truthy (code result) = true.
Proof.
  unfold callback_verdict.
  destruct (JS.truthy (searchParams_get (searchParams url) "error")); [discriminate|].
  destruct (bool_decide_reflect
              (searchParams_get (searchParams url) "state" = Some expected))
    as [Hst|Hst]; cbn [negb]; [|discriminate].
  destruct (JS.truthy (searchParams_get (searchParams url) "code")) eqn:Hc;
    cbn [negb]; [|discriminate].
  intros E. inversion E. simpl. auto.
Qed.

Lemma callback_verdict_mismatch url expected :
  JS.truthy (searchParams_get (searchParams url) "error") = false ->
  searchParams_get (searchParams url) "state" <> Some expected ->
  callback_verdict url expected = Throw StateMismatchError.
Proof.
  intros He Hst. unfold callback_verdict. rewrite He.
  rewrite (bool_decide_eq_false_2 _ Hst). reflexivity.
Qed.

(** C2. A callback request that reaches the listening server of a login
    attempt resolves the promise of that server only when the [state]
    parameter equals the state the server was started with, and then
    with the [code] parameter, which is not empty.  When [error] is
    falsy and [state] differs, the promise is rejected with the
    state-mismatch error, so is the [login()] that awaits it, and the
    [oauth:login] handler answers with that failure without touching
    the session manager or the store.  The state a server is started
    with is the [state] parameter of the authorization URL that the
    same [login()] call opens. *)
Theorem state_parameter_integrity `{JSON}
    (m : Manager) (h : Host) (sid : nat) (srv : Server) (url : Url)
    (st : string) (browser : bool) (k : Keytar.St) :
  servers h !! sid = Some srv ->
  port h = Some sid ->
  pathname url = redirectPathname (config m) ->
  serverPromise h !! sid = None ->
  let s' := snd (on_request sid (Some url) (m, h)) in
  let q := searchParams_get (searchParams url) in
  (forall result,
      serverPromise (snd s') !! sid = Some (Ok result) ->
      q "state" = Some (expectedState srv)
      /\ code result = q "code" /\ JS.truthy (q "code") = true)
  /\ (JS.truthy (q "error") = false ->
      q "state" <> Some (expectedState srv) ->
      serverPromise (snd s') !! sid = Some (Throw StateMismatchError)
      /\ (owner srv ∈ awaiting h ->
          loginPromise h !! owner srv = None ->
          loginPromise (snd s') !! owner srv = Some (Throw StateMismatchError))
      /\ Main.oauth_login (Throw StateMismatchError) k
         = (Ok (Main.LoginFailed StateMismatchError), k))
  /\ (let s1 := snd (login st browser (m, h)) in
      servers (snd s1) !! nextServer h
      = Some {| expectedState := st; owner := nextAttempt h |}
      /\ last (opened (snd s1)) = Some (buildAuthUrl (config m) st)
      /\ searchParams_get (searchParams (buildAuthUrl (config m) st)) "state"
         = Some st).
Proof.
  intros Hsrv Hport Hpath Hpending s' q.
  destruct (on_request_settles m h sid srv url Hsrv Hport Hpath Hpending)
    as [Hserver Hlogin].
  fold s' in Hserver, Hlogin.
  split; [|split].
  - intros result Hres. rewrite Hserver in Hres. inversion Hres as [Hv].
    destruct (callback_verdict_accepts _ _ _ Hv) as (Hs & Hc & Ht).
    repeat split; try assumption. unfold q. rewrite <- Hc. exact Ht.
  - intros He Hne.
    rewrite (callback_verdict_mismatch url (expectedState srv) He Hne)
      in Hserver, Hlogin.
    repeat split; try assumption. 
  - destruct (login_binds_state st browser (m, h)) as (_ & H1 & H2 & H3).
    repeat split; assumption.
Qed.

Lemma state_parameter_integrity_witness :
  loginPromise
    (snd (snd (on_request 0 (Some OAuthSamples.forged) OAuthSamples.waiting)))
    !! 0%nat
  = Some (Throw StateMismatchError).
Proof.
  destruct (@state_parameter_integrity
              (Samples.one_document (sessionData Samples.session))
              (fst OAuthSamples.waiting) (snd OAuthSamples.waiting) 0%nat
              {| expectedState := "5f2b9c"; owner := 0%nat |}
              OAuthSamples.forged "5f2b9c" true
              (Keytar.new, Samples.world Samples.no_faults Samples.up))
    as (_ & Hmismatch & _).
  - vm_compute. reflexivity.
  - vm_compute. reflexivity.
  - vm_compute. reflexivity.
  - vm_compute. reflexivity.
  - destruct Hmismatch as (_ & Hlogin & _).
    + vm_compute. reflexivity.
    + vm_compute. discriminate.
    + apply Hlogin.
      * vm_compute. reflexivity.
      * vm_compute. reflexivity.
Defined.

(** When the callback arrives, or the timer fires, the listener is
    closed before the promise of [login()] settles. *)
Lemma callback_closes_before_settling c st url :
  pathname url = redirectPathname c ->
  trace (snd (snd (run [CallLogin st true; Request 0 (Some url)] (new c, boot))))
  = [Closed 0; Settled 0 (callback_verdict url st)].
Proof.
  intros Hpath. unfold callback_verdict, new, boot. exec_oauth.
  change (bool_decide (@None nat = None)) with true. exec_oauth.
  rewrite lookup_insert_eq, Hpath, String.eqb_refl. exec_oauth.
  change (bool_decide (Some 0%nat = Some 0%nat)) with true. exec_oauth.
  destruct (JS.truthy (searchParams_get (searchParams url) "error"));
    [|destruct (bool_decide (searchParams_get (searchParams url) "state" = Some st));
      [destruct (JS.truthy (searchParams_get (searchParams url) "code"))|]];
    exec_oauth; rewrite lookup_insert_eq; vm_compute; reflexivity.
Qed.

Lemma timeout_closes_before_settling c st :
  trace (snd (snd (run [CallLogin st true; TimerFires 0] (new c, boot))))
  = [Closed 0; Settled 0 (Throw AuthorizationTimeout)].
Proof. vm_compute. reflexivity. Qed.

(** [cancelAuth] rejects the promise first and closes the listener
    after. *)
Lemma cancel_settles_before_closing c st :
  trace (snd (snd (run [CallLogin st true; CallCancelAuth] (new c, boot))))
  = [Settled 0 (Throw AuthorizationCancelled); Closed 0].
Proof. vm_compute. reflexivity. Qed.

(** A second [login()] right after the first, on a new manager: the
    promise of the first is rejected, its listener is never closed and
    keeps the port, also when the 'error' event of the second server
    and both timers have come. *)
Lemma two_logins_in_a_row (c : OAuthConfig) (st1 st2 : string) :
  let s := snd (run [CallLogin st1 true; CallLogin st2 true] (new c, boot)) in
  let s' := snd (run [ListenError 1; TimerFires 0; TimerFires 1] s) in
  trace (snd s) = [Settled 0 (Throw AuthorizationSuperseded)]
  /\ port (snd s) = Some 0%nat
  /\ server (fst s) = Some 1%nat
  /\ trace (snd s')
     = [Settled 0 (Throw AuthorizationSuperseded); Closed 1;
        Settled 1 (Throw CallbackServerFailed)]
  /\ port (snd s') = Some 0%nat.
Proof. vm_compute. repeat split; reflexivity. Qed.

(** C3, on the code.  While an attempt is pending and its server [sid]
    listens, a new [login()] rejects the promise of the pending attempt
    and leaves its listener open: the promise settles, [sid] still holds
    the port, the manager no longer refers to [sid], and nothing that
    the call does after settling the promise closes [sid]. *)
Theorem superseded_login_leaks_listener
    (m : Manager) (h : Host) (a sid : nat) (st : string) (browser : bool) :
  authPromise m = Some a ->
  server m = Some sid ->
  port h = Some sid ->
  loginPromise h !! a = None ->
  a <> nextAttempt h ->
  sid <> nextServer h ->
  let s' := snd (login st browser (m, h)) in
  loginPromise (snd s') !! a = Some (Throw AuthorizationSuperseded)
  /\ port (snd s') = Some sid
  /\ server (fst s') <> Some sid
  /\ exists tail,
       trace (snd s')
       = (trace h ++ Settled a (Throw AuthorizationSuperseded) :: tail)%list
       /\ ~ In (Closed sid) tail.
Proof.
  intros Hap Hsv Hport Hlp Ha Hsid. open_oauth m h. subst ap sv pt.
  assert (Hns : Some sid <> Some ns) by congruence.
  assert (Hns' : Some ns <> Some sid) by congruence.
  destruct browser; exec_oauth; rewrite Hlp; exec_oauth;
    rewrite (bool_decide_eq_false_2 (Some sid = None)) by discriminate.
  - split; [apply lookup_insert_eq|]. split; [reflexivity|].
    split; [exact Hns'|].
    exists []. split; [reflexivity|]. intros [].
  - rewrite (bool_decide_eq_false_2 _ Hns).
    rewrite lookup_insert_ne by exact Ha.
    destruct (lp !! na); exec_oauth.
    + split; [apply lookup_insert_eq|]. split; [reflexivity|].
      split; [discriminate|].
      exists [Closed ns]. split; [rewrite <- app_assoc; reflexivity|].
      intros [E|[]]. congruence.
    + split; [rewrite lookup_insert_ne by (intros E; apply Ha; symmetry; exact E);
              apply lookup_insert_eq|].
      split; [reflexivity|]. split; [discriminate|].
      exists [Closed ns; Settled na (Throw BrowserFailed)].
      split; [rewrite <- !app_assoc; reflexivity|].
      intros [E|[E|[]]]; congruence.
Qed.

Lemma superseded_login_leaks_listener_witness :
  let s' := snd (login "9d41e7" true OAuthSamples.waiting) in
  loginPromise (snd s') !! 0%nat = Some (Throw AuthorizationSuperseded)
  /\ port (snd s') = Some 0%nat.
Proof.
  destruct (superseded_login_leaks_listener
              (fst OAuthSamples.waiting) (snd OAuthSamples.waiting)
              0%nat 0%nat "9d41e7" true)
    as (Hsettled & Hport & _).
  - vm_compute. reflexivity.
  - vm_compute. reflexivity.
  - vm_compute. reflexivity.
  - vm_compute. reflexivity.
  - vm_compute. discriminate.
  - vm_compute. discriminate.
  - split; [exact Hsettled | exact Hport].
Defined.

End OAuthFacts.

(** ** Refreshes on the event loop *)

Module EventLoopFacts.
Import Keytar EventLoop.

Section WithJSON.
Context `{JSON}.

(** Cutting [manualRefresh] and [performAutoRefresh] at the network
    call loses nothing: when the answer comes before any other task,
    the two halves make the whole. *)
Lemma manualRefresh_uninterrupted s :
  st (match manualRefresh_begin {| st := s; inflight := [] |} with
      | (Some _, l) => l
      | (None, l) => complete 0 l
      end)
  = snd (manualRefresh s).
Proof.
  destruct s as [m w]. unfold manualRefresh_begin, manualRefresh, complete.
  cbn [st inflight fst snd]. unfold bind, this, gets. cbn [fst snd].
  destruct (isRefreshing m); [reflexivity|].
  unfold refreshUserInfo, bind, this, gets. cbn [fst snd].
  destruct (currentSession m) as [cur|]; [|reflexivity].
  cbn [st inflight app lookup list_lookup fst snd].
  destruct (GitHubAPI.getCompleteUserProfile (tk_access_token (token cur)) w).
  reflexivity.
Qed.

Lemma performAutoRefresh_uninterrupted s :
  st (let l := performAutoRefresh_begin {| st := s; inflight := [] |} in
      match inflight l with
      | [] => l
      | _ => complete 0 l
      end)
  = snd (performAutoRefresh s).
Proof.
  destruct s as [m w]. unfold performAutoRefresh_begin, performAutoRefresh, complete.
  cbn [st inflight fst snd]. unfold bind, this, gets. cbn [fst snd].
  destruct (currentSession m) as [cur|] eqn:Hcur; cbn [JS.is_null orb];
    [|reflexivity].
  destruct (isRefreshing m); [reflexivity|].
  cbn [st inflight app lookup list_lookup fst snd].
  unfold assign, modify. cbn [fst snd].
  unfold performAutoRefresh_resume at 2.
  unfold try_finally, try_catch, bind at 1.
  unfold refreshUserInfo at 1. unfold bind at 1, this, gets.
  cbn [fst snd]. 
  assert (Hc : currentSession (set_isRefreshing true m) = Some cur)
    by (destruct m; exact Hcur).
  rewrite Hc. cbn [fst snd].
  destruct (GitHubAPI.getCompleteUserProfile (tk_access_token (token cur)) w)
    as [profile w'].
  reflexivity.
Qed.

(** While [isRefreshing] is set, a refresh request starts no network
    call: [manualRefresh] returns the current session as it is, and the
    refresh timer does nothing. *)
Lemma refresh_requests_wait_for_the_flag l :
  isRefreshing (fst (st l)) = true ->
  manualRefresh_begin l = (Some (currentSession (fst (st l))), l)
  /\ performAutoRefresh_begin l = l.
Proof.
  intros Hbusy. unfold manualRefresh_begin, performAutoRefresh_begin.
  rewrite Hbusy. split; [reflexivity|].
  destruct (currentSession (fst (st l))); reflexivity.
Qed.

(** C4, on the code.  [manualRefresh] starts its network call without
    setting [isRefreshing].  So the refresh timer, or a second
    [manualRefresh], that arrives before the answer starts a call of
    its own: two refresh calls are in flight together. *)
Theorem manual_refresh_is_not_serialized
    (m : Manager) (w : World) (sess : UserSession) :
  currentSession m = Some sess ->
  isRefreshing m = false ->
  let l0 := {| st := (m, w); inflight := [] |} in
  let tok := tk_access_token (token sess) in
  isRefreshing (fst (st (run [CallManualRefresh] l0))) = false
  /\ inflight (run [CallManualRefresh; RefreshTimerFires] l0)
     = [(Manual, tok); (Auto, tok)]
  /\ inflight (run [CallManualRefresh; CallManualRefresh] l0)
     = [(Manual, tok); (Manual, tok)].
Proof.
  intros Hs Hr. destruct m as [cs rt vt ev ir rc]. simpl in Hs, Hr. subst cs ir.
  repeat split.
Qed.

End WithJSON.

Lemma manual_refresh_is_not_serialized_witness :
  inflight
    (@run (Samples.one_document (sessionData Samples.session))
       [CallManualRefresh; RefreshTimerFires]
       {| st := (Samples.logged_in,
                 Samples.world_with_session Samples.no_faults Samples.up);
          inflight := [] |})
  = [(Manual, "tok_1"); (Auto, "tok_1")].
Proof.
  destruct (@manual_refresh_is_not_serialized
              (Samples.one_document (sessionData Samples.session))
              Samples.logged_in
              (Samples.world_with_session Samples.no_faults Samples.up)
              Samples.session eq_refl eq_refl) as (_ & Hboth & _).
  exact Hboth.
Defined.

End EventLoopFacts.

(** ** The statements at sample inputs *)

Module Instances.

Lemma getCompleteUserProfile_email_never_fatal_witness :
  exists w2,
    GitHubAPI.getCompleteUserProfile "tok_1" (Samples.world Samples.no_faults Samples.up)
    = (Ok Samples.octocat, w2)
    /\ In (GetUserEmails "tok_1") (requests w2).
Proof.
  destruct (GitHubAPIFacts.getCompleteUserProfile_email_never_fatal
              "tok_1" (Samples.world Samples.no_faults Samples.up))
    as (_ & _ & Hdegrade).
  destruct (Hdegrade Samples.octocat
              (set_requests (fun l => (l ++ [GetUser "tok_1"])%list)
                 (Samples.world Samples.no_faults Samples.up))
              eq_refl eq_refl) as (pe & w2 & Hcall & Hreq & Hnone).
  assert (Hpe : pe = None).
  { eapply Hnone. vm_compute. reflexivity. }
  subst pe. exists w2. split; [exact Hcall | exact Hreq].
Defined.

Lemma saveSession_atomic_on_store_failure_witness :
  exists w',
    @Keytar.saveSession (Samples.one_document (sessionData Samples.session))
      Samples.session
      (Keytar.new, Samples.world Samples.metadata_write_fails Samples.up)
    = (Throw (SaveSessionFailed (StoreFault (OpSet USER_KEY))), (Keytar.new, w')).
Proof.
  destruct (@KeytarStoreFacts.saveSession_atomic_on_store_failure
              (Samples.one_document (sessionData Samples.session))
              Samples.session Keytar.new
              (Samples.world Samples.metadata_write_fails Samples.up))
    as (op & w' & Hsave & _).
  - right. reflexivity.
  - exists w'. rewrite Hsave. vm_compute in Hsave.
    inversion Hsave. reflexivity.
Defined.

Lemma clearSession_skips_metadata_after_token_fault_witness :
  exists m' w',
    Keytar.clearSession
      (Samples.logged_in,
       Samples.world_with_session Samples.token_delete_fails Samples.up)
    = (Ok tt, (m', w'))
    /\ Keytar.currentSession m' = None
    /\ store w' !! USER_KEY = Some "{...}".
Proof.
  destruct (KeytarStoreFacts.clearSession_skips_metadata_after_token_fault
              Samples.logged_in
              (Samples.world_with_session Samples.token_delete_fails Samples.up)
              eq_refl)
    as (m' & w' & Hclear & Hcur & _ & _ & _ & Hstore).
  exists m', w'. repeat split; try assumption.
  rewrite Hstore. vm_compute. reflexivity.
Defined.


End Instances.

(** ** The scenarios of the specification, run on the embedding *)

Module Scenarios.
Import ScenarioData.

(** Scenario A: a valid code with the matching state, a token, a
    profile; the session is saved and a new manager loads it. *)
Example scenario_A :
  outcome [OAuthManager.Request 0 (Some granted)]
  = Some (Ok {| OAuthManager.success := true; OAuthManager.code := Some "abc123"; OAuthManager.error := None;
                OAuthManager.state := Some "5f2b9c" |})
  /\ (let logged := @Main.oauth_login codec
                      (Ok {| OAuthManager.success := true; OAuthManager.code := Some "abc123";
                             OAuthManager.error := None; OAuthManager.state := Some "5f2b9c" |}) fresh in
      fst logged = Ok (Main.LoginSucceeded Samples.octocat Samples.tok_1)
      /\ match fst (@Keytar.loadSession codec (Keytar.new, snd (snd logged))) with
         | Ok (Some s) => login (user s) = "octocat"
         | _ => False
         end).
Proof. vm_compute. repeat split; reflexivity. Qed.

(** Scenario B: the provider reports [access_denied]; [login()] rejects
    with it, no session is created and the store stays empty. *)
Example scenario_B :
  outcome [OAuthManager.Request 0 (Some denied)]
  = Some (Throw (ProviderAuthorizationError "access_denied"
                   (Some "The user has denied access")))
  /\ (let failed := @Main.oauth_login codec
                      (Throw (ProviderAuthorizationError "access_denied"
                                (Some "The user has denied access"))) fresh in
      Keytar.currentSession (fst (snd failed)) = None
      /\ store (snd (snd failed)) = ∅).
Proof. vm_compute. repeat split; reflexivity. Qed.

(** Scenario C: three due validation ticks that all find the token
    rejected.  The entries are deleted, no session is current, and the
    one callback that has run is [onSessionExpired]. *)
Example scenario_C :
  let tick t s := snd (@Keytar.performPeriodicValidation codec
                         (elapse Samples.down t s)) in
  let s0 := (Samples.logged_in,
             Samples.world_with_session Samples.no_faults Samples.up) in
  let s3 := tick 1700010800003 (tick 1700007200002 (tick 1700003600001 s0)) in
  Keytar.currentSession (fst s3) = None
  /\ store (snd s3) !! TOKEN_KEY = None
  /\ store (snd s3) !! USER_KEY = None
  /\ fired (snd s3) = [SessionExpired].
Proof. vm_compute. repeat split; reflexivity. Qed.

(** Scenario D: no callback within the window; [login()] rejects with
    the timeout error and the listener is closed, the port free. *)
Example scenario_D :
  outcome [OAuthManager.TimerFires 0] = Some (Throw AuthorizationTimeout)
  /\ OAuthManager.port
       (snd (snd (OAuthManager.run
                    [OAuthManager.CallLogin "5f2b9c" true; OAuthManager.TimerFires 0]
                    (OAuthManager.new OAuthSamples.github_config, OAuthManager.boot))))
     = None.
Proof. vm_compute. repeat split; reflexivity. Qed.

End Scenarios.


(** * Further properties *)

(** ** The timers of the keytar session manager *)

Module KeytarInvariantFacts.
Import Keytar KeytarCalls.

(** Symbolic execution that leaves the four building blocks folded. *)
Ltac exec_blocks :=
  cbv beta iota zeta delta
    [bind ret throw try_catch try_finally get gets modify zoom when
     fire Date_now
     set_store set_fired set_requests set_github set_now set_faults
     store faults now fired intervals nextHandle github requests
     fst snd negb orb andb JS.is_null
     Keytar.this Keytar.assign Keytar.io Keytar.notify
     Keytar.setPassword Keytar.getPassword Keytar.deletePassword
     Keytar.updateSessionData Keytar.loadSession Keytar.rebuilt
     Keytar.validateSession Keytar.touch Keytar.handleSessionError
     Keytar.performPeriodicValidation Keytar.refreshUserInfo
     Keytar.refreshUserInfo_resume Keytar.refreshed
     Keytar.performAutoRefresh Keytar.performAutoRefresh_resume
     Keytar.manualRefresh Keytar.destroy Keytar.setEventCallbacks
     Keytar.set_currentSession Keytar.set_refreshTimer Keytar.set_validationTimer
     Keytar.set_eventCallbacks Keytar.set_isRefreshing Keytar.set_retryCount
     Keytar.currentSession Keytar.refreshTimer Keytar.validationTimer
     Keytar.eventCallbacks Keytar.isRefreshing Keytar.retryCount].

Ltac unfold_owned :=
  unfold timers_owned in *;
  cbn [fst snd currentSession refreshTimer validationTimer retryCount
       intervals] in *.

Lemma two_intervals_deleted (v r : nat) (V R : Tick * Z) :
  delete r (delete v (<[r := R]> (<[v := V]> (∅ : gmap nat (Tick * Z))))) = ∅.
Proof.
  apply map_eq. intros i. rewrite lookup_empty.
  destruct (decide (i = r)) as [->|Hr]; [apply lookup_delete_eq|].
  rewrite lookup_delete_ne by congruence.
  destruct (decide (i = v)) as [->|Hv]; [apply lookup_delete_eq|].
  rewrite lookup_delete_ne by congruence.
  rewrite !lookup_insert_ne by congruence. apply lookup_empty.
Qed.

(** Owning the timers is about the two handles and the intervals only. *)
Lemma owned_same_timers m w m' w' :
  timers_owned (m, w) ->
  validationTimer m' = validationTimer m ->
  refreshTimer m' = refreshTimer m ->
  intervals w' = intervals w ->
  timers_owned (m', w').
Proof. unfold_owned. intros Hown -> -> ->. exact Hown. Qed.

Ltac same_timers Hown m w :=
  apply (owned_same_timers m w);
  [ exact Hown
  | first [reflexivity | destruct m; reflexivity] ..
  | first [reflexivity | destruct w; reflexivity] ].

Lemma stopAutoMaintenance_owned m w :
  timers_owned (m, w) ->
  exists w',
    stopAutoMaintenance (m, w)
    = (Ok tt, (set_refreshTimer None (set_validationTimer None m), w'))
    /\ intervals w' = ∅ /\ nextHandle w' = nextHandle w
    /\ same_but_intervals w w'.
Proof.
  unfold timers_owned, same_but_intervals. open_keytar m w. cbn [fst snd].
  destruct vt as [v|], rt as [r|]; try contradiction.
  - intros [Hne ->]. eexists. split; [exec_keytar; reflexivity|].
    cbn. split; [apply two_intervals_deleted|]. repeat split.
  - intros ->. eexists. split; [exec_keytar; reflexivity|].
    cbn. repeat split.
Qed.

Lemma startAutoMaintenance_owned m w :
  timers_owned (m, w) ->
  exists w',
    startAutoMaintenance (m, w)
    = (Ok tt, (set_refreshTimer (Some (S (nextHandle w)))
                 (set_validationTimer (Some (nextHandle w)) m), w'))
    /\ intervals w'
       = <[S (nextHandle w) := (RefreshTick, AUTO_REFRESH_INTERVAL)]>
           (<[nextHandle w := (ValidationTick, TOKEN_VALIDATION_INTERVAL)]> ∅)
    /\ same_but_intervals w w'.
Proof.
  intros Hown.
  destruct (stopAutoMaintenance_owned m w Hown) as (w' & Hstop & Hiv & Hnh & Hsame).
  unfold startAutoMaintenance, bind. rewrite Hstop.
  destruct m as [cs rt vt ev ir rc], w' as [st fl nw fi iv nh gh rq].
  cbn in Hiv, Hnh. subst iv nh. exec_keytar.
  eexists. split; [reflexivity|]. split; [reflexivity|].
  unfold same_but_intervals in *. cbn in *. exact Hsame.
Qed.

(** [clearSession] from a state that owns its timers: it resolves,
    no timer is left and no session is current. *)
Lemma clearSession_owned s :
  timers_owned s ->
  fst (clearSession s) = Ok tt
  /\ timers_owned (snd (clearSession s))
  /\ validationTimer (fst (snd (clearSession s))) = None
  /\ currentSession (fst (snd (clearSession s))) = None.
Proof.
  destruct s as [m w]. intros Hown.
  destruct (stopAutoMaintenance_owned m w Hown) as (w' & Hstop & Hiv & _).
  unfold clearSession, try_catch, bind. rewrite Hstop.
  destruct m as [cs rt vt ev ir rc], w' as [st fl nw fi iv nh gh rq].
  cbn in Hiv. subst iv. exec_keytar.
  destruct (fl (OpDelete TOKEN_KEY)); [|destruct (fl (OpDelete USER_KEY))];
    repeat split; reflexivity.
Qed.

Section WithJSON.
Context `{JSON}.

Lemma saveSession_owned session s :
  timers_owned s -> timers_owned (snd (saveSession session s)).
Proof.
  destruct s as [m w]. intros Hown.
  unfold saveSession, try_catch, bind, io, zoom, setPassword. cbn [fst snd].
  destruct (faults w (OpSet TOKEN_KEY)) eqn:Ft.
  { cbn. exact Hown. }
  cbn [fst snd faults set_store].
  destruct (faults w (OpSet USER_KEY)) eqn:Fu.
  { cbn [fst snd]. same_timers Hown m w. }
  unfold assign, modify. cbn [fst snd].
  match goal with |- context [startAutoMaintenance (?m', ?w')] =>
    destruct (startAutoMaintenance_owned m' w') as (w2 & E & Hiv & _);
      [same_timers Hown m w|rewrite E]
  end.
  cbn [fst snd]. unfold_owned. destruct m. cbn. split; [lia|exact Hiv].
Qed.

End WithJSON.
End KeytarInvariantFacts.

Module KeytarHistoryFacts.
Import Keytar KeytarCalls KeytarInvariantFacts.

Ltac probe_user :=
  match goal with |- context [GitHubAPI.getUserInfo ?t ?w] =>
    let E := fresh "E" in let w1 := fresh "w1" in
    destruct (GitHubAPI.getUserInfo t w) as [[?u|?e] w1] eqn:E;
    apply GitHubAPIFacts.getUserInfo_requests in E; subst w1
  end.

(** Run [clearSession] from a state that owns its timers. *)
Ltac clear_step Hown :=
  match goal with |- context [clearSession (?m, ?w)] =>
    let L := fresh "L" in
    assert (L : timers_owned (m, w))
      by (unfold_owned; cbv [set_requests set_fired intervals]; apply Hown);
    apply clearSession_owned in L;
    let r := fresh "r" in let m' := fresh "m'" in let w' := fresh "w'" in
    destruct (clearSession (m, w)) as [r [m' w']];
    cbn [fst snd] in L;
    destruct L as (-> & ? & ? & ?)
  end.

(** The profile client changes nothing but the list of requests. *)
Lemma getCompleteUserProfile_world tok w :
  exists l, snd (GitHubAPI.getCompleteUserProfile tok w) = set_requests (fun _ => l) w.
Proof.
  unfold GitHubAPI.getCompleteUserProfile, bind.
  destruct (GitHubAPI.getUserInfo tok w) as [[u|e] w1] eqn:E;
    apply GitHubAPIFacts.getUserInfo_requests in E; subst w1.
  - destruct (JS.truthy (email u)); cbn [negb].
    + eexists. reflexivity.
    + destruct (GitHubAPIFacts.getPrimaryEmail_total tok
                  (set_requests (fun l => (l ++ [GetUser tok])%list) w)) as [pe ->].
      cbn. destruct w. eexists. reflexivity.
  - eexists. reflexivity.
Qed.

Section WithJSON.
Context `{JSON}.

Lemma validateSession_owned session s :
  timers_owned s -> timers_owned (snd (validateSession session s)).
Proof.
  destruct s as [m w]. intros Hown.
  open_keytar m w.
  destruct session as [o|]; [|destruct cs as [c|]]; exec_blocks;
    try exact Hown; probe_user; exec_blocks;
    try (destruct (fl (OpSet USER_KEY)); exec_blocks);
    try exact Hown;
    (destruct (MAX_RETRY_ATTEMPTS <=? rc + 1);
     [ destruct (onSessionExpired ev); exec_blocks; clear_step Hown; assumption
     | exact Hown ]).
Qed.

Lemma loadSession_owned s :
  timers_owned s -> timers_owned (snd (loadSession s)).
Proof.
  destruct s as [m w]. intros Hown. open_keytar m w. exec_blocks.
  destruct (fl (OpGet TOKEN_KEY)); exec_blocks.
  { clear_step Hown. assumption. }
  destruct (JS.truthy (st !! TOKEN_KEY)); exec_blocks; [|exact Hown].
  destruct (fl (OpGet USER_KEY)); exec_blocks.
  { clear_step Hown. assumption. }
  destruct (JS.truthy (st !! USER_KEY)); exec_blocks.
  - destruct (JSON_parse (default "" (st !! USER_KEY))) as [d|]; exec_blocks.
    + match goal with |- context [startAutoMaintenance (?m, ?w)] =>
        destruct (startAutoMaintenance_owned m w) as (w' & E & Hiv & _);
          [unfold_owned; apply Hown|rewrite E]
      end.
      cbn [fst snd nextHandle] in *. unfold_owned. cbn. split; [lia|exact Hiv].
    + clear_step Hown. assumption.
  - destruct (fl (OpDelete TOKEN_KEY)); exec_blocks.
    + clear_step Hown. assumption.
    + exact Hown.
Qed.

Ltac probe_profile :=
  match goal with |- context [GitHubAPI.getCompleteUserProfile ?t ?w] =>
    let l := fresh "l" in let E := fresh "E" in
    let r := fresh "r" in let w1 := fresh "w1" in
    destruct (getCompleteUserProfile_world t w) as [l E];
    destruct (GitHubAPI.getCompleteUserProfile t w) as [r w1];
    cbn [snd] in E; subst w1; cbv [set_requests] in *
  end.

Lemma refreshUserInfo_owned s :
  timers_owned s -> timers_owned (snd (refreshUserInfo s)).
Proof.
  destruct s as [m w]. intros Hown. open_keytar m w.
  destruct cs as [c|]; exec_blocks; [|exact Hown].
  probe_profile. destruct r as [profile|e]; exec_blocks.
  - match goal with |- context [saveSession ?x (?m, ?w)] =>
      pose proof (saveSession_owned x (m, w) Hown) as L;
      destruct (saveSession x (m, w)) as [r [m' w']]
    end.
    cbn [fst snd] in L. destruct r; exact L.
  - exact Hown.
Qed.

Lemma manualRefresh_owned s :
  timers_owned s -> timers_owned (snd (manualRefresh s)).
Proof.
  destruct s as [m w]. intros Hown.
  unfold manualRefresh, bind, this, gets. cbn [fst snd].
  destruct (isRefreshing m); [exact Hown|].
  apply refreshUserInfo_owned. exact Hown.
Qed.

Lemma notify_owned cb e s :
  timers_owned s ->
  fst (notify cb e s) = Ok tt /\ timers_owned (snd (notify cb e s)).
Proof.
  destruct s as [m w]. intros Hown.
  unfold notify, bind, this, gets, when, io, zoom, fire, modify, ret.
  cbn [fst snd]. destruct (cb (eventCallbacks m)); cbn [fst snd].
  - split; [reflexivity|]. same_timers Hown m w.
  - split; [reflexivity|exact Hown].
Qed.

Lemma owned_set_isRefreshing b m w :
  timers_owned (m, w) -> timers_owned (set_isRefreshing b m, w).
Proof. destruct m. intros Hown. exact Hown. Qed.

(** The part of [handleSessionError] that runs at once. *)
Lemma handleSessionError_begins_owned e s :
  timers_owned s -> timers_owned (snd (handleSessionError_begins e s)).
Proof.
  destruct s as [m w]. intros Hown.
  unfold handleSessionError_begins, bind, assign, modify, this, gets.
  cbn [fst snd].
  destruct (MAX_RETRY_ATTEMPTS <=? _).
  - match goal with |- context [stopAutoMaintenance (?m', ?w')] =>
      destruct (stopAutoMaintenance_owned m' w') as (w2 & E & Hiv & _);
        [destruct m; exact Hown|rewrite E]
    end.
    unfold ret. cbn [fst snd]. destruct m. unfold_owned. cbn. exact Hiv.
  - match goal with |- context [notify ?cb ?ev ?s0] =>
      destruct (notify_owned cb ev s0) as [Hok Hn]; [destruct m; exact Hown|];
      destruct (notify cb ev s0) as [r s1]
    end.
    cbn [fst snd] in *. subst r. exact Hn.
Qed.

(** The rest of [handleSessionError] touches neither the handles nor
    the intervals. *)
Lemma handleSessionError_rest_owned s :
  timers_owned s -> timers_owned (snd (handleSessionError_rest s)).
Proof.
  destruct s as [m w]. intros Hown. open_keytar m w.
  cbv beta iota zeta delta [handleSessionError_rest]. exec_blocks.
  destruct (fl (OpDelete TOKEN_KEY)); [|destruct (fl (OpDelete USER_KEY))];
    destruct (onAutoLogout ev); exact Hown.
Qed.

Lemma performAutoRefresh_settles_owned s :
  timers_owned s -> timers_owned (snd (performAutoRefresh_settles s)).
Proof.
  destruct s as [m w]. intros Hown.
  unfold performAutoRefresh_settles, bind, this, gets. cbn [fst snd].
  destruct (JS.is_null (currentSession m) || isRefreshing m); [exact Hown|].
  unfold assign, modify. cbn [fst snd].
  unfold try_finally, try_catch, bind.
  pose proof (refreshUserInfo_owned _ (owned_set_isRefreshing true m w Hown))
    as Hr.
  destruct (refreshUserInfo (set_isRefreshing true m, w)) as [r s1].
  cbn [snd] in Hr.
  destruct r as [[session|]|e].
  - destruct (notify_owned onSessionRefreshed (SessionRefreshed session) s1 Hr)
      as [Hok Hn].
    destruct (notify onSessionRefreshed (SessionRefreshed session) s1) as [r2 [m2 w2]].
    cbn [fst snd] in *. subst r2. unfold ret. cbn [fst snd].
    apply owned_set_isRefreshing. exact Hn.
  - unfold ret. destruct s1 as [m1 w1]. cbn [fst snd].
    apply owned_set_isRefreshing. exact Hr.
  - pose proof (handleSessionError_begins_owned e s1 Hr) as Hh.
    destruct (handleSessionError_begins e s1) as [r2 [m2 w2]].
    cbn [fst snd] in *. apply owned_set_isRefreshing. exact Hh.
Qed.

Lemma performPeriodicValidation_settles_owned s :
  timers_owned s -> timers_owned (snd (performPeriodicValidation_settles s)).
Proof.
  destruct s as [m w]. intros Hown.
  unfold performPeriodicValidation_settles, bind, this, gets. cbn [fst snd].
  destruct (currentSession m) as [cur|]; [|exact Hown].
  unfold try_catch, bind, io, zoom, Date_now, gets. cbn [fst snd].
  destruct (TOKEN_VALIDATION_INTERVAL <? now w - lastValidatedAt cur);
    [|exact Hown].
  pose proof (validateSession_owned None (m, w) Hown) as Hv.
  destruct (KeytarValidationFacts.validateSession_total None (m, w)) as [b Hb].
  destruct (validateSession None (m, w)) as [r s1]. cbn [fst snd] in *. subst r.
  cbn [fst snd]. unfold when.
  destruct (negb b && (MAX_RETRY_ATTEMPTS <=? retryCount (fst s1))).
  - destruct (notify_owned onAutoLogout AutoLogout s1 Hv) as [Hok Hn].
    destruct (notify onAutoLogout AutoLogout s1) as [r2 s2].
    cbn [fst snd] in *. subst r2. exact Hn.
  - exact Hv.
Qed.

Lemma destroy_owned s :
  timers_owned s -> timers_owned (snd (destroy s)).
Proof.
  destruct s as [m w]. intros Hown.
  destruct (stopAutoMaintenance_owned m w Hown) as (w' & Hstop & Hiv & _).
  unfold destroy, bind. rewrite Hstop.
  destruct m as [cs rt vt ev ir rc]. exec_keytar.
  unfold_owned. exact Hiv.
Qed.

(** Whatever happens to a session manager that owns its timers, it
    owns them afterwards. *)
Lemma perform_owned c s :
  timers_owned (fst s) -> timers_owned (fst (perform c s)).
Proof.
  destruct s as [s pending]. cbn [fst]. intros Hown.
  destruct c; cbn [perform awaited fst snd].
  - destruct s as [[cs rt vt ev ir rc] w]. exact Hown.
  - apply saveSession_owned. exact Hown.
  - apply loadSession_owned. exact Hown.
  - apply validateSession_owned. exact Hown.
  - apply clearSession_owned. exact Hown.
  - apply refreshUserInfo_owned. exact Hown.
  - apply manualRefresh_owned. exact Hown.
  - unfold tick. cbn [fst snd].
    pose proof (performPeriodicValidation_settles_owned s Hown) as L.
    destruct (performPeriodicValidation_settles s) as [r s']. exact L.
  - unfold tick. cbn [fst snd].
    pose proof (performAutoRefresh_settles_owned s Hown) as L.
    destruct (performAutoRefresh_settles s) as [r s']. exact L.
  - destruct pending; cbn [fst]; [exact Hown|].
    apply handleSessionError_rest_owned. exact Hown.
  - apply destroy_owned. exact Hown.
  - destruct s as [m w]. cbn [fst snd]. same_timers Hown m w.
Qed.

Lemma history_owned cs s :
  timers_owned (fst s) -> timers_owned (fst (history cs s)).
Proof.
  revert s. induction cs as [|c cs IH]; intros s Hown; [exact Hown|].
  cbn. apply IH. apply perform_owned. exact Hown.
Qed.

(** X1.  However a session manager is used from its creation on -
    public calls awaited to their end, ticks of the two timers, the
    rests of [handleSessionError] that the ticks leave to the event
    loop, run at any later point - the live intervals are the two it
    holds the handles of, one for validation and one for refresh, or
    there is none and it holds no handle: no interval is leaked and
    no handle is stale. *)
Theorem timers_never_leak (cs : list Call) (w : World) :
  intervals w = ∅ ->
  let s := fst (history cs ((new, w), 0%nat)) in
  timers_owned s
  /\ match validationTimer (fst s), refreshTimer (fst s) with
     | Some v, Some r =>
         v <> r
         /\ (forall h, is_Some (intervals (snd s) !! h) <-> h = v \/ h = r)
     | None, None => forall h, intervals (snd s) !! h = None
     | _, _ => False
     end.
Proof.
  intros Hiv s.
  assert (Hown : timers_owned s).
  { apply history_owned. unfold_owned. cbn. exact Hiv. }
  split; [exact Hown|].
  unfold timers_owned in Hown.
  destruct (validationTimer (fst s)) as [v|], (refreshTimer (fst s)) as [r|];
    try contradiction.
  - destruct Hown as [Hne ->]. split; [exact Hne|]. intros h.
    destruct (decide (h = r)) as [->|Hr].
    + rewrite lookup_insert_eq. split; [auto|intros _; eauto].
    + rewrite lookup_insert_ne by congruence.
      destruct (decide (h = v)) as [->|Hv].
      * rewrite lookup_insert_eq. split; [auto|intros _; eauto].
      * rewrite lookup_insert_ne by congruence. rewrite lookup_empty.
        split; [intros [? [=]]|intros [?|?]; contradiction].
  - rewrite Hown. intros h. apply lookup_empty.
Qed.

End WithJSON.
End KeytarHistoryFacts.

(** ** The keytar session manager: loading, validating, refreshing *)

Module KeytarLifecycleFacts.
Import Keytar KeytarCalls KeytarInvariantFacts.

Section WithJSON.
Context `{JSON}.

(** [loadSession] resolves, sends nothing and fires nothing. *)
Lemma loadSession_quiet (m : Manager) (w : World) :
  exists r m' w',
    loadSession (m, w) = (Ok r, (m', w'))
    /\ requests w' = requests w /\ fired w' = fired w.
Proof.
  open_keytar m w.
  destruct (fl (OpDelete TOKEN_KEY)) eqn:Fdt, (fl (OpDelete USER_KEY)) eqn:Fdu;
    exec_blocks;
    (destruct (fl (OpGet TOKEN_KEY)); exec_blocks;
     [ destruct vt, rt; exec_keytar; rewrite ?Fdt, ?Fdu; exec_keytar;
       do 3 eexists; (split; [reflexivity|]); cbn; auto |]);
    (destruct (st !! TOKEN_KEY) as [tok|] eqn:Ht; cbn [JS.truthy];
     [|exec_blocks; do 3 eexists; (split; [reflexivity|]); cbn; auto]);
    (destruct (String.eqb_spec tok "") as [->|Hne]; cbn [negb]; exec_blocks;
     [do 3 eexists; (split; [reflexivity|]); cbn; auto|]);
    (destruct (fl (OpGet USER_KEY)); exec_blocks;
     [ destruct vt, rt; exec_keytar; rewrite ?Fdt, ?Fdu; exec_keytar;
       do 3 eexists; (split; [reflexivity|]); cbn; auto |]);
    (destruct (st !! USER_KEY) as [text|] eqn:Hu; cbn [JS.truthy];
     [ destruct (String.eqb_spec text "") as [->|Hne']; cbn [negb]; exec_blocks;
       [ rewrite ?Fdt; exec_blocks;
         try (destruct vt, rt; exec_keytar; rewrite ?Fdt, ?Fdu; exec_keytar);
         do 3 eexists; (split; [reflexivity|]); cbn; auto
       | cbv beta iota delta [default from_option Datatypes.id];
         destruct (JSON_parse text) as [d|] eqn:Hp; exec_blocks;
         destruct vt, rt; exec_keytar; rewrite ?Fdt, ?Fdu; exec_keytar;
         do 3 eexists; (split; [reflexivity|]); cbn;
         repeat split; eauto 10 ]
     | exec_blocks; rewrite ?Fdt; exec_blocks;
       try (destruct vt, rt; exec_keytar; rewrite ?Fdt, ?Fdu; exec_keytar);
       do 3 eexists; (split; [reflexivity|]); cbn; auto ]).
Qed.

(** X3.  [loadSession] never rejects and never calls the provider or a
    callback.  When it returns a session, that session is current,
    [retryCount] is 0 and the store is as it was; when it returns
    [null], the manager has no current session or is as it was. *)
Theorem loadSession_never_rejects (m : Manager) (w : World) :
  exists r m' w',
    loadSession (m, w) = (Ok r, (m', w'))
    /\ requests w' = requests w /\ fired w' = fired w
    /\ match r with
       | Some session =>
           currentSession m' = Some session /\ retryCount m' = 0
           /\ store w' = store w
           /\ exists tok text d,
                store w !! TOKEN_KEY = Some tok /\ tok <> ""
                /\ store w !! USER_KEY = Some text /\ JSON_parse text = Some d
                /\ session = rebuilt tok d
       | None => m' = m \/ currentSession m' = None
       end.
Proof.
  open_keytar m w.
  destruct (fl (OpDelete TOKEN_KEY)) eqn:Fdt, (fl (OpDelete USER_KEY)) eqn:Fdu;
    exec_blocks;
    (destruct (fl (OpGet TOKEN_KEY)); exec_blocks;
     [ destruct vt, rt; exec_keytar; rewrite ?Fdt, ?Fdu; exec_keytar;
       do 3 eexists; (split; [reflexivity|]); cbn; auto |]);
    (destruct (st !! TOKEN_KEY) as [tok|] eqn:Ht; cbn [JS.truthy];
     [|exec_blocks; do 3 eexists; (split; [reflexivity|]); cbn; auto]);
    (destruct (String.eqb_spec tok "") as [->|Hne]; cbn [negb]; exec_blocks;
     [do 3 eexists; (split; [reflexivity|]); cbn; auto|]);
    (destruct (fl (OpGet USER_KEY)); exec_blocks;
     [ destruct vt, rt; exec_keytar; rewrite ?Fdt, ?Fdu; exec_keytar;
       do 3 eexists; (split; [reflexivity|]); cbn; auto |]);
    (destruct (st !! USER_KEY) as [text|] eqn:Hu; cbn [JS.truthy];
     [ destruct (String.eqb_spec text "") as [->|Hne']; cbn [negb]; exec_blocks;
       [ rewrite ?Fdt; exec_blocks;
         try (destruct vt, rt; exec_keytar; rewrite ?Fdt, ?Fdu; exec_keytar);
         do 3 eexists; (split; [reflexivity|]); cbn; auto
       | cbv beta iota delta [default from_option Datatypes.id];
         destruct (JSON_parse text) as [d|] eqn:Hp; exec_blocks;
         destruct vt, rt; exec_keytar; rewrite ?Fdt, ?Fdu; exec_keytar;
         do 3 eexists; (split; [reflexivity|]); cbn;
         repeat split; eauto 10 ]
     | exec_blocks; rewrite ?Fdt; exec_blocks;
       try (destruct vt, rt; exec_keytar; rewrite ?Fdt, ?Fdu; exec_keytar);
       do 3 eexists; (split; [reflexivity|]); cbn; auto ]).
Qed.

(** X4.  A token entry without metadata is an orphan: [loadSession] deletes
    it, returns [null] and leaves the manager as it was. *)
Theorem loadSession_removes_orphan_token (m : Manager) (w : World) (tok : string) :
  store w !! TOKEN_KEY = Some tok -> tok <> "" ->
  JS.truthy (store w !! USER_KEY) = false ->
  faults w (OpGet TOKEN_KEY) = false ->
  faults w (OpGet USER_KEY) = false ->
  faults w (OpDelete TOKEN_KEY) = false ->
  loadSession (m, w) = (Ok None, (m, set_store (delete TOKEN_KEY) w)).
Proof.
  intros Ht Hne Hu Fg1 Fg2 Fd. open_keytar m w. exec_blocks.
  rewrite Fg1, Ht, (truthy_nonempty _ Hne). cbv beta iota delta [negb].
  rewrite Fg2, Hu. cbv beta iota delta [negb]. rewrite Fd. reflexivity.
Qed.

(** X5.  Metadata that does not parse makes [loadSession] clear the
    session: both entries are deleted, no session is current, the
    timers are stopped and [null] is returned. *)
Theorem loadSession_clears_corrupt_metadata
    (m : Manager) (w : World) (tok text : string) :
  store w !! TOKEN_KEY = Some tok -> tok <> "" ->
  store w !! USER_KEY = Some text -> text <> "" ->
  JSON_parse text = None ->
  faults w (OpGet TOKEN_KEY) = false ->
  faults w (OpGet USER_KEY) = false ->
  faults w (OpDelete TOKEN_KEY) = false ->
  faults w (OpDelete USER_KEY) = false ->
  exists m' w',
    loadSession (m, w) = (Ok None, (m', w'))
    /\ currentSession m' = None /\ retryCount m' = 0
    /\ validationTimer m' = None /\ refreshTimer m' = None
    /\ store w' !! TOKEN_KEY = None /\ store w' !! USER_KEY = None.
Proof.
  intros Ht Hne Hu Hne' Hp Fg1 Fg2 Fd1 Fd2. open_keytar m w. exec_blocks.
  rewrite Fg1, Ht, (truthy_nonempty _ Hne). cbv beta iota delta [negb].
  rewrite Fg2, Hu, (truthy_nonempty _ Hne').
  cbv beta iota delta [negb default from_option Datatypes.id].
  rewrite Hp. exec_blocks.
  destruct vt, rt; exec_keytar; rewrite Fd1, Fd2;
    do 2 eexists; (split; [reflexivity|]); cbn;
    repeat split; try reflexivity;
    try (rewrite lookup_delete_ne by discriminate; apply lookup_delete_eq);
    apply lookup_delete_eq.
Qed.

(** [destroy] stops the timers and forgets the session and the
    callbacks, but leaves the store alone. *)
Lemma destroy_spec m w :
  exists m' w',
    destroy (m, w) = (Ok tt, (m', w'))
    /\ currentSession m' = None
    /\ validationTimer m' = None /\ refreshTimer m' = None
    /\ store w' = store w /\ faults w' = faults w
    /\ requests w' = requests w /\ fired w' = fired w.
Proof.
  open_keytar m w. destruct vt, rt; exec_blocks; exec_keytar;
    do 2 eexists; repeat split; reflexivity.
Qed.

(** X6.  Quitting is not logging out: after [saveSession] and [destroy], a
    new manager over the same store loads the session again. *)
Theorem destroy_keeps_the_saved_session
    (s : UserSession) (m : Manager) (w : World) :
  tk_access_token (token s) <> "" ->
  json_roundtrip (sessionData s) ->
  store_healthy w ->
  let quit := snd (destroy (snd (saveSession s (m, w)))) in
  currentSession (fst quit) = None
  /\ fst (loadSession (new, snd quit)) = Ok (Some (reloaded s)).
Proof.
  intros Hne [Hstr Hparse] (Fs1 & Fs2 & Fg1 & Fg2) quit.
  destruct (KeytarStoreFacts.saveSession_ok s m w Fs1 Fs2)
    as (m1 & w1 & Hsave & _ & _ & _ & _ & _ & _ & Hstore & Hfaults & _).
  destruct (destroy_spec m1 w1) as (m2 & w2 & Hd & Hcur & _ & _ & Hst2 & Hfl2 & _).
  assert (Hquit : quit = (m2, w2)) by (unfold quit; rewrite Hsave; cbn; rewrite Hd; reflexivity).
  rewrite Hquit. cbn [fst snd]. split; [exact Hcur|].
  destruct (KeytarPersistenceFacts.loadSession_ok new w2 (tk_access_token (token s))
              (JSON_stringify (sessionData s)) (sessionData s))
    as (m3 & w3 & Hload & _).
  - rewrite Hfl2, Hfaults. exact Fg1.
  - rewrite Hfl2, Hfaults. exact Fg2.
  - rewrite Hst2, Hstore. rewrite lookup_insert_ne by discriminate.
    apply lookup_insert_eq.
  - exact Hne.
  - rewrite Hst2, Hstore. apply lookup_insert_eq.
  - exact Hstr.
  - exact Hparse.
  - rewrite Hload. cbn. rewrite KeytarPersistenceFacts.rebuilt_sessionData.
    reflexivity.
Qed.

(** X7.  A validation whose probe succeeds returns [true], resets
    [retryCount] and stamps the current session with the time of the
    call, whether or not the stamped metadata can be written: when the
    write fails, the store keeps the old document. *)
Theorem validateSession_success_survives_store_fault
    (m : Manager) (w : World) (sess : UserSession) (u : GitHubUser) (w1 : World) :
  currentSession m = Some sess ->
  GitHubAPI.getUserInfo (tk_access_token (token sess)) w = (Ok u, w1) ->
  let r := validateSession None (m, w) in
  fst r = Ok true
  /\ currentSession (fst (snd r)) = Some (touch (now w) sess)
  /\ retryCount (fst (snd r)) = 0
  /\ store (snd (snd r))
     = (if faults w (OpSet USER_KEY) then store w
        else <[USER_KEY := JSON_stringify (sessionData (touch (now w) sess))]>
               (store w))
  /\ fired (snd (snd r)) = fired w.
Proof.
  intros Hs E r. unfold r. clear r.
  pose proof (GitHubAPIFacts.getUserInfo_requests _ _ _ _ E) as Hw1.
  open_keytar m w. subst cs. exec_blocks. rewrite E. subst w1. exec_blocks.
  destruct (fl (OpSet USER_KEY)); repeat split; reflexivity.
Qed.

(** X8.  A tick of the validation timer that is not due (the last
    validation is no older than the interval), or that finds no
    session, does nothing at all. *)
Theorem performPeriodicValidation_not_due (m : Manager) (w : World) :
  match currentSession m with
  | Some sess => now w - lastValidatedAt sess <= TOKEN_VALIDATION_INTERVAL
  | None => True
  end ->
  performPeriodicValidation (m, w) = (Ok tt, (m, w)).
Proof.
  intros Hdue. open_keytar m w. destruct cs as [sess|]; exec_blocks;
    [|reflexivity].
  apply Z.ltb_ge in Hdue. rewrite Hdue. reflexivity.
Qed.


Lemma handleSessionError_never_rejects e s :
  fst (handleSessionError e s) = Ok tt.
Proof.
  destruct s as [m w]. open_keytar m w. exec_blocks.
  destruct (MAX_RETRY_ATTEMPTS <=? rc + 1); exec_blocks.
  - match goal with |- context [clearSession (?m, ?w)] =>
      destruct (KeytarStoreFacts.clearSession_resets m w)
        as (m' & w' & -> & _ & _ & _ & _ & _ & Hev & _)
    end.
    exec_blocks. destruct m'. cbn in Hev. subst.
    destruct (onAutoLogout ev); reflexivity.
  - destruct (onSessionError ev); reflexivity.
Qed.

(** X9.  The refresh timer never rejects, and leaves [isRefreshing] as it
    found it: cleared after a run, whatever its outcome, and untouched
    when the tick is skipped. *)
Theorem performAutoRefresh_restores_flag (s : St) :
  fst (performAutoRefresh s) = Ok tt
  /\ isRefreshing (fst (snd (performAutoRefresh s))) = isRefreshing (fst s).
Proof.
  destruct s as [m w].
  unfold performAutoRefresh, bind, this, gets. cbn [fst snd].
  destruct (currentSession m) as [cur|]; cbn [JS.is_null orb];
    [|split; reflexivity].
  destruct (isRefreshing m) eqn:Hr; [split; [reflexivity|exact Hr]|].
  unfold assign, modify. cbn [fst snd].
  unfold performAutoRefresh_resume, try_finally, try_catch, bind.
  destruct (refreshUserInfo (set_isRefreshing true m, w)) as [r s1].
  destruct r as [[session|]|e].
  - unfold notify, bind, this, gets, when, io, zoom, fire, modify, ret.
    cbn [fst snd]. destruct (onSessionRefreshed (eventCallbacks (fst s1)));
      split; reflexivity.
  - unfold ret. split; reflexivity.
  - pose proof (handleSessionError_never_rejects e s1) as Hh.
    destruct (handleSessionError e s1) as [r2 s2]. cbn [fst] in Hh. subst r2.
    split; reflexivity.
Qed.

(** X10.  A refresh that goes through replaces the user snapshot, stamps
    the session, keeps its token and [createdAt], writes both store
    entries and fires [onSessionRefreshed] with the new session; it
    does not reset [retryCount]. *)
Theorem performAutoRefresh_success
    (m : Manager) (w : World) (sess : UserSession)
    (profile : GitHubUser) (w1 : World) :
  currentSession m = Some sess ->
  isRefreshing m = false ->
  GitHubAPI.getCompleteUserProfile (tk_access_token (token sess)) w = (Ok profile, w1) ->
  faults w (OpSet TOKEN_KEY) = false ->
  faults w (OpSet USER_KEY) = false ->
  let updated := refreshed sess profile (now w) in
  let s' := snd (performAutoRefresh (m, w)) in
  currentSession (fst s') = Some updated
  /\ retryCount (fst s') = retryCount m
  /\ isRefreshing (fst s') = false
  /\ fired (snd s')
     = (fired w ++ if onSessionRefreshed (eventCallbacks m)
                   then [SessionRefreshed updated] else [])%list
  /\ store (snd s') !! TOKEN_KEY = Some (tk_access_token (token sess))
  /\ store (snd s') !! USER_KEY = Some (JSON_stringify (sessionData updated)).
Proof.
  intros Hs Hr E Ft Fu updated s'. unfold s', updated. clear s' updated.
  destruct (KeytarHistoryFacts.getCompleteUserProfile_world
              (tk_access_token (token sess)) w) as [l Hw1].
  rewrite E in Hw1. cbn [snd] in Hw1.
  open_keytar m w. subst cs ir w1. exec_blocks. rewrite E. exec_blocks.
  cbv [set_requests]. exec_keytar. rewrite Ft, Fu.
  destruct vt, rt; exec_keytar; destruct (onSessionRefreshed ev);
    repeat split; try reflexivity;
    try (cbv [fired]; rewrite app_nil_r; reflexivity);
    try (rewrite lookup_insert_ne by discriminate; apply lookup_insert_eq);
    apply lookup_insert_eq.
Qed.




End WithJSON.
End KeytarLifecycleFacts.

(** ** The file-store session manager: persistence and eviction *)

Module FileStoreLifecycleFacts.
Import FileStore.

Ltac exec_files_more :=
  cbv beta iota zeta delta
    [FileStore.loadSession FileStore.validateSession
     FileStore.touch FileStore.validationTick FileStore.refreshTick
     FileStore.destroy];
  exec_files.

Section WithJSON.
Context `{JSON}.

(** X12.  [clearSession] of this variant removes each entry whose own
    deletion goes through, whatever becomes of the other, never
    rejects, and leaves no current session and no timer. *)
Theorem file_clearSession_deletes_independently (m : Manager) (w : World) :
  exists m' w',
    clearSession (m, w) = (Ok tt, (m', w'))
    /\ currentSession m' = None
    /\ validationTimer m' = None /\ refreshTimer m' = None
    /\ (faults w (OpDelete TOKEN_KEY) = false -> store w' !! TOKEN_KEY = None)
    /\ (faults w (OpDelete USER_KEY) = false -> store w' !! USER_KEY = None).
Proof.
  destruct (FileStoreFacts.clearSession_independent_deletes m w)
    as (m' & w' & Hc & Hcur & Hvt & Hrt & _ & _ & _ & Hstore).
  exists m', w'. repeat split; try assumption.
  - intros F. rewrite Hstore, F.
    destruct (faults w (OpDelete USER_KEY)); cbn.
    + apply lookup_delete_eq.
    + rewrite lookup_delete_ne by discriminate. apply lookup_delete_eq.
  - intros F. rewrite Hstore, F. apply lookup_delete_eq.
Qed.

(** X13.  Round trip in this variant: a session with a non-empty token and
    no [expiresAt], saved and then loaded by a new manager, comes back
    with all its fields, a [lastValidatedAt] of 0 being replaced by
    [createdAt]. *)
Theorem file_save_then_load_round_trip
    (s : UserSession) (m : Manager) (w : World) :
  tk_access_token (token s) <> "" ->
  expiresAt s = None ->
  JSON_stringify (sessionData s) <> "" ->
  JSON_parse (JSON_stringify (sessionData s)) = Some (sessionData s) ->
  store_healthy w ->
  exists s1 s2,
    saveSession s (m, w) = (Ok tt, s1)
    /\ loadSession (new, snd s1) = (Ok (Some (reloaded s)), s2)
    /\ currentSession (fst s2) = Some (reloaded s).
Proof.
  intros Hne He Hstr Hparse (Fs1 & Fs2 & Fg1 & Fg2).
  open_files m w. exec_files. rewrite Fs1, Fs2.
  assert (Hreb : rebuilt (tk_access_token (token s)) (sessionData s) = reloaded s).
  { destruct s as [u [a ty sc] c l e]. cbn in He. subst e.
    unfold rebuilt, reloaded, sessionData. cbn. destruct (l =? 0); reflexivity. }
  destruct vt, rt; exec_files; eexists; eexists; (split; [reflexivity|]);
    unfold new; exec_files_more; rewrite Fg1;
    rewrite lookup_insert_ne by discriminate; rewrite lookup_insert_eq;
    rewrite (truthy_nonempty _ Hne); cbv beta iota delta [negb];
    rewrite Fg2, lookup_insert_eq, (truthy_nonempty _ Hstr);
    cbv beta iota delta [negb default from_option Datatypes.id];
    rewrite Hparse; exec_files_more; rewrite Hreb; split; reflexivity.
Qed.

(** X14.  In this variant a store read that fails counts as a missing
    entry.  A token that cannot be read gives [null] and changes
    nothing; metadata that cannot be read, beside a readable token,
    makes [loadSession] delete the token entry, although the metadata
    entry is still in the store. *)
Theorem file_loadSession_read_faults (m : Manager) (w : World) (tok : string) :
  (faults w (OpGet TOKEN_KEY) = true ->
   loadSession (m, w) = (Ok None, (m, w)))
  /\ (faults w (OpGet TOKEN_KEY) = false ->
      store w !! TOKEN_KEY = Some tok -> tok <> "" ->
      faults w (OpGet USER_KEY) = true ->
      faults w (OpDelete TOKEN_KEY) = false ->
      loadSession (m, w) = (Ok None, (m, set_store (delete TOKEN_KEY) w))
      /\ store (set_store (delete TOKEN_KEY) w) !! USER_KEY = store w !! USER_KEY).
Proof.
  split.
  - intros F. open_files m w. exec_files_more. rewrite F. reflexivity.
  - intros Fg Ht Hne Fu Fd. open_files m w. split.
    + exec_files_more. rewrite Fg, Ht, (truthy_nonempty _ Hne).
      cbv beta iota delta [negb]. rewrite Fu. cbv beta iota delta [negb JS.truthy].
      rewrite Fd. reflexivity.
    + cbn. apply lookup_delete_ne. discriminate.
Qed.

(** X15.  In this variant one failed validation is enough: a due tick of the
    validation timer whose probe fails evicts the session at once,
    stops the timers and fires [onSessionExpired] once. *)
Theorem file_validationTick_evicts_at_once
    (m : Manager) (w : World) (sess : UserSession) (e : Error) (w1 : World) :
  currentSession m = Some sess ->
  TOKEN_VALIDATION_INTERVAL < now w - lastValidatedAt sess ->
  GitHubAPI.getUserInfo (tk_access_token (token sess)) w = (Throw e, w1) ->
  let s' := snd (validationTick (m, w)) in
  currentSession (fst s') = None
  /\ validationTimer (fst s') = None /\ refreshTimer (fst s') = None
  /\ fired (snd s')
     = (fired w ++ if onSessionExpired (eventCallbacks m)
                   then [SessionExpired] else [])%list.
Proof.
  intros Hs Hdue E s'. unfold s'. clear s'.
  pose proof (GitHubAPIFacts.getUserInfo_requests _ _ _ _ E) as Hw1.
  apply Z.ltb_lt in Hdue.
  open_files m w. subst cs w1. exec_files_more. rewrite Hdue. exec_files_more.
  rewrite E. exec_files_more.
  destruct vt, rt; exec_files_more;
    destruct (fl (OpDelete TOKEN_KEY)), (fl (OpDelete USER_KEY));
    destruct (onSessionExpired ev); repeat split; try reflexivity;
    cbv [fired]; rewrite app_nil_r; reflexivity.
Qed.

End WithJSON.
End FileStoreLifecycleFacts.

(** ** The profile client: token exchange and e-mail selection *)

Module GitHubAPIMoreFacts.
Import GitHubAPI.

(** What [exchangeCodeForToken] returns has a token; what it throws is
    the wrapped error. *)
Lemma exchangeCodeForToken_outcome (code : string) (w : World) :
  match fst (exchangeCodeForToken code w) with
  | Ok data => access_token data <> ""
  | Throw e => exists cause, e = ExchangeFailed cause
  end.
Proof.
  unfold exchangeCodeForToken, try_catch, bind, fetch, json, throw, ret.
  destruct (token_endpoint (github w) code) as [msg|status stt txt [data|]];
    cbn [fst snd]; try (eexists; reflexivity);
    destruct (ok_status status); cbn [negb fst snd]; try (eexists; reflexivity).
  destruct (JS.truthy (tr_error data)); cbn [fst snd]; [eexists; reflexivity|].
  cbn [JS.truthy].
  destruct (String.eqb_spec (access_token data) "") as [Ha|Ha]; cbn [negb fst snd];
    [eexists; reflexivity|exact Ha].
Qed.

(** X16.  [exchangeCodeForToken] sends one request.  What it returns came with
    a 2xx status, carries no [error] and has a non-empty
    [access_token]; every failure is rejected as a token-exchange
    failure that wraps its cause. *)
Theorem exchangeCodeForToken_checked (code : string) (w : World) :
  snd (exchangeCodeForToken code w)
  = set_requests (fun l => (l ++ [PostAccessToken code])%list) w
  /\ match fst (exchangeCodeForToken code w) with
     | Ok data =>
         (exists status statusText text,
            token_endpoint (github w) code
            = Response status statusText text (Some data)
            /\ 200 <= status <= 299)
         /\ JS.truthy (tr_error data) = false
         /\ access_token data <> ""
     | Throw e => exists cause, e = ExchangeFailed cause
     end.
Proof.
  unfold exchangeCodeForToken, try_catch, bind, fetch, json, throw, ret.
  destruct (token_endpoint (github w) code) as [msg|status stt txt [data|]] eqn:E;
    cbn [fst snd]; try (split; [reflexivity|eexists; reflexivity]).
  - unfold ok_status.
    destruct (Z.leb_spec 200 status), (Z.leb_spec status 299);
      cbn [andb negb fst snd]; try (split; [reflexivity|eexists; reflexivity]).
    destruct (JS.truthy (tr_error data)) eqn:He; cbn [fst snd];
      [split; [reflexivity|eexists; reflexivity]|].
    cbn [JS.truthy].
    destruct (String.eqb_spec (access_token data) "") as [Ha|Ha]; cbn [negb fst snd];
      [split; [reflexivity|eexists; reflexivity]|].
    split; [reflexivity|]. repeat split; try assumption.
    exists status, stt, txt. split; [reflexivity|lia].
  - destruct (ok_status status); cbn [negb fst snd];
      split; try reflexivity; eexists; reflexivity.
Qed.

Lemma find_primary_first emails :
  match find_primary emails with
  | Some entry =>
      exists before after,
        emails = (before ++ entry :: after)%list
        /\ em_primary entry = true /\ em_verified entry = true
        /\ Forall (fun x => em_primary x && em_verified x = false) before
  | None => Forall (fun x => em_primary x && em_verified x = false) emails
  end.
Proof.
  unfold find_primary. induction emails as [|x rest IH]; cbn [List.find].
  - constructor.
  - destruct (em_primary x && em_verified x) eqn:Hx.
    + exists [], rest. apply andb_true_iff in Hx. destruct Hx.
      repeat split; auto.
    + destruct (List.find _ rest) as [entry|].
      * destruct IH as (before & after & -> & Hp & Hv & Hall).
        exists (x :: before), after. repeat split; auto.
      * constructor; assumption.
Qed.

(** X17.  When the e-mail list arrives, [getPrimaryEmail] returns the address
    of its first entry that is both primary and verified, and [null]
    when no entry is. *)
Theorem getPrimaryEmail_first_verified_primary
    (tok : string) (w : World) (emails : list GitHubEmail) (w1 : World) :
  getUserEmails tok w = (Ok emails, w1) ->
  match fst (getPrimaryEmail tok w) with
  | Ok (Some address) =>
      exists before entry after,
        emails = (before ++ entry :: after)%list
        /\ em_email entry = address
        /\ em_primary entry = true /\ em_verified entry = true
        /\ Forall (fun x => em_primary x && em_verified x = false) before
  | Ok None => Forall (fun x => em_primary x && em_verified x = false) emails
  | Throw _ => False
  end.
Proof.
  intros E. unfold getPrimaryEmail, try_catch, bind. rewrite E. cbn [fst ret].
  pose proof (find_primary_first emails) as Hf.
  destruct (find_primary emails) as [entry|]; cbn.
  - destruct Hf as (before & after & He & Hp & Hv & Hall).
    exists before, entry, after. auto.
  - exact Hf.
Qed.

End GitHubAPIMoreFacts.

(** ** The authorization manager on any state *)

Module OAuthMoreFacts.
Import OAuthManager.

Ltac split_lookups :=
  repeat match goal with
         | |- context [match ?x !! ?i with _ => _ end] => destruct (x !! i)
         end.

(** X18.  After [cancelAuth] no attempt is pending and the manager holds no
    server; a second [cancelAuth] changes nothing. *)
Theorem cancelAuth_idempotent (s : St) :
  let s1 := snd (cancelAuth s) in
  authPromise (fst s1) = None
  /\ server (fst s1) = None
  /\ cancelAuth s1 = (Ok tt, s1).
Proof.
  destruct s as [m h]. open_oauth m h.
  destruct ap as [a|], sv as [sid|]; exec_oauth; split_lookups; exec_oauth;
    repeat split; reflexivity.
Qed.

(** X19.  What the listening server does with a request that is not
    for the callback path.  A request without target is answered 400
    and one whose target parses to another path 404, and nothing else
    changes: the manager, the port, the promises and the trace are as
    before.  A target that [new URL] refuses makes the listener throw:
    nothing is written and nothing changes, and the exception is
    caught by nothing in the manager. *)
Theorem request_off_the_callback_path
    (URL_parse : string -> option Url)
    (m : Manager) (h : Host) (sid : nat) (srv : Server) (target : option string) :
  servers h !! sid = Some srv ->
  port h = Some sid ->
  (forall url,
     JS.truthy target = true -> URL_parse (default "" target) = Some url ->
     pathname url <> redirectPathname (config m)) ->
  let r := OAuthRequests.requestListener URL_parse sid target (m, h) in
  let answered page :=
    fst r = Ok tt
    /\ fst (snd r) = m
    /\ pages (snd (snd r)) = (pages h ++ [(sid, page)])%list
    /\ port (snd (snd r)) = port h
    /\ trace (snd (snd r)) = trace h
    /\ serverPromise (snd (snd r)) = serverPromise h
    /\ loginPromise (snd (snd r)) = loginPromise h
    /\ awaiting (snd (snd r)) = awaiting h in
  if JS.truthy target then
    match URL_parse (default "" target) with
    | Some _ => answered NotFound
    | None => r = (Throw TypeError, (m, h))
    end
  else answered BadRequest.
Proof.
  intros Hsrv Hport Hpath r answered. subst r answered.
  open_oauth m h. subst pt.
  cbv beta iota zeta delta [OAuthRequests.requestListener on_request]. exec_oauth.
  rewrite Hsrv, bool_decide_eq_true_2 by reflexivity.
  destruct (JS.truthy target) eqn:Ht; exec_oauth.
  - destruct (URL_parse (default "" target)) as [url|] eqn:Hp; exec_oauth.
    + rewrite Hsrv, bool_decide_eq_true_2 by reflexivity.
      destruct (String.eqb_spec (pathname url) (redirectPathname cf)) as [E|E].
      * exfalso. exact (Hpath url eq_refl eq_refl E).
      * exec_oauth. repeat split; reflexivity.
    + reflexivity.
  - rewrite Hsrv, bool_decide_eq_true_2 by reflexivity. exec_oauth.
    repeat split; reflexivity.
Qed.

(** X20.  A callback request that reaches the listening server of the
    pending attempt closes that server, then settles the promise of
    [login()] with the verdict on the request: this order, for every
    verdict; the port is free and nothing is pending afterwards. *)
Theorem callback_closes_then_settles
    (m : Manager) (h : Host) (sid : nat) (srv : Server) (url : Url) :
  servers h !! sid = Some srv ->
  port h = Some sid ->
  server m = Some sid ->
  pathname url = redirectPathname (config m) ->
  serverPromise h !! sid = None ->
  owner srv ∈ awaiting h ->
  loginPromise h !! owner srv = None ->
  let s' := snd (on_request sid (Some url) (m, h)) in
  trace (snd s')
  = (trace h ++ [Closed sid;
                 Settled (owner srv) (callback_verdict url (expectedState srv))])%list
  /\ port (snd s') = None
  /\ server (fst s') = None
  /\ authPromise (fst s') = None.
Proof.
  intros Hsrv Hport Hsv Hpath Hsp Haw Hlp. open_oauth m h. subst pt sv.
  unfold callback_verdict.
  cbv beta iota zeta delta [on_request]. exec_oauth.
  rewrite Hsrv, Hpath, String.eqb_refl, bool_decide_eq_true_2 by reflexivity.
  destruct srv as [expected own]. cbn [owner] in Haw, Hlp. exec_oauth.
  destruct (JS.truthy (searchParams_get (searchParams url) "error"));
    [|destruct (bool_decide (searchParams_get (searchParams url) "state" = Some expected));
      [destruct (JS.truthy (searchParams_get (searchParams url) "code"))|]];
    exec_oauth; rewrite Hsp, Hsrv; exec_oauth;
    rewrite (bool_decide_eq_true_2 _ Haw); exec_oauth;
    rewrite ?Hlp; exec_oauth;
    rewrite ?bool_decide_eq_true_2 by reflexivity;
    rewrite <- ?app_assoc; repeat split; reflexivity.
Qed.

(** X21.  The five-minute timer of a server is never cancelled, and what it
    closes is the server the manager holds when it fires.  When the
    promise of its own server has settled already, the timer closes
    the listener of whatever attempt is pending then, and settles
    nothing: that attempt stays pending without a listener. *)
Theorem stale_timer_closes_current_listener
    (m : Manager) (h : Host) (sid cur : nat) (r : Res AuthResult) :
  sid ∈ timers h ->
  serverPromise h !! sid = Some r ->
  server m = Some cur ->
  let s' := snd (on_timeout sid (m, h)) in
  trace (snd s') = (trace h ++ [Closed cur])%list
  /\ server (fst s') = None
  /\ authPromise (fst s') = authPromise m
  /\ (port h = Some cur -> port (snd s') = None)
  /\ loginPromise (snd s') = loginPromise h
  /\ awaiting (snd s') = awaiting h.
Proof.
  intros Htm Hsp Hsv. open_oauth m h. subst sv.
  cbv beta iota zeta delta [on_timeout]. exec_oauth.
  rewrite (bool_decide_eq_true_2 _ Htm). exec_oauth.
  rewrite Hsp. exec_oauth.
  repeat split; try reflexivity.
  intros ->. rewrite bool_decide_eq_true_2 by reflexivity. reflexivity.
Qed.

(** X22.  When the browser cannot be opened, [login()] closes the listener
    it has just started and then rejects with the browser's error; no
    attempt is pending and the manager holds no server afterwards.
    The timer of the closed server stays armed.  The number of the new
    attempt is taken to be unused so far. *)
Theorem login_without_browser
    (m : Manager) (h : Host) (st : string) :
  loginPromise h !! nextAttempt h = None ->
  authPromise m <> Some (nextAttempt h) ->
  let a := nextAttempt h in
  let sid := nextServer h in
  let s' := snd (login st false (m, h)) in
  fst (login st false (m, h)) = Ok a
  /\ loginPromise (snd s') !! a = Some (Throw BrowserFailed)
  /\ (exists before,
        trace (snd s')
        = (before ++ [Closed sid; Settled a (Throw BrowserFailed)])%list)
  /\ server (fst s') = None
  /\ authPromise (fst s') = None
  /\ (port h = None -> port (snd s') = None)
  /\ sid ∈ timers (snd s').
Proof.
  intros Hfresh Hother. open_oauth m h.
  destruct ap as [old|]; exec_oauth.
  - destruct (lp !! old) eqn:Hold; exec_oauth.
    + rewrite Hfresh. exec_oauth.
      split; [reflexivity|]. split; [apply lookup_insert_eq|].
      split; [exists tr; rewrite <- ?app_assoc; reflexivity|]. split; [reflexivity|].
      split; [reflexivity|]. split; [|set_solver].
      intros ->. rewrite bool_decide_eq_true_2 by reflexivity. reflexivity.
    + destruct (decide (na = old)) as [->|Hne]; [congruence|].
      rewrite lookup_insert_ne by congruence. rewrite Hfresh. exec_oauth.
      split; [reflexivity|]. split; [apply lookup_insert_eq|].
      split; [exists (tr ++ [Settled old (Throw AuthorizationSuperseded)])%list;
              rewrite <- !app_assoc; reflexivity|].
      split; [reflexivity|]. split; [reflexivity|]. split; [|set_solver].
      intros ->. rewrite bool_decide_eq_true_2 by reflexivity. reflexivity.
  - rewrite Hfresh. exec_oauth.
    split; [reflexivity|]. split; [apply lookup_insert_eq|].
    split; [exists tr; rewrite <- ?app_assoc; reflexivity|].
    split; [reflexivity|]. split; [reflexivity|]. split; [|set_solver].
    intros ->. rewrite bool_decide_eq_true_2 by reflexivity. reflexivity.
Qed.

End OAuthMoreFacts.

(** ** The configuration *)

Module ConfigFacts.
Import Config.

(** X23.  [validateRequiredEnvVars] accepts exactly when every required
    name is a variable set to a non-empty value, or is no variable but
    the name of an inherited member of [process.env]; otherwise its
    error lists, in the order asked, the names that are set to the
    empty string or are neither set nor inherited. *)
Theorem validateRequiredEnvVars_spec
    (inherited : string -> bool) (env : Env) (requiredVars : list string) :
  (validateRequiredEnvVars inherited env requiredVars = Good tt
   <-> Forall (fun v => (exists value, env !! v = Some value /\ value <> "")
                        \/ (env !! v = None /\ inherited v = true))
              requiredVars)
  /\ (forall e, validateRequiredEnvVars inherited env requiredVars = Bad e ->
        exists missing,
          e = EnvMissing missing
          /\ missing <> []
          /\ missing = List.filter
                         (fun v => bool_decide
                                     (env !! v = Some ""
                                      \/ (env !! v = None /\ inherited v = false)))
                         requiredVars).
Proof.
  unfold validateRequiredEnvVars.
  assert (Hunset : forall v,
             unset inherited env v = false
             <-> (exists value, env !! v = Some value /\ value <> "")
                 \/ (env !! v = None /\ inherited v = true)).
  { intros v. unfold unset. destruct (env !! v) as [value|]; cbn [JS.truthy].
    - destruct (String.eqb_spec value "") as [->|Hne]; cbn [negb]; split.
      + discriminate.
      + intros [(x & [= <-] & Hx)|[[=] _]]. contradiction.
      + intros _. left. eauto.
      + reflexivity.
    - destruct (inherited v); cbn [negb]; split.
      + intros _. right. auto.
      + reflexivity.
      + discriminate.
      + intros [(x & [=] & _)|[_ [=]]]. }
  assert (Hnil : missingVars inherited env requiredVars = []
                 <-> Forall (fun v => (exists value, env !! v = Some value /\ value <> "")
                                      \/ (env !! v = None /\ inherited v = true))
                            requiredVars).
  { unfold missingVars. induction requiredVars as [|v rest IH]; cbn [List.filter].
    - split; [constructor|reflexivity].
    - pose proof (Hunset v) as Hv.
      destruct (unset inherited env v).
      + split; [discriminate|]. intros Hall. inversion Hall as [|? ? Hhead _].
        apply Hv in Hhead. discriminate.
      + rewrite IH. split.
        * intros Hall. constructor; [apply Hv; reflexivity|exact Hall].
        * intros Hall. inversion Hall; assumption. }
  assert (Hsame : missingVars inherited env requiredVars
                  = List.filter
                      (fun v => bool_decide
                                  (env !! v = Some ""
                                   \/ (env !! v = None /\ inherited v = false)))
                      requiredVars).
  { unfold missingVars. apply filter_ext. intros v. unfold unset.
    destruct (env !! v) as [value|]; cbn [JS.truthy].
    - destruct (String.eqb_spec value "") as [->|Hne]; cbn [negb]; symmetry.
      + apply bool_decide_eq_true_2. auto.
      + apply bool_decide_eq_false_2. intros [[= ?]|[[=] _]]. contradiction.
    - destruct (inherited v); cbn [negb]; symmetry.
      + apply bool_decide_eq_false_2. intros [[=]|[_ [=]]].
      + apply bool_decide_eq_true_2. auto. }
  split.
  - rewrite <- Hnil.
    destruct (missingVars inherited env requiredVars); split; congruence.
  - intros e. rewrite <- Hsame.
    destruct (missingVars inherited env requiredVars) as [|v rest]; intros E; inversion E.
    eexists. split; [reflexivity|]. split; [discriminate|reflexivity].
Qed.

(** X24.  A configuration read from the environment has a non-empty client
    id, client secret and redirect URI, so the two emptiness checks of
    [validateGitHubConfig] never reject it: only a placeholder value
    does. *)
Theorem getGitHubOAuthConfig_never_empty (env : Env) (config : GitHubOAuthConfig) :
  getGitHubOAuthConfig env = Good config ->
  gh_clientId config <> ""
  /\ gh_clientSecret config <> ""
  /\ gh_redirectUri config <> ""
  /\ env !! "GITHUB_CLIENT_ID" = Some (gh_clientId config)
  /\ env !! "GITHUB_CLIENT_SECRET" = Some (gh_clientSecret config)
  /\ validateGitHubConfig config <> Bad ClientIdNotConfigured
  /\ validateGitHubConfig config <> Bad ClientSecretNotConfigured.
Proof.
  unfold getGitHubOAuthConfig, getEnv.
  destruct (env !! "GITHUB_CLIENT_ID") as [cid|] eqn:Hcid; cbn [JS.truthy negb default];
    [|discriminate].
  destruct (String.eqb_spec cid "") as [->|Hc]; cbn [negb]; [discriminate|].
  destruct (env !! "GITHUB_CLIENT_SECRET") as [sec|] eqn:Hsec; cbn [JS.truthy negb default];
    [|discriminate].
  destruct (String.eqb_spec sec "") as [->|Hs]; cbn [negb]; [discriminate|].
  intros E. inversion E. subst config. clear E.
  cbn [gh_clientId gh_clientSecret gh_redirectUri].
  split; [exact Hc|]. split; [exact Hs|].
  split.
  { unfold getEnvOptional, JS.or_else.
    destruct (env !! "OAUTH_REDIRECT_URI") as [uri|]; cbn [JS.truthy default].
    - destruct (String.eqb_spec uri "") as [->|Hu]; cbn [negb default];
        [discriminate|exact Hu].
    - discriminate. }
  split; [reflexivity|]. split; [reflexivity|].
  unfold validateGitHubConfig. cbn [gh_clientId gh_clientSecret JS.truthy].
  destruct (String.eqb_spec cid "") as [?|_]; [contradiction|].
  destruct (String.eqb_spec sec "") as [?|_]; [contradiction|]. cbn [negb].
  repeat match goal with
         | |- context [if ?b then _ else _] => destruct b
         end; split; discriminate.
Qed.

End ConfigFacts.

(** ** Start-up and the handlers of the main process *)

Module AppFacts.
Import App.

Ltac app_simpl := cbn [fst snd oauthManager sessionManager host world] in *.

Lemma cancelAuth_total (s : OAuthManager.St) :
  fst (OAuthManager.cancelAuth s) = Ok tt
  /\ OAuthManager.authPromise (fst (snd (OAuthManager.cancelAuth s))) = None
  /\ OAuthManager.server (fst (snd (OAuthManager.cancelAuth s))) = None.
Proof.
  destruct s as [m h]. open_oauth m h.
  destruct ap as [a|], sv as [sid|]; exec_oauth;
    repeat match goal with
           | |- context [match ?x !! ?i with _ => _ end] => destruct (x !! i)
           end; exec_oauth; repeat split; reflexivity.
Qed.

(** [clearSession] on any manager: it resolves, no session is current,
    no request is made, and the token entry stays exactly when its
    deletion fails. *)
Lemma clearSession_total (m : Keytar.Manager) (w : World) :
  exists m' w',
    Keytar.clearSession (m, w) = (Ok tt, (m', w'))
    /\ Keytar.currentSession m' = None
    /\ Keytar.validationTimer m' = None /\ Keytar.refreshTimer m' = None
    /\ requests w' = requests w
    /\ (faults w (OpDelete TOKEN_KEY) = true -> store w' = store w)
    /\ (faults w (OpDelete TOKEN_KEY) = false -> store w' !! TOKEN_KEY = None).
Proof.
  open_keytar m w.
  destruct (fl (OpDelete TOKEN_KEY)) eqn:Fdt, (fl (OpDelete USER_KEY)) eqn:Fdu;
    destruct vt, rt; exec_keytar; rewrite ?Fdt, ?Fdu; exec_keytar;
    do 2 eexists; (split; [reflexivity|]); cbn;
    repeat split; try reflexivity; try discriminate; intros _;
    rewrite ?lookup_delete_ne by discriminate; apply lookup_delete_eq.
Qed.

(** X25.  The handler of ['oauth:logout'] answers success on every state:
    its [catch] block is never entered.  Afterwards no authorization
    attempt is pending, no session is current and no request has been
    made; when the token entry cannot be deleted the store is as it
    was, and success is answered all the same. *)
Theorem oauth_logout_always_succeeds (s : St) :
  let s' := snd (oauth_logout s) in
  fst (oauth_logout s) = Ok LogoutOk
  /\ (forall o, oauthManager (fst s') = Some o ->
        OAuthManager.authPromise o = None /\ OAuthManager.server o = None)
  /\ (forall k, sessionManager (fst s') = Some k -> Keytar.currentSession k = None)
  /\ requests (world (snd s')) = requests (world (snd s))
  /\ (is_Some (sessionManager (fst s)) ->
      faults (world (snd s)) (OpDelete TOKEN_KEY) = true ->
      store (world (snd s')) = store (world (snd s))).
Proof.
  destruct s as [[o k] [h w]].
  unfold oauth_logout, try_catch, bind, gets, ret, on_oauth, on_session.
  app_simpl.
  destruct o as [o|]; app_simpl.
  - pose proof (cancelAuth_total (o, h)) as (Hc & Hap & Hsv).
    destruct (OAuthManager.cancelAuth (o, h)) as [r [o' h']].
    cbn [fst snd] in Hc, Hap, Hsv. subst r. app_simpl.
    destruct k as [k|]; app_simpl.
    + destruct (clearSession_total k w) as (k' & w' & -> & Hcs & _ & _ & Hrq & Hst & _).
      app_simpl.
      split; [reflexivity|]. split; [intros ? [= <-]; auto|].
      split; [intros ? [= <-]; auto|]. split; [exact Hrq|]. intros _. exact Hst.
    + split; [reflexivity|]. split; [intros ? [= <-]; auto|].
      split; [discriminate|]. split; [reflexivity|]. intros [? [=]].
  - destruct k as [k|]; app_simpl.
    + destruct (clearSession_total k w) as (k' & w' & -> & Hcs & _ & _ & Hrq & Hst & _).
      app_simpl.
      split; [reflexivity|]. split; [discriminate|].
      split; [intros ? [= <-]; auto|]. split; [exact Hrq|]. intros _. exact Hst.
    + split; [reflexivity|]. split; [discriminate|].
      split; [discriminate|]. split; [reflexivity|]. intros [? [=]].
Qed.

(** The credentials that [initializeOAuth] accepts. *)
Lemma config_usable (env : Config.Env) :
  (exists config, Config.getGitHubOAuthConfig env = Config.Good config
                  /\ Config.validateGitHubConfig config = Config.Good tt)
  <-> (exists cid secret,
         env !! "GITHUB_CLIENT_ID" = Some cid
         /\ cid <> "" /\ cid <> "your_github_client_id_here"
         /\ env !! "GITHUB_CLIENT_SECRET" = Some secret
         /\ secret <> "" /\ secret <> "your_github_client_secret_here").
Proof.
  unfold Config.getGitHubOAuthConfig, Config.getEnv, Config.validateGitHubConfig.
  destruct (env !! "GITHUB_CLIENT_ID") as [cid|];
    cbn [JS.truthy negb default].
  2:{ split; [intros (c & E & _); discriminate|intros (? & ? & E & _); discriminate]. }
  destruct (String.eqb_spec cid "") as [->|Hc]; cbn [negb].
  { split; [intros (c & E & _); discriminate|].
    intros (? & ? & [= <-] & Hne & _). contradiction. }
  destruct (env !! "GITHUB_CLIENT_SECRET") as [sec|];
    cbn [JS.truthy negb default].
  2:{ split; [intros (c & E & _); discriminate|].
      intros (? & ? & _ & _ & _ & E & _); discriminate. }
  destruct (String.eqb_spec sec "") as [->|Hs]; cbn [negb].
  { split; [intros (c & E & _); discriminate|].
    intros (? & ? & _ & _ & _ & [= <-] & Hne & _). contradiction. }
  split.
  - intros (c & [= <-] & Hv). revert Hv.
    cbn [Config.gh_clientId Config.gh_clientSecret JS.truthy].
    cbv beta delta [Datatypes.id].
    destruct (String.eqb_spec cid "") as [?|_]; [contradiction|].
    destruct (String.eqb_spec sec "") as [?|_]; [contradiction|]. cbn [negb].
    destruct (String.eqb_spec cid "your_github_client_id_here") as [?|Hp1];
      [discriminate|].
    destruct (String.eqb_spec sec "your_github_client_secret_here") as [?|Hp2];
      [discriminate|].
    intros _. exists cid, sec. auto 10.
  - intros (cid' & sec' & [= <-] & _ & Hp1 & [= <-] & _ & Hp2).
    eexists. split; [reflexivity|].
    cbn [Config.gh_clientId Config.gh_clientSecret JS.truthy].
    cbv beta delta [Datatypes.id].
    destruct (String.eqb_spec cid "") as [?|_]; [contradiction|].
    destruct (String.eqb_spec sec "") as [?|_]; [contradiction|]. cbn [negb].
    destruct (String.eqb_spec cid "your_github_client_id_here") as [?|_];
      [contradiction|].
    destruct (String.eqb_spec sec "your_github_client_secret_here") as [?|_];
      [contradiction|].
    reflexivity.
Qed.

Section WithJSON.
Context `{JSON}.
Variable URL_pathname : string -> string.

Lemma loadSavedSession_runs o k h w :
  exists r m' w',
    Keytar.loadSession
      (Keytar.set_eventCallbacks
         (Keytar.merge (Keytar.eventCallbacks k) registered) k, w)
    = (Ok r, (m', w'))
    /\ loadSavedSession ({| oauthManager := o; sessionManager := Some k |},
                         {| host := h; world := w |})
       = (Ok tt, ({| oauthManager := o; sessionManager := Some m' |},
                  {| host := h; world := w' |})).
Proof.
  destruct (KeytarLifecycleFacts.loadSession_quiet
              (Keytar.set_eventCallbacks
                 (Keytar.merge (Keytar.eventCallbacks k) registered) k) w)
    as (r & m' & w' & E & _).
  exists r, m', w'. split; [exact E|].
  unfold loadSavedSession, try_catch, bind, gets, ret, on_session,
    Keytar.setEventCallbacks, Keytar.assign, modify.
  app_simpl. rewrite E. reflexivity.
Qed.

(** X26.  [initializeOAuth] never throws.  It leaves the two managers set
    exactly when the client id and the client secret are set, not
    empty and not the placeholders of the sample file; otherwise
    both are [null].  It makes no request, fires no callback and
    leaves the authorization host as it was. *)
Theorem initializeOAuth_managers_iff_configured (env : Config.Env) (s : St) :
  let s' := snd (initializeOAuth URL_pathname env s) in
  let configured :=
    exists cid secret,
      env !! "GITHUB_CLIENT_ID" = Some cid
      /\ cid <> "" /\ cid <> "your_github_client_id_here"
      /\ env !! "GITHUB_CLIENT_SECRET" = Some secret
      /\ secret <> "" /\ secret <> "your_github_client_secret_here" in
  fst (initializeOAuth URL_pathname env s) = Ok tt
  /\ (is_Some (oauthManager (fst s')) <-> configured)
  /\ (is_Some (sessionManager (fst s')) <-> configured)
  /\ host (snd s') = host (snd s)
  /\ requests (world (snd s')) = requests (world (snd s))
  /\ fired (world (snd s')) = fired (world (snd s)).
Proof.
  intros s' configured. subst s'.
  pose proof (config_usable env) as Husable. fold configured in Husable.
  destruct s as [[o k] [h w]]. unfold initializeOAuth.
  destruct (Config.getGitHubOAuthConfig env) as [config|e] eqn:Hcfg.
  - destruct (Config.validateGitHubConfig config) as [[]|e'] eqn:Hval.
    + unfold bind, modify. app_simpl.
      destruct (KeytarLifecycleFacts.loadSession_quiet
                  (Keytar.set_eventCallbacks
                     (Keytar.merge (Keytar.eventCallbacks Keytar.new) registered)
                     Keytar.new) w)
        as (r & m' & w' & E & Hrq & Hfi).
      destruct (loadSavedSession_runs
                  (Some (OAuthManager.new (oauth_config URL_pathname config)))
                  Keytar.new h w) as (r0 & m0 & w0 & E0 & ->).
      rewrite E in E0. inversion E0. subst r0 m0 w0. app_simpl.
      split; [reflexivity|].
      assert (Hc : configured) by (apply Husable; eauto).
      split; [split; [intros _; exact Hc|intros _; eexists; reflexivity]|].
      split; [split; [intros _; exact Hc|intros _; eexists; reflexivity]|].
      auto.
    + unfold modify. app_simpl. split; [reflexivity|].
      assert (Hn : ~ configured).
      { intros Hc. apply Husable in Hc. destruct Hc as (c & [= <-] & Hv).
        congruence. }
      split; [split; [intros [? [=]]|intros Hc; contradiction]|].
      split; [split; [intros [? [=]]|intros Hc; contradiction]|].
      auto.
  - unfold modify. app_simpl. split; [reflexivity|].
    assert (Hn : ~ configured).
    { intros Hc. apply Husable in Hc. destruct Hc as (c & [=] & _). }
    split; [split; [intros [? [=]]|intros Hc; contradiction]|].
    split; [split; [intros [? [=]]|intros Hc; contradiction]|].
    auto.
Qed.


Lemma validateSession_true_inv (m : Keytar.Manager) (w : World) :
  fst (Keytar.validateSession None (m, w)) = Ok true ->
  exists sess u w1,
    Keytar.currentSession m = Some sess
    /\ GitHubAPI.getUserInfo (tk_access_token (token sess)) w = (Ok u, w1).
Proof.
  open_keytar m w. destruct cs as [sess|].
  - KeytarValidationFacts.exec_validate.
    destruct (GitHubAPI.getUserInfo (tk_access_token (token sess))
                {| store := st; faults := fl; now := nw; fired := fi;
                   intervals := iv; nextHandle := nh; github := gh;
                   requests := rq |}) as [[u|e] w1] eqn:E.
    + intros _. eauto.
    + pose proof (GitHubAPIFacts.getUserInfo_requests _ _ _ _ E). subst w1.
      KeytarValidationFacts.exec_validate.
      destruct (MAX_RETRY_ATTEMPTS <=? rc + 1); [|discriminate].
      destruct (onSessionExpired ev), vt, rt; exec_keytar;
        destruct (fl (OpDelete TOKEN_KEY)); try destruct (fl (OpDelete USER_KEY));
        discriminate.
  - KeytarValidationFacts.exec_validate. discriminate.
Qed.

(** X28.  ['oauth:get-token'] hands out a token only when a session is
    current, its access token is not empty, and the provider has
    just accepted that token in a live validation. *)
Theorem oauth_get_token_validates_first (s : St) (tok : string) :
  fst (oauth_get_token s) = Ok (Some tok) ->
  exists k sess u w1,
    sessionManager (fst s) = Some k
    /\ Keytar.currentSession k = Some sess
    /\ tk_access_token (token sess) = tok
    /\ tok <> ""
    /\ GitHubAPI.getUserInfo tok (world (snd s)) = (Ok u, w1).
Proof.
  destruct s as [[o k] [h w]]. app_simpl.
  unfold oauth_get_token, try_catch, on_session, Keytar.getCurrentToken,
    Keytar.this, bind, gets, ret.
  app_simpl. destruct k as [k|]; app_simpl; [|discriminate].
  destruct (Keytar.currentSession k) as [sess|] eqn:Hcur;
    cbn [fmap option_fmap option_map JS.or_else JS.truthy];
    [|discriminate].
  unfold JS.or_else. cbn [JS.truthy].
  destruct (String.eqb_spec (tk_access_token (token sess)) "") as [He|Hne];
    cbn [negb JS.truthy]; [discriminate|].
  destruct (String.eqb_spec (tk_access_token (token sess)) "") as [He|_];
    [contradiction|]. cbn [negb]. app_simpl.
  pose proof (validateSession_true_inv k w) as Hinv.
  destruct (Keytar.validateSession None (k, w)) as [[[]|e] [k' w']];
    app_simpl; try discriminate.
  intros [= <-].
  destruct (Hinv eq_refl) as (sess' & u & w1 & Hs & Hu).
  rewrite Hcur in Hs. inversion Hs. subst sess'.
  exists k, sess, u, w1. auto.
Qed.

Lemma getCompleteUserProfile_throws tok w e w' :
  GitHubAPI.getCompleteUserProfile tok w = (Throw e, w') ->
  exists cause, e = UserInfoFailed cause.
Proof.
  unfold GitHubAPI.getCompleteUserProfile, bind.
  destruct (GitHubAPI.getUserInfo tok w) as [[u|e0] w1] eqn:E.
  - destruct (JS.truthy (email u)); cbn [negb]; [discriminate|].
    destruct (GitHubAPIFacts.getPrimaryEmail_total tok w1) as [pe ->].
    discriminate.
  - intros [= <- _]. revert E.
    unfold GitHubAPI.getUserInfo, try_catch, bind, GitHubAPI.fetch,
      GitHubAPI.json, throw, ret.
    destruct (user_endpoint (github w) tok) as [msg|st stt txt [u|]];
      [ | destruct (ok_status st) | destruct (ok_status st) ];
      cbn; intros [= <- _] || intros [=]; eexists; reflexivity.
Qed.

Lemma saveSession_Ok_inv session m w s' :
  Keytar.saveSession session (m, w) = (Ok tt, s') ->
  Keytar.currentSession (fst s') = Some session
  /\ store (snd s') !! TOKEN_KEY = Some (tk_access_token (token session)).
Proof.
  open_keytar m w. exec_keytar.
  destruct (fl (OpSet TOKEN_KEY)); [discriminate|].
  destruct (fl (OpSet USER_KEY)); [discriminate|].
  destruct vt, rt; intros E; inversion E; cbn;
    (split; [reflexivity|]);
    rewrite lookup_insert_ne by discriminate; apply lookup_insert_eq.
Qed.

(** X29.  The ['oauth:login'] handler never rejects.  When it answers
    success, the session it reports is current and its access token,
    which is not empty, is in the store.  When it answers failure,
    the session manager is as it was before, and the failure never
    comes from the handler's own check of the access token: the
    token exchange has rejected an empty token before. *)
Theorem oauth_login_all_or_nothing
    (outcome : Res OAuthManager.AuthResult) (s : Keytar.St) :
  let s' := snd (Main.oauth_login outcome s) in
  match fst (Main.oauth_login outcome s) with
  | Ok (Main.LoginSucceeded u tk) =>
      (exists session,
         Keytar.currentSession (fst s') = Some session
         /\ user session = u /\ token session = tk)
      /\ tk_access_token tk <> ""
      /\ store (snd s') !! TOKEN_KEY = Some (tk_access_token tk)
  | Ok (Main.LoginFailed e) =>
      fst s' = fst s
      /\ (e = NoTokenObtained -> outcome = Throw NoTokenObtained)
  | Throw _ => False
  end.
Proof.
  destruct s as [m w]. unfold Main.oauth_login, try_catch, bind, throw, ret.
  cbn [fst snd].
  destruct outcome as [result|e]; cbn [fst snd];
    [|split; [reflexivity|intros ->; reflexivity]].
  destruct (OAuthManager.success result && JS.truthy (OAuthManager.code result));
    cbn [fst snd]; [|split; [reflexivity|discriminate]].
  unfold Keytar.io, zoom. cbn [fst snd].
  pose proof (GitHubAPIMoreFacts.exchangeCodeForToken_outcome
                (default "" (OAuthManager.code result)) w) as Hx.
  destruct (GitHubAPI.exchangeCodeForToken (default "" (OAuthManager.code result)) w)
    as [[data|e] w1]; cbn [fst snd] in Hx |- *.
  2:{ destruct Hx as [cause ->]. split; [reflexivity|discriminate]. }
  rename Hx into Hne. cbn [JS.truthy].
  destruct (String.eqb_spec (access_token data) "") as [?|_]; [contradiction|].
  cbn [negb fst snd].
  destruct (GitHubAPI.getCompleteUserProfile (access_token data) w1)
    as [[profile|e] w2] eqn:P; cbn [fst snd].
  2:{ apply getCompleteUserProfile_throws in P. destruct P as [cause ->].
      split; [reflexivity|discriminate]. }
  unfold Keytar.createSession, Date_now, gets, bind, ret. cbn [fst snd].
  match goal with |- context [Keytar.saveSession ?x (m, w2)] =>
    destruct (Keytar.saveSession x (m, w2)) as [[[]|e] s'] eqn:S
  end; cbn [fst snd].
  - apply saveSession_Ok_inv in S. destruct S as [Hcur Hst].
    split; [eexists; split; [exact Hcur|split; reflexivity]|].
    split; [exact Hne|exact Hst].
  - pose proof S as S'. apply KeytarStoreFacts.saveSession_throw_keeps_manager in S'.
    split; [apply S'|].
    revert S. destruct m as [cs rt vt ev ir rc], w2 as [st fl nw fi iv nh gh rq].
    exec_keytar.
    destruct (fl (OpSet TOKEN_KEY)); [intros [= <- _]; discriminate|].
    destruct (fl (OpSet USER_KEY)); [intros [= <- _]; discriminate|].
    destruct vt, rt; discriminate.
Qed.

Lemma getCompleteUserProfile_requests tok w :
  exists more,
    requests (snd (GitHubAPI.getCompleteUserProfile tok w))
    = (requests w ++ GetUser tok :: more)%list.
Proof.
  unfold GitHubAPI.getCompleteUserProfile, bind.
  destruct (GitHubAPI.getUserInfo tok w) as [[u|e] w1] eqn:E;
    apply GitHubAPIFacts.getUserInfo_requests in E; subst w1.
  - destruct (JS.truthy (email u)); cbn [negb].
    + exists []. destruct w; reflexivity.
    + destruct (GitHubAPIFacts.getPrimaryEmail_total tok
                  (set_requests (fun l => (l ++ [GetUser tok])%list) w)) as [pe ->].
      exists [GetUserEmails tok]. destruct w; cbn.
      rewrite <- app_assoc. reflexivity.
  - exists []. destruct w; reflexivity.
Qed.

Lemma refreshUserInfo_resume_requests profile m w :
  requests (snd (snd (Keytar.refreshUserInfo_resume profile (m, w)))) = requests w.
Proof.
  open_keytar m w.
  cbv beta iota zeta delta [Keytar.refreshUserInfo_resume Keytar.refreshed].
  destruct profile as [u|e], cs as [cur|]; exec_keytar; try reflexivity.
  destruct (fl (OpSet TOKEN_KEY)); [reflexivity|].
  destruct (fl (OpSet USER_KEY)); [reflexivity|].
  destruct vt, rt; reflexivity.
Qed.

(** X30.  While a refresh is marked as running, ['oauth:manual-refresh']
    answers with the current session and sends nothing, but
    ['oauth:refresh-user'], which calls [refreshUserInfo] itself,
    does not look at the mark and asks the provider for the profile
    again. *)
Theorem refresh_user_handler_ignores_isRefreshing
    (s : St) (k : Keytar.Manager) (sess : UserSession) :
  sessionManager (fst s) = Some k ->
  Keytar.currentSession k = Some sess ->
  Keytar.isRefreshing k = true ->
  oauth_manual_refresh s = (Ok (RefreshOk (refreshed_view (user sess))), s)
  /\ exists more,
       requests (world (snd (snd (oauth_refresh_user s))))
       = (requests (world (snd s))
          ++ GetUser (tk_access_token (token sess)) :: more)%list.
Proof.
  destruct s as [[o k0] [h w]]. app_simpl. intros -> Hcur Hbusy. split.
  - unfold oauth_manual_refresh, try_catch, on_session, refresh_reply,
      Keytar.manualRefresh, Keytar.this, bind, gets, ret.
    app_simpl. rewrite Hbusy. app_simpl. rewrite Hcur. reflexivity.
  - destruct (getCompleteUserProfile_requests (tk_access_token (token sess)) w)
      as [more Hmore].
    exists more. rewrite <- Hmore.
    unfold oauth_refresh_user, try_catch, on_session, refresh_reply,
      Keytar.refreshUserInfo, Keytar.this, bind, gets, ret.
    app_simpl. rewrite Hcur. app_simpl.
    destruct (GitHubAPI.getCompleteUserProfile (tk_access_token (token sess)) w)
      as [profile w1]. app_simpl.
    pose proof (refreshUserInfo_resume_requests profile k w1) as Hrq.
    destruct (Keytar.refreshUserInfo_resume profile (k, w1)) as [[[session|]|e] [k' w']];
      app_simpl; exact Hrq.
Qed.

End WithJSON.

End AppFacts.


(** ** The call of [handleSessionError] that nobody awaits *)

Module KeytarDetachedFacts.
Import Keytar KeytarInvariantFacts.

Ltac exec_detached :=
  cbv beta iota zeta delta
    [then_rest handleSessionError_begins handleSessionError_rest
     performAutoRefresh_settles performPeriodicValidation_settles];
  exec_blocks.

Section WithJSON.
Context `{JSON}.

(** [handleSessionError] is its beginning followed by its rest. *)
Lemma handleSessionError_then_rest e s :
  handleSessionError e s = then_rest (handleSessionError_begins e) s.
Proof.
  destruct s as [m w]. open_keytar m w. exec_detached.
  destruct (MAX_RETRY_ATTEMPTS <=? rc + 1); exec_keytar.
  - destruct vt, rt; exec_keytar;
      (destruct (fl (OpDelete TOKEN_KEY)); [|destruct (fl (OpDelete USER_KEY))]);
      destruct (onAutoLogout ev); reflexivity.
  - destruct (onSessionError ev); reflexivity.
Qed.

(** The rest does not look at [isRefreshing]. *)
Lemma handleSessionError_rest_isRefreshing b m w :
  handleSessionError_rest (set_isRefreshing b m, w)
  = (fst (handleSessionError_rest (m, w)),
     (set_isRefreshing b (fst (snd (handleSessionError_rest (m, w)))),
      snd (snd (handleSessionError_rest (m, w))))).
Proof.
  open_keytar m w. exec_detached.
  (destruct (fl (OpDelete TOKEN_KEY)); [|destruct (fl (OpDelete USER_KEY))]);
    destruct (onAutoLogout ev); reflexivity.
Qed.

(** [performAutoRefresh], which runs [handleSessionError] to its end,
    is the tick up to the point where its promise settles, followed
    by the rest of [handleSessionError] when one is pending. *)
Lemma performAutoRefresh_then_rest s :
  performAutoRefresh s = then_rest performAutoRefresh_settles s.
Proof.
  destruct s as [m w].
  unfold performAutoRefresh, performAutoRefresh_settles, then_rest,
    performAutoRefresh_resume, bind, this, gets.
  cbn [fst snd].
  destruct (JS.is_null (currentSession m) || isRefreshing m); [reflexivity|].
  unfold assign, modify, try_finally, try_catch, bind. cbn [fst snd].
  destruct (refreshUserInfo (set_isRefreshing true m, w)) as [[[session|]|e] s1].
  - destruct s1 as [m1 w1].
    unfold notify, bind, this, gets, when, io, zoom, fire, modify, ret.
    cbn [fst snd]. destruct (onSessionRefreshed (eventCallbacks m1)); reflexivity.
  - destruct s1; reflexivity.
  - rewrite handleSessionError_then_rest. unfold then_rest, bind.
    destruct (handleSessionError_begins e s1) as [[[|]|e'] [m2 w2]];
      cbn [fst snd when]; try reflexivity.
    rewrite handleSessionError_rest_isRefreshing.
    destruct (handleSessionError_rest (m2, w2)) as [r [m3 w3]]. reflexivity.
Qed.

(** The tick of the validation timer never enters its [catch] block,
    so it leaves no rest pending, and it is the same with the rest
    awaited or not. *)
Lemma performPeriodicValidation_then_rest s :
  fst (performPeriodicValidation_settles s) = Ok false
  /\ performPeriodicValidation s = then_rest performPeriodicValidation_settles s.
Proof.
  destruct s as [m w].
  unfold performPeriodicValidation, performPeriodicValidation_settles, then_rest,
    bind, this, gets.
  cbn [fst snd].
  destruct (currentSession m) as [cur|]; [|split; reflexivity].
  unfold try_catch, bind, io, zoom, Date_now, gets. cbn [fst snd].
  destruct (TOKEN_VALIDATION_INTERVAL <? now w - lastValidatedAt cur);
    [|split; reflexivity].
  destruct (KeytarValidationFacts.validateSession_total None (m, w)) as [b Hb].
  destruct (validateSession None (m, w)) as [r [m1 w1]]. cbn [fst snd] in *. subst r.
  unfold when, notify, bind, this, gets, when, io, zoom, fire, modify, ret.
  cbn [fst snd].
  destruct (negb b && (MAX_RETRY_ATTEMPTS <=? retryCount m1));
    cbv beta iota zeta delta [fst snd];
    [destruct (onAutoLogout (eventCallbacks m1))|]; split; reflexivity.
Qed.

(** X2.  The refresh timer does not wait for the eviction it starts.
    When a failing refresh brings [retryCount] to the limit, the
    promise of the tick settles with the session still current,
    [retryCount] at the limit, both timers stopped and [isRefreshing]
    cleared, before anything is deleted or any callback has run; the
    rest of [handleSessionError] then leaves no current session,
    [retryCount = 0] and one [onAutoLogout] if it is registered.  Run
    back to back, the two are [performAutoRefresh] as it is when the
    event loop is idle again. *)
Theorem performAutoRefresh_settles_before_eviction
    (m : Manager) (w : World) (sess : UserSession) (e : Error) (w1 : World) :
  currentSession m = Some sess ->
  isRefreshing m = false ->
  MAX_RETRY_ATTEMPTS <= retryCount m + 1 ->
  GitHubAPI.getCompleteUserProfile (tk_access_token (token sess)) w
  = (Throw e, w1) ->
  let settled := performAutoRefresh_settles (m, w) in
  let idle := handleSessionError_rest (snd settled) in
  (fst settled = Ok true
   /\ currentSession (fst (snd settled)) = Some sess
   /\ retryCount (fst (snd settled)) = retryCount m + 1
   /\ isRefreshing (fst (snd settled)) = false
   /\ validationTimer (fst (snd settled)) = None
   /\ refreshTimer (fst (snd settled)) = None
   /\ fired (snd (snd settled)) = fired w
   /\ store (snd (snd settled)) = store w)
  /\ (currentSession (fst (snd idle)) = None
      /\ retryCount (fst (snd idle)) = 0
      /\ fired (snd (snd idle))
         = (fired w ++ if onAutoLogout (eventCallbacks m)
                       then [AutoLogout] else [])%list)
  /\ performAutoRefresh (m, w) = (Ok tt, snd idle).
Proof.
  intros Hs Hr Hmax E settled idle.
  assert (Hsplit : performAutoRefresh (m, w)
                   = then_rest performAutoRefresh_settles (m, w))
    by apply performAutoRefresh_then_rest.
  unfold then_rest, bind in Hsplit. fold settled in Hsplit.
  assert (Hsettled :
            fst settled = Ok true
            /\ currentSession (fst (snd settled)) = Some sess
            /\ retryCount (fst (snd settled)) = retryCount m + 1
            /\ isRefreshing (fst (snd settled)) = false
            /\ validationTimer (fst (snd settled)) = None
            /\ refreshTimer (fst (snd settled)) = None
            /\ fired (snd (snd settled)) = fired w
            /\ store (snd (snd settled)) = store w
            /\ eventCallbacks (fst (snd settled)) = eventCallbacks m
            /\ faults (snd (snd settled)) = faults w).
  { subst settled idle. clear Hsplit.
    destruct (KeytarHistoryFacts.getCompleteUserProfile_world
                (tk_access_token (token sess)) w) as [l Hw1].
    rewrite E in Hw1. cbn [snd] in Hw1.
    apply Z.leb_le in Hmax.
    open_keytar m w. subst cs ir w1. exec_detached. rewrite E. exec_detached.
    rewrite Hmax. exec_keytar.
    destruct vt, rt; exec_keytar; repeat split; reflexivity. }
  destruct Hsettled as (Hok & Hcur & Hrc & Hir & Hvt & Hrt & Hfi & Hst & Hev & Hfl).
  assert (Hidle :
            fst idle = Ok tt
            /\ currentSession (fst (snd idle)) = None
            /\ retryCount (fst (snd idle)) = 0
            /\ fired (snd (snd idle))
               = (fired w ++ if onAutoLogout (eventCallbacks m)
                             then [AutoLogout] else [])%list).
  { subst idle. rewrite <- Hfi, <- Hev. clear Hsplit.
    destruct (snd settled) as [m2 w2]. open_keytar m2 w2. exec_detached.
    (destruct (fl (OpDelete TOKEN_KEY)); [|destruct (fl (OpDelete USER_KEY))]);
      destruct (onAutoLogout ev); repeat split;
      try reflexivity; rewrite app_nil_r; reflexivity. }
  destruct Hidle as (Hiok & Hicur & Hirc & Hifi).
  split; [auto 10|]. split; [auto|].
  rewrite Hsplit. destruct settled as [r s1]. cbn [fst snd] in *. subst r.
  cbn [when]. fold idle. destruct idle as [r2 s2]. cbn [fst snd] in *.
  subst r2. reflexivity.
Qed.

End WithJSON.
End KeytarDetachedFacts.
(** ** The further properties at sample inputs *)

Module MoreInstances.

Lemma timers_never_leak_witness :
  let s := fst (@KeytarCalls.history ScenarioData.codec MoreSamples.usage
                  ((Keytar.new, Samples.world Samples.no_faults Samples.up), 0%nat)) in
  KeytarCalls.timers_owned s
  /\ match Keytar.validationTimer (fst s), Keytar.refreshTimer (fst s) with
     | Some v, Some r =>
         v <> r
         /\ (forall h, is_Some (intervals (snd s) !! h) <-> h = v \/ h = r)
     | None, None => forall h, intervals (snd s) !! h = None
     | _, _ => False
     end.
Proof.
  exact (@KeytarHistoryFacts.timers_never_leak ScenarioData.codec MoreSamples.usage
           (Samples.world Samples.no_faults Samples.up) eq_refl).
Defined.

Lemma performAutoRefresh_settles_before_eviction_witness :
  let settled := @Keytar.performAutoRefresh_settles ScenarioData.codec
                   (MoreSamples.two_failures,
                    MoreSamples.later Samples.no_faults Samples.down) in
  let idle := Keytar.handleSessionError_rest (snd settled) in
  (Keytar.currentSession (fst (snd settled)) = Some Samples.session
   /\ Keytar.retryCount (fst (snd settled)) = 3
   /\ fired (snd (snd settled)) = [])
  /\ (Keytar.currentSession (fst (snd idle)) = None
      /\ Keytar.retryCount (fst (snd idle)) = 0
      /\ fired (snd (snd idle)) = [AutoLogout]).
Proof.
  intros settled idle.
  destruct (@KeytarDetachedFacts.performAutoRefresh_settles_before_eviction
              ScenarioData.codec MoreSamples.two_failures
              (MoreSamples.later Samples.no_faults Samples.down)
              Samples.session
              (UserInfoFailed (HttpStatus 401 "Bad credentials"))
              (snd (GitHubAPI.getCompleteUserProfile "tok_1"
                      (MoreSamples.later Samples.no_faults Samples.down)))
              eq_refl eq_refl)
    as ((_ & Hcur & Hrc & _ & _ & _ & Hfi & _) & (Hicur & Hirc & Hifi) & _).
  - vm_compute. discriminate.
  - vm_compute. reflexivity.
  - fold settled in Hcur, Hrc, Hfi. fold idle in Hicur, Hirc, Hifi.
    repeat split; assumption.
Defined.

Lemma loadSession_removes_orphan_token_witness :
  @Keytar.loadSession ScenarioData.codec (Keytar.new, MoreSamples.orphan)
  = (Ok None, (Keytar.new, set_store (delete TOKEN_KEY) MoreSamples.orphan)).
Proof.
  apply (@KeytarLifecycleFacts.loadSession_removes_orphan_token ScenarioData.codec
           Keytar.new MoreSamples.orphan "tok_1").
  - vm_compute. reflexivity.
  - discriminate.
  - vm_compute. reflexivity.
  - reflexivity.
  - reflexivity.
  - reflexivity.
Defined.

Lemma loadSession_clears_corrupt_metadata_witness :
  exists m' w',
    @Keytar.loadSession MoreSamples.unreadable
      (Samples.logged_in, Samples.world_with_session Samples.no_faults Samples.up)
    = (Ok None, (m', w'))
    /\ Keytar.currentSession m' = None
    /\ store w' !! TOKEN_KEY = None /\ store w' !! USER_KEY = None.
Proof.
  destruct (@KeytarLifecycleFacts.loadSession_clears_corrupt_metadata
              MoreSamples.unreadable Samples.logged_in
              (Samples.world_with_session Samples.no_faults Samples.up)
              "tok_1" "{...}")
    as (m' & w' & Hload & Hcur & _ & _ & _ & Ht & Hu).
  - vm_compute. reflexivity.
  - discriminate.
  - vm_compute. reflexivity.
  - discriminate.
  - reflexivity.
  - reflexivity.
  - reflexivity.
  - reflexivity.
  - reflexivity.
  - exists m', w'. auto.
Defined.

Lemma destroy_keeps_the_saved_session_witness :
  let quit :=
    snd (Keytar.destroy
           (snd (@Keytar.saveSession ScenarioData.codec Samples.session
                   (Keytar.new, Samples.world Samples.no_faults Samples.up)))) in
  Keytar.currentSession (fst quit) = None
  /\ fst (@Keytar.loadSession ScenarioData.codec (Keytar.new, snd quit))
     = Ok (Some (reloaded Samples.session)).
Proof.
  apply (@KeytarLifecycleFacts.destroy_keeps_the_saved_session ScenarioData.codec
           Samples.session Keytar.new (Samples.world Samples.no_faults Samples.up)).
  - discriminate.
  - split; [discriminate | reflexivity].
  - repeat split.
Defined.

Lemma validateSession_success_survives_store_fault_witness :
  let r := @Keytar.validateSession ScenarioData.codec None
             (Samples.logged_in,
              MoreSamples.later Samples.metadata_write_fails Samples.up) in
  fst r = Ok true
  /\ Keytar.currentSession (fst (snd r))
     = Some (Keytar.touch 1700007200000 Samples.session)
  /\ store (snd (snd r))
     = store (MoreSamples.later Samples.metadata_write_fails Samples.up).
Proof.
  destruct (@KeytarLifecycleFacts.validateSession_success_survives_store_fault
              ScenarioData.codec Samples.logged_in
              (MoreSamples.later Samples.metadata_write_fails Samples.up)
              Samples.session Samples.octocat
              (snd (GitHubAPI.getUserInfo "tok_1"
                      (MoreSamples.later Samples.metadata_write_fails Samples.up)))
              eq_refl)
    as (Hr & Hcur & _ & Hst & _).
  - vm_compute. reflexivity.
  - repeat split; assumption.
Defined.

Lemma performPeriodicValidation_not_due_witness :
  @Keytar.performPeriodicValidation ScenarioData.codec
    (Samples.logged_in, Samples.world_with_session Samples.no_faults Samples.down)
  = (Ok tt,
     (Samples.logged_in, Samples.world_with_session Samples.no_faults Samples.down)).
Proof.
  apply (@KeytarLifecycleFacts.performPeriodicValidation_not_due ScenarioData.codec).
  simpl. unfold TOKEN_VALIDATION_INTERVAL. lia.
Defined.

Lemma performAutoRefresh_success_witness :
  let s' := snd (@Keytar.performAutoRefresh ScenarioData.codec
                   (Samples.logged_in,
                    MoreSamples.later Samples.no_faults MoreSamples.with_mailbox)) in
  (user <$> Keytar.currentSession (fst s'))
  = Some (GitHubAPI.with_primaryEmail Samples.octocat (Some "octocat@github.com"))
  /\ Keytar.isRefreshing (fst s') = false
  /\ length (fired (snd s')) = 1%nat.
Proof.
  destruct (@KeytarLifecycleFacts.performAutoRefresh_success ScenarioData.codec
              Samples.logged_in
              (MoreSamples.later Samples.no_faults MoreSamples.with_mailbox)
              Samples.session
              (GitHubAPI.with_primaryEmail Samples.octocat (Some "octocat@github.com"))
              (snd (GitHubAPI.getCompleteUserProfile "tok_1"
                      (MoreSamples.later Samples.no_faults MoreSamples.with_mailbox)))
              eq_refl eq_refl)
    as (Hcur & _ & Hflag & Hfired & _).
  - vm_compute. reflexivity.
  - reflexivity.
  - reflexivity.
  - cbv zeta. rewrite Hcur, Hflag, Hfired. repeat split.
Defined.


Lemma file_clearSession_deletes_independently_witness :
  exists m' w',
    FileStore.clearSession
      (Samples.logged_in_files,
       Samples.world_with_session Samples.token_delete_fails Samples.up)
    = (Ok tt, (m', w'))
    /\ FileStore.currentSession m' = None
    /\ store w' !! USER_KEY = None.
Proof.
  destruct (FileStoreLifecycleFacts.file_clearSession_deletes_independently
              Samples.logged_in_files
              (Samples.world_with_session Samples.token_delete_fails Samples.up))
    as (m' & w' & Hclear & Hcur & _ & _ & _ & Hu).
  exists m', w'. split; [exact Hclear|]. split; [exact Hcur|].
  apply Hu. reflexivity.
Defined.

Lemma file_save_then_load_round_trip_witness :
  exists s2,
    @FileStore.loadSession
      (Samples.one_document (FileStore.sessionData Samples.session))
      (FileStore.new,
       snd (snd (@FileStore.saveSession
                   (Samples.one_document (FileStore.sessionData Samples.session))
                   Samples.session
                   (FileStore.new, Samples.world Samples.no_faults Samples.up))))
    = (Ok (Some (reloaded Samples.session)), s2).
Proof.
  destruct (@FileStoreLifecycleFacts.file_save_then_load_round_trip
              (Samples.one_document (FileStore.sessionData Samples.session))
              Samples.session FileStore.new
              (Samples.world Samples.no_faults Samples.up))
    as (s1 & s2 & Hsave & Hload & _).
  - discriminate.
  - reflexivity.
  - discriminate.
  - reflexivity.
  - repeat split.
  - exists s2. rewrite Hsave. exact Hload.
Defined.

Lemma file_loadSession_read_faults_witness :
  @FileStore.loadSession ScenarioData.codec
    (FileStore.new,
     Samples.world_with_session MoreSamples.token_read_fails Samples.up)
  = (Ok None,
     (FileStore.new,
      Samples.world_with_session MoreSamples.token_read_fails Samples.up)).
Proof.
  apply (@FileStoreLifecycleFacts.file_loadSession_read_faults ScenarioData.codec
           FileStore.new
           (Samples.world_with_session MoreSamples.token_read_fails Samples.up)
           "tok_1").
  reflexivity.
Defined.

Lemma file_validationTick_evicts_at_once_witness :
  let s' := snd (@FileStore.validationTick ScenarioData.codec
                   (Samples.logged_in_files,
                    MoreSamples.later Samples.no_faults Samples.down)) in
  FileStore.currentSession (fst s') = None
  /\ fired (snd s') = [SessionExpired].
Proof.
  destruct (@FileStoreLifecycleFacts.file_validationTick_evicts_at_once
              ScenarioData.codec Samples.logged_in_files
              (MoreSamples.later Samples.no_faults Samples.down)
              Samples.session
              (UserInfoFailed (HttpStatus 401 "Bad credentials"))
              (snd (GitHubAPI.getUserInfo "tok_1"
                      (MoreSamples.later Samples.no_faults Samples.down)))
              eq_refl)
    as (Hcur & _ & _ & Hfired).
  - vm_compute. reflexivity.
  - vm_compute. reflexivity.
  - split; [exact Hcur | exact Hfired].
Defined.

Lemma getPrimaryEmail_first_verified_primary_witness :
  exists before entry after,
    MoreSamples.mailbox = (before ++ entry :: after)%list
    /\ em_email entry = "octocat@github.com"
    /\ em_primary entry = true /\ em_verified entry = true
    /\ Forall (fun x => em_primary x && em_verified x = false) before.
Proof.
  exact (GitHubAPIMoreFacts.getPrimaryEmail_first_verified_primary "tok_1"
           (Samples.world Samples.no_faults MoreSamples.with_mailbox)
           MoreSamples.mailbox
           (snd (GitHubAPI.getUserEmails "tok_1"
                   (Samples.world Samples.no_faults MoreSamples.with_mailbox)))
           eq_refl).
Defined.

Lemma request_off_the_callback_path_witness :
  (let r := OAuthRequests.requestListener MoreSamples.URL_parse 0
              (Some "/favicon.ico")
              (fst OAuthSamples.waiting, snd OAuthSamples.waiting) in
   OAuthManager.pages (snd (snd r)) = [(0%nat, OAuthManager.NotFound)]
   /\ OAuthManager.trace (snd (snd r)) = [])
  /\ OAuthRequests.requestListener MoreSamples.URL_parse 0 (Some "//")
       (fst OAuthSamples.waiting, snd OAuthSamples.waiting)
     = (Throw TypeError, (fst OAuthSamples.waiting, snd OAuthSamples.waiting)).
Proof.
  split.
  - pose proof (OAuthMoreFacts.request_off_the_callback_path MoreSamples.URL_parse
                  (fst OAuthSamples.waiting) (snd OAuthSamples.waiting) 0%nat
                  {| OAuthManager.expectedState := "5f2b9c";
                     OAuthManager.owner := 0%nat |}
                  (Some "/favicon.ico")) as W.
    destruct W as (_ & _ & Hpages & _ & Htrace & _).
    + vm_compute. reflexivity.
    + vm_compute. reflexivity.
    + intros url _ [= <-]. vm_compute. discriminate.
    + cbv zeta. rewrite Hpages, Htrace. split; reflexivity.
  - apply (OAuthMoreFacts.request_off_the_callback_path MoreSamples.URL_parse
             (fst OAuthSamples.waiting) (snd OAuthSamples.waiting) 0%nat
             {| OAuthManager.expectedState := "5f2b9c";
                OAuthManager.owner := 0%nat |}
             (Some "//")).
    + vm_compute. reflexivity.
    + vm_compute. reflexivity.
    + intros url _ [=].
Defined.

Lemma callback_closes_then_settles_witness :
  let s' := snd (OAuthManager.on_request 0 (Some ScenarioData.denied)
                   (fst OAuthSamples.waiting, snd OAuthSamples.waiting)) in
  OAuthManager.trace (snd s')
  = [ OAuthManager.Closed 0;
      OAuthManager.Settled 0
        (Throw (ProviderAuthorizationError "access_denied"
                  (Some "The user has denied access"))) ]
  /\ OAuthManager.port (snd s') = None.
Proof.
  destruct (OAuthMoreFacts.callback_closes_then_settles
              (fst OAuthSamples.waiting) (snd OAuthSamples.waiting) 0%nat
              {| OAuthManager.expectedState := "5f2b9c"; OAuthManager.owner := 0%nat |}
              ScenarioData.denied)
    as (Htrace & Hport & _).
  - vm_compute. reflexivity.
  - vm_compute. reflexivity.
  - vm_compute. reflexivity.
  - vm_compute. reflexivity.
  - vm_compute. reflexivity.
  - apply (bool_decide_unpack _). vm_compute. exact I.
  - vm_compute. reflexivity.
  - cbv zeta. rewrite Htrace, Hport. split; reflexivity.
Defined.

Lemma stale_timer_closes_current_listener_witness :
  let s' := snd (OAuthManager.on_timeout 0
                   (fst MoreSamples.second_attempt, snd MoreSamples.second_attempt)) in
  last (OAuthManager.trace (snd s')) = Some (OAuthManager.Closed 1)
  /\ OAuthManager.port (snd s') = None
  /\ OAuthManager.loginPromise (snd s') !! 1%nat = None
  /\ OAuthManager.authPromise (fst s') = Some 1%nat.
Proof.
  destruct (OAuthMoreFacts.stale_timer_closes_current_listener
              (fst MoreSamples.second_attempt) (snd MoreSamples.second_attempt)
              0%nat 1%nat (callback_verdict ScenarioData.granted "5f2b9c"))
    as (Htrace & _ & Hap & Hport & Hlp & _).
  - apply (bool_decide_unpack _). vm_compute. exact I.
  - vm_compute. reflexivity.
  - vm_compute. reflexivity.
  - cbv zeta. rewrite Htrace, Hap, Hlp, last_snoc.
    split; [reflexivity|]. split; [apply Hport; vm_compute; reflexivity|].
    split; vm_compute; reflexivity.
Defined.

Lemma login_without_browser_witness :
  let s' := snd (OAuthManager.login "5f2b9c" false
                   (OAuthManager.new OAuthSamples.github_config, OAuthManager.boot)) in
  OAuthManager.loginPromise (snd s') !! 0%nat = Some (Throw BrowserFailed)
  /\ OAuthManager.server (fst s') = None
  /\ OAuthManager.port (snd s') = None.
Proof.
  destruct (OAuthMoreFacts.login_without_browser
              (OAuthManager.new OAuthSamples.github_config) OAuthManager.boot "5f2b9c")
    as (_ & Hlp & _ & Hsv & _ & Hport & _).
  - vm_compute. reflexivity.
  - discriminate.
  - split; [exact Hlp|]. split; [exact Hsv|]. apply Hport. reflexivity.
Defined.

Lemma validateRequiredEnvVars_spec_witness :
  Config.validateRequiredEnvVars Config.Object_prototype MoreSamples.env
    ["GITHUB_CLIENT_ID"; "toString"; "GITHUB_CLIENT_SECRET"]
  = Config.Good tt.
Proof.
  apply (ConfigFacts.validateRequiredEnvVars_spec Config.Object_prototype
           MoreSamples.env ["GITHUB_CLIENT_ID"; "toString"; "GITHUB_CLIENT_SECRET"]).
  constructor; [|constructor; [|constructor; [|constructor]]].
  - left. exists "Iv1.0123456789abcdef".
    split; [vm_compute; reflexivity | discriminate].
  - right. split; vm_compute; reflexivity.
  - left. exists "shhh". split; [vm_compute; reflexivity | discriminate].
Defined.

Lemma getGitHubOAuthConfig_never_empty_witness :
  exists config,
    Config.getGitHubOAuthConfig MoreSamples.env = Config.Good config
    /\ Config.gh_clientId config <> ""
    /\ Config.gh_redirectUri config = "http://localhost:3000/auth/callback".
Proof.
  eexists. split; [vm_compute; reflexivity|].
  split; [|reflexivity].
  eapply (ConfigFacts.getGitHubOAuthConfig_never_empty MoreSamples.env).
  vm_compute. reflexivity.
Defined.

Lemma oauth_logout_always_succeeds_witness :
  let s := MoreSamples.running Samples.logged_in
             (Samples.world_with_session Samples.token_delete_fails Samples.up) in
  fst (App.oauth_logout s) = Ok App.LogoutOk
  /\ store (App.world (snd (snd (App.oauth_logout s)))) !! TOKEN_KEY = Some "tok_1".
Proof.
  intros s.
  destruct (AppFacts.oauth_logout_always_succeeds s) as (Hreply & _ & _ & _ & Hstore).
  split; [exact Hreply|].
  rewrite Hstore.
  - vm_compute. reflexivity.
  - eexists. reflexivity.
  - reflexivity.
Defined.

Lemma initializeOAuth_managers_iff_configured_witness :
  is_Some (App.oauthManager
             (fst (snd (@App.initializeOAuth ScenarioData.codec MoreSamples.URL_pathname
                          MoreSamples.env
                          (MoreSamples.cold
                             (Samples.world Samples.no_faults Samples.up)))))).
Proof.
  apply (@AppFacts.initializeOAuth_managers_iff_configured ScenarioData.codec
           MoreSamples.URL_pathname MoreSamples.env
           (MoreSamples.cold (Samples.world Samples.no_faults Samples.up))).
  exists "Iv1.0123456789abcdef", "shhh".
  split; [vm_compute; reflexivity|]. split; [discriminate|]. split; [discriminate|].
  split; [vm_compute; reflexivity|]. split; discriminate.
Defined.


Lemma oauth_get_token_validates_first_witness :
  exists k sess u w1,
    App.sessionManager
      (fst (MoreSamples.running Samples.logged_in
              (MoreSamples.later Samples.no_faults Samples.up))) = Some k
    /\ Keytar.currentSession k = Some sess
    /\ tk_access_token (token sess) = "tok_1"
    /\ "tok_1" <> ""
    /\ GitHubAPI.getUserInfo "tok_1"
         (App.world (snd (MoreSamples.running Samples.logged_in
                            (MoreSamples.later Samples.no_faults Samples.up))))
       = (Ok u, w1).
Proof.
  apply (@AppFacts.oauth_get_token_validates_first ScenarioData.codec).
  vm_compute. reflexivity.
Defined.

Lemma oauth_login_all_or_nothing_witness :
  let outcome := callback_verdict ScenarioData.granted "5f2b9c" in
  let s' := snd (@Main.oauth_login ScenarioData.codec outcome ScenarioData.fresh) in
  (exists session,
     Keytar.currentSession (fst s') = Some session
     /\ user session = Samples.octocat /\ token session = Samples.tok_1)
  /\ store (snd s') !! TOKEN_KEY = Some "tok_1".
Proof.
  intros outcome s'.
  pose proof (@AppFacts.oauth_login_all_or_nothing ScenarioData.codec
                outcome ScenarioData.fresh) as W.
  cbv zeta in W. fold s' in W.
  assert (E : fst (@Main.oauth_login ScenarioData.codec outcome ScenarioData.fresh)
              = Ok (Main.LoginSucceeded Samples.octocat Samples.tok_1))
    by (vm_compute; reflexivity).
  rewrite E in W. destruct W as (Hsession & _ & Hstore).
  split; [exact Hsession | exact Hstore].
Defined.

Lemma refresh_user_handler_ignores_isRefreshing_witness :
  let s := MoreSamples.running MoreSamples.refreshing
             (MoreSamples.later Samples.no_faults Samples.up) in
  @App.oauth_manual_refresh ScenarioData.codec s
  = (Ok (App.RefreshOk (App.refreshed_view Samples.octocat)), s)
  /\ exists more,
       requests (App.world (snd (snd (@App.oauth_refresh_user ScenarioData.codec s))))
       = (GetUser "tok_1" :: more)%list.
Proof.
  exact (@AppFacts.refresh_user_handler_ignores_isRefreshing ScenarioData.codec
           (MoreSamples.running MoreSamples.refreshing
              (MoreSamples.later Samples.no_faults Samples.up))
           MoreSamples.refreshing Samples.session eq_refl eq_refl eq_refl).
Defined.

End MoreInstances.
